(** * CyberAudit: the assessment pipeline, embedded and verified

    A shallow embedding of the scoring engine ([utils/scoring.py]), the CMS
    fingerprint engine and version correlator ([scanners/cms_scanner.py]),
    the per-scanner score calculators and the scan endpoint ([main.py]).

    Python values that cross module boundaries ([Dict[str, Any]]) are
    modelled by the type [value]; code that can raise runs in the [result]
    monad, and every [except Exception] of the source is a [match] on it.
    Floats are IEEE 754 binary64, as in CPython. *)

From Stdlib Require Import ZArith List String Ascii Bool Lia Floats DecimalString.
Import ListNotations.

Set Warnings "-inexact-float,-register-all".

Open Scope string_scope.
Open Scope list_scope.
Open Scope Z_scope.

(* ================================================================= *)
(** ** Python values and builtins *)

Module Py.

(** The builtin exception classes the modelled code can raise.  All of
    them derive from [Exception], so every handler of the source catches
    each of them. *)
Inductive exc : Type :=
| AttributeError
| TypeError
| KeyError
| ValueError
| OverflowError.

Inductive result (A : Type) : Type :=
| Ok (a : A)
| Raise (e : exc).

Arguments Ok {A} a.
Arguments Raise {A} e.

Definition bind {A B : Type} (m : result A) (k : A -> result B) : result B :=
  match m with
  | Ok a => k a
  | Raise e => Raise e
  end.

Notation "x <- m ;; k" := (bind m (fun x => k))
  (at level 61, m at next level, right associativity).

Fixpoint foldM {A B : Type} (f : A -> B -> result A) (l : list B) (a : A)
  : result A :=
  match l with
  | [] => Ok a
  | b :: l' => a' <- f a b ;; foldM f l' a'
  end.

Fixpoint mapM {A B : Type} (f : A -> result B) (l : list A) : result (list B) :=
  match l with
  | [] => Ok []
  | a :: l' => b <- f a ;; bs <- mapM f l' ;; Ok (b :: bs)
  end.

(** JSON-like Python values; numbers are ints, as the scanners produce
    them.  A [dict] keeps insertion order; its keys are strings, and
    [lookup] returns the first binding of a key. *)
Inductive value : Type :=
| VNone
| VBool (b : bool)
| VInt (z : Z)
| VStr (s : string)
| VList (l : list value)
| VDict (d : list (string * value)).

Definition dict : Type := list (string * value).

Fixpoint lookup {A : Type} (k : string) (d : list (string * A)) : option A :=
  match d with
  | [] => None
  | (k', v) :: d' => if String.eqb k k' then Some v else lookup k d'
  end.

Definition has_key {A : Type} (k : string) (d : list (string * A)) : bool :=
  match lookup k d with
  | Some _ => true
  | None => false
  end.

(** [d[k] = v]: replaces the binding in place, or appends a new one. *)
Fixpoint dict_set {A : Type} (d : list (string * A)) (k : string) (v : A)
  : list (string * A) :=
  match d with
  | [] => [(k, v)]
  | (k', v') :: d' =>
      if String.eqb k k' then (k', v) :: d' else (k', v') :: dict_set d' k v
  end.

Definition keys {A : Type} (d : list (string * A)) : list string := map fst d.

(** Truth value of an object, as tested by [if x] and [not x]. *)
Definition truthy (v : value) : bool :=
  match v with
  | VNone => false
  | VBool b => b
  | VInt z => negb (z =? 0)
  | VStr s => negb (String.eqb s EmptyString)
  | VList l => match l with [] => false | _ => true end
  | VDict d => match d with [] => false | _ => true end
  end.

(** [x.get(k, default)]: only a dict has the method. *)
Definition get (v : value) (k : string) (default : value) : result value :=
  match v with
  | VDict d => Ok (match lookup k d with Some x => x | None => default end)
  | _ => Raise AttributeError
  end.

(** [x == "literal"] *)
Definition eq_str (v : value) (s : string) : bool :=
  match v with
  | VStr t => String.eqb t s
  | _ => false
  end.

(** [x == n] for an int literal [n]; [bool] is a subclass of [int]. *)
Definition eq_int (v : value) (n : Z) : bool :=
  match v with
  | VInt z => z =? n
  | VBool b => (if b then 1 else 0) =? n
  | _ => false
  end.

Definition is_dict (v : value) : bool :=
  match v with
  | VDict _ => true
  | _ => false
  end.

(** *** Strings: UTF-8 text held as bytes *)

Definition is_continuation (c : ascii) : bool :=
  let n := nat_of_ascii c in (128 <=? n)%nat && (n <? 192)%nat.

Definition starts_with_continuation (s : string) : bool :=
  match s with
  | String c _ => is_continuation c
  | EmptyString => false
  end.

(** The code points of a string, each as the string of its bytes. *)
Fixpoint utf8_chars (s : string) : list string :=
  match s with
  | EmptyString => []
  | String c r =>
      match utf8_chars r with
      | h :: t =>
          if starts_with_continuation r then String c h :: t
          else String c EmptyString :: h :: t
      | [] => [String c EmptyString]
      end
  end.

Definition str_len (s : string) : Z := Z.of_nat (List.length (utf8_chars s)).

Definition lower_ascii (c : ascii) : ascii :=
  let n := nat_of_ascii c in
  if (65 <=? n)%nat && (n <=? 90)%nat then ascii_of_nat (n + 32) else c.

(** [s.lower()] on the ASCII letters. *)
Fixpoint lower (s : string) : string :=
  match s with
  | EmptyString => EmptyString
  | String c r => String (lower_ascii c) (lower r)
  end.

(** [needle in hay] for two strings. *)
Fixpoint is_infix (needle hay : string) : bool :=
  String.prefix needle hay ||
  match hay with
  | EmptyString => false
  | String _ r => is_infix needle r
  end.

(** [s.startswith(p)] *)
Definition startswith (s p : string) : bool := String.prefix p s.

(** [s.split(sep)] for a one-character separator. *)
Fixpoint split (sep : ascii) (s : string) : list string :=
  match s with
  | EmptyString => [EmptyString]
  | String c r =>
      if Ascii.eqb c sep then EmptyString :: split sep r
      else match split sep r with
           | h :: t => String c h :: t
           | [] => [String c EmptyString]
           end
  end.

(** [str(n)] for an int. *)
Definition str_of_int (z : Z) : string := NilZero.string_of_int (Z.to_int z).

(** [format(v)] inside an f-string.  The text of a list or a dict is
    [repr]-based and is left to [container_repr]. *)
Definition format (container_repr : value -> string) (v : value) : string :=
  match v with
  | VNone => "None"
  | VBool true => "True"
  | VBool false => "False"
  | VInt z => str_of_int z
  | VStr s => s
  | VList _ | VDict _ => container_repr v
  end.

(** *** Sequences *)

(** [len(x)] *)
Definition len (v : value) : result Z :=
  match v with
  | VStr s => Ok (str_len s)
  | VList l => Ok (Z.of_nat (List.length l))
  | VDict d => Ok (Z.of_nat (List.length d))
  | _ => Raise TypeError
  end.

(** The items a [for] loop visits in [x[:n]]. *)
Definition slice_items (n : nat) (v : value) : result (list value) :=
  match v with
  | VList l => Ok (firstn n l)
  | VStr s => Ok (map VStr (firstn n (utf8_chars s)))
  | _ => Raise TypeError
  end.

(** [k in x] for a string [k]. *)
Definition contains_str (v : value) (k : string) : result bool :=
  match v with
  | VDict d => Ok (has_key k d)
  | VList l => Ok (existsb (fun x => eq_str x k) l)
  | VStr s => Ok (is_infix k s)
  | _ => Raise TypeError
  end.

(** [x[k]] for a string [k]. *)
Definition subscript_str (v : value) (k : string) : result value :=
  match v with
  | VDict d => match lookup k d with Some x => Ok x | None => Raise KeyError end
  | _ => Raise TypeError
  end.

(** [list(dict.fromkeys(l))]: the keys of the dict built by inserting the
    elements of [l] in order, an element already present keeping its place. *)
Definition dict_fromkeys (l : list string) : list string :=
  fold_left
    (fun ks x => if existsb (String.eqb x) ks then ks else ks ++ [x]) l [].

(** *** Numbers *)

(** [float(n)] for an int: round to nearest, ties to even; a magnitude
    beyond the largest double raises. *)
Definition float_of_int (z : Z) : result float :=
  let f := SF2Prim (binary_normalize prec emax z 0 false) in
  if is_infinity f then Raise OverflowError else Ok f.

(** [int(x)] for a float: truncation toward zero. *)
Definition int_of_float (f : float) : result Z :=
  match Prim2SF f with
  | S754_zero _ => Ok 0
  | S754_finite s m e =>
      let mag := if 0 <=? e then Z.pos m * 2 ^ e else Z.pos m / 2 ^ (- e) in
      Ok (if s then - mag else mag)
  | S754_infinity _ => Raise OverflowError
  | S754_nan => Raise ValueError
  end.

(** The int an object counts as in arithmetic with a number. *)
Definition as_int (v : value) : result Z :=
  match v with
  | VInt z => Ok z
  | VBool b => Ok (if b then 1 else 0)
  | _ => Raise TypeError
  end.

(** [x * w] for a float [w]. *)
Definition mul_float (v : value) (w : float) : result float :=
  z <- as_int v ;;
  f <- float_of_int z ;;
  Ok (f * w)%float.

(** [x >= n] for an int literal [n]. *)
Definition ge_int (v : value) (n : Z) : result bool :=
  z <- as_int v ;; Ok (n <=? z).

(** The items a [for] loop visits in [x]. *)
Definition iter_items (v : value) : result (list value) :=
  match v with
  | VList l => Ok l
  | VStr s => Ok (map VStr (utf8_chars s))
  | VDict d => Ok (map (fun kv => VStr (fst kv)) d)
  | _ => Raise TypeError
  end.

(** [x.items()] *)
Definition items (v : value) : result (list (string * value)) :=
  match v with
  | VDict d => Ok d
  | _ => Raise AttributeError
  end.

(** [ensures P m]: if [m] returns, its value satisfies [P]. *)
Definition ensures {A : Type} (P : A -> Prop) (m : result A) : Prop :=
  match m with
  | Ok a => P a
  | Raise _ => True
  end.

(** [max(0, min(score, 100))] *)
Definition clamp (score : Z) : Z := Z.max 0 (Z.min score 100).

End Py.

Import Py.

(* ================================================================= *)
(** ** utils/scoring.py: class SecurityScorer *)

Module Scoring.

(** [self.weights], in insertion order. *)
Definition weights : list (string * float) :=
  [("ssl", 0.25); ("ports", 0.20); ("headers", 0.25); ("cms", 0.20);
   ("ddos", 0.10)]%float.

(** One turn of the loop of [calculate_total_score] over [self.weights];
    the accumulator is [(total_score, total_weight)]. *)
Definition accumulate (scan_results : dict) (acc : float * float)
  (entry : string * float) : result (float * float) :=
  let '(total_score, total_weight) := acc in
  let '(scan_type, weight) := entry in
  match lookup scan_type scan_results with
  | None => Ok acc
  | Some r =>
      err <- get r "error" VNone ;;
      if truthy err then Ok acc
      else
        score <- get r "score" (VInt 0) ;;
        x <- mul_float score weight ;;
        Ok (total_score + x, total_weight + weight)%float
  end.

(** The [try] body of [calculate_total_score]. *)
Definition total_score_body (scan_results : dict) : result Z :=
  acc <- foldM (accumulate scan_results) weights (0, 0)%float ;;
  let '(total_score, total_weight) := acc in
  final_score <-
    (if (0 <? total_weight)%float then int_of_float (total_score / total_weight)
     else Ok 0) ;;
  Ok (clamp final_score).

Definition calculate_total_score (scan_results : dict) : Z :=
  match total_score_body scan_results with
  | Ok s => s
  | Raise _ => 0
  end.

(** [self.security_levels], in insertion order: level, [min_score],
    description. *)
Definition security_levels : list (string * (Z * string)) :=
  [("excellent", (90, "Отличная безопасность"));
   ("good", (80, "Хорошая безопасность"));
   ("warning", (60, "Требуется внимание"));
   ("critical", (0, "Критические проблемы"))].

(** [sorted(..., key=min_score, reverse=True)]: a stable sort, by insertion. *)
Fixpoint insert_desc (x : string * (Z * string))
  (l : list (string * (Z * string))) : list (string * (Z * string)) :=
  match l with
  | [] => [x]
  | y :: l' =>
      if fst (snd y) <=? fst (snd x) then x :: l else y :: insert_desc x l'
  end.

Definition sorted_desc (l : list (string * (Z * string)))
  : list (string * (Z * string)) :=
  fold_right insert_desc [] l.

(** The level loop of [get_security_summary]: the first level, from the
    highest [min_score] down, that [total_score] reaches. *)
Fixpoint first_level (levels : list (string * (Z * string))) (total_score : Z)
  (default : string) : string :=
  match levels with
  | [] => default
  | (level, (min_score, _)) :: rest =>
      if min_score <=? total_score then level
      else first_level rest total_score default
  end.

Record Statistics : Type := mkStatistics {
  total_checks : Z;
  passed_checks : Z;
  failed_checks : Z;
  issues_found : Z
}.

Record Summary : Type := mkSummary {
  security_level : string;
  description : string;
  total_score : Z;
  statistics : Statistics;
  certificate_eligible : bool
}.

(** One turn of the statistics loop of [get_security_summary]; the
    accumulator is [(total_checks, passed_checks, issues_found)]. *)
Definition count_checks (acc : Z * Z * Z) (entry : string * value)
  : result (Z * Z * Z) :=
  let '(total, passed, found) := acc in
  let result := snd entry in
  if is_dict result then
    err <- get result "error" VNone ;;
    if truthy err then Ok acc
    else
      t <- get result "total_checks" (VInt 0) ;;
      t' <- as_int t ;;
      p <- get result "passed_checks" (VInt 0) ;;
      p' <- as_int p ;;
      issues <- get result "issues" (VList []) ;;
      n <- len issues ;;
      Ok (total + t', passed + p', found + n)
  else Ok acc.

(** [get_security_summary]; it has no handler of its own. *)
Definition get_security_summary (scan_results : dict) (score : Z)
  : result Summary :=
  let level := first_level (sorted_desc security_levels) score "critical" in
  acc <- foldM count_checks scan_results (0, 0, 0) ;;
  let '(total, passed, found) := acc in
  descr <- match lookup level security_levels with
           | Some (_, d) => Ok d
           | None => Raise KeyError
           end ;;
  Ok (mkSummary level descr score
        (mkStatistics total passed (total - passed) found)
        (80 <=? score)).

Section Recommendations.

(** [str()] of a list or a dict, met only where an f-string formats one. *)
Variable container_repr : value -> string.

Definition fmt (v : value) : string := format container_repr v.

Definition _get_ssl_recommendations (ssl_result : value) : result (list string) :=
  err <- get ssl_result "error" VNone ;;
  if truthy err then Ok ["Исправьте проблемы с SSL конфигурацией"]
  else
    status <- get ssl_result "status" VNone ;;
    if eq_str status "critical" then
      protocol <- get ssl_result "protocol" VNone ;;
      if eq_str protocol "HTTP" then
        Ok ["Установите SSL сертификат и включите HTTPS";
            "Настройте автоматическое перенаправление с HTTP на HTTPS"]
      else Ok ["Срочно обновите SSL конфигурацию"]
    else if eq_str status "warning" then
      certificate <- get ssl_result "certificate" (VDict []) ;;
      expires_soon <- get certificate "expires_soon" VNone ;;
      protocols <- get ssl_result "protocols" (VDict []) ;;
      weak_protocols <- get protocols "weak_protocols" VNone ;;
      Ok ((if truthy expires_soon
           then ["Продлите SSL сертификат до истечения срока действия"]
           else [])
          ++ (if truthy weak_protocols
              then ["Отключите устаревшие протоколы TLS/SSL"]
              else []))
    else Ok [].

(** The body of the loop over [dangerous_ports[:3]]. *)
Definition port_recommendation (port_info : value) : result string :=
  port <- get port_info "port" VNone ;;
  service <- get port_info "service" (VStr "unknown") ;;
  if eq_int port 21 then
    Ok "Замените FTP на SFTP или FTPS для безопасной передачи файлов"
  else if eq_int port 23 then
    Ok "Замените Telnet на SSH для безопасного удаленного доступа"
  else if eq_int port 3389 then
    Ok "Ограничьте доступ к RDP через VPN"
  else if existsb (eq_int port) [3306; 5432; 1433] then
    Ok ("Закройте прямой доступ к базе данных (" ++ fmt service
          ++ ") из интернета")%string
  else
    Ok ("Закройте неиспользуемый порт " ++ fmt port ++ " (" ++ fmt service
          ++ ")")%string.

Definition _get_port_recommendations (port_result : value)
  : result (list string) :=
  err <- get port_result "error" VNone ;;
  if truthy err then Ok []
  else
    dangerous_ports <- get port_result "dangerous_ports" (VList []) ;;
    first3 <- slice_items 3 dangerous_ports ;;
    recs <- mapM port_recommendation first3 ;;
    n <- len dangerous_ports ;;
    Ok (recs ++
        (if 3 <? n
         then [("Проверьте и закройте остальные " ++ str_of_int (n - 3)
                  ++ " небезопасных портов")%string]
         else [])).

Definition priority_headers : list string :=
  ["strict-transport-security"; "content-security-policy"; "x-frame-options"].

(** The body of the loop over [priority_headers]. *)
Definition header_recommendation (missing : value) (header : string)
  : result (list string) :=
  present <- contains_str missing header ;;
  if present then
    info <- subscript_str missing header ;;
    header_name <- get info "name" (VStr header) ;;
    Ok [("Добавьте заголовок " ++ fmt header_name)%string]
  else Ok [].

Definition _get_header_recommendations (header_result : value)
  : result (list string) :=
  err <- get header_result "error" VNone ;;
  if truthy err then Ok []
  else
    security_headers <- get header_result "security_headers" (VDict []) ;;
    missing <- get security_headers "missing" (VDict []) ;;
    recs <- mapM (header_recommendation missing) priority_headers ;;
    dangerous_headers <- get header_result "dangerous_headers" (VDict []) ;;
    dangerous <- get dangerous_headers "found" (VDict []) ;;
    Ok (List.concat recs ++
        (if truthy dangerous
         then ["Скройте информационные заголовки сервера (Server, X-Powered-By)"]
         else [])).

Definition _get_cms_recommendations (cms_result : value)
  : result (list string) :=
  err <- get cms_result "error" VNone ;;
  if truthy err then Ok []
  else
    cms_info <- get cms_result "cms" (VDict []) ;;
    vulnerabilities <- get cms_result "vulnerabilities" (VDict []) ;;
    detected <- get cms_info "detected" VNone ;;
    if truthy detected then
      cms_name <- get cms_info "name" (VStr "CMS") ;;
      found <- get vulnerabilities "found" VNone ;;
      vuln_recs <-
        (if truthy found then
           risk_level <- get vulnerabilities "risk_level" (VStr "medium") ;;
           Ok (("Срочно обновите " ++ fmt cms_name ++ " до последней версии")%string
               :: (if eq_str risk_level "critical"
                   then ["Найдены критические уязвимости - примените патчи немедленно"]
                   else []))
         else Ok []) ;;
      exposed_files <- get cms_result "exposed_files" (VDict []) ;;
      exposed <- get exposed_files "found" VNone ;;
      plugins <- get cms_result "plugins" (VDict []) ;;
      outdated <- get plugins "outdated" VNone ;;
      Ok (vuln_recs
          ++ (if truthy exposed
              then ["Ограничьте доступ к системным файлам CMS"] else [])
          ++ (if truthy outdated then ["Обновите устаревшие плагины"] else []))
    else Ok [].

Definition _get_ddos_recommendations (ddos_result : value)
  : result (list string) :=
  err <- get ddos_result "error" VNone ;;
  if truthy err then Ok []
  else
    cdn_info <- get ddos_result "cdn_detection" (VDict []) ;;
    cdn <- get cdn_info "detected" VNone ;;
    rate_limiting <- get ddos_result "rate_limiting" (VDict []) ;;
    limited <- get rate_limiting "detected" VNone ;;
    dns_info <- get ddos_result "dns_info" (VDict []) ;;
    single_ip <- get dns_info "single_ip" VNone ;;
    Ok ((if truthy cdn then []
         else ["Настройте CDN (например, Cloudflare) для защиты от DDoS атак"])
        ++ (if truthy limited then []
            else ["Настройте ограничение скорости запросов (rate limiting)"])
        ++ (if truthy single_ip
            then ["Настройте балансировку нагрузки между несколькими серверами"]
            else [])).

(** One turn of the counting loop of [_get_general_recommendations]; the
    accumulator is [(total_issues, critical_issues)]. *)
Definition count_issues (acc : Z * Z) (entry : string * value) : result (Z * Z) :=
  let '(total_issues, critical_issues) := acc in
  let result := snd entry in
  if is_dict result then
    issues <- get result "issues" (VList []) ;;
    n <- len issues ;;
    status <- get result "status" VNone ;;
    Ok (total_issues + n,
        if eq_str status "critical" then critical_issues + 1
        else critical_issues)
  else Ok acc.

Definition always_applicable : list string :=
  ["Регулярно обновляйте программное обеспечение";
   "Используйте сильные пароли и двухфакторную аутентификацию"].

Definition _get_general_recommendations (scan_results : dict)
  : result (list string) :=
  acc <- foldM count_issues scan_results (0, 0) ;;
  let '(total_issues, critical_issues) := acc in
  Ok ((if 2 <? critical_issues
       then ["Рекомендуется комплексный аудит безопасности"] else [])
      ++ (if 10 <? total_issues
          then ["Создайте план поэтапного устранения уязвимостей";
                "Настройте мониторинг безопасности"]
          else [])
      ++ always_applicable).

(** [if key in scan_results: recommendations.extend(f(scan_results[key]))] *)
Definition extend_for (scan_results : dict) (key : string)
  (f : value -> result (list string)) (recommendations : list string)
  : result (list string) :=
  match lookup key scan_results with
  | Some r => recs <- f r ;; Ok (recommendations ++ recs)
  | None => Ok recommendations
  end.

(** The [try] body of [generate_recommendations] up to the last [extend]:
    the list [recommendations] before duplicates are removed. *)
Definition collect_recommendations (scan_results : dict) : result (list string) :=
  r1 <- extend_for scan_results "ssl" _get_ssl_recommendations [] ;;
  r2 <- extend_for scan_results "ports" _get_port_recommendations r1 ;;
  r3 <- extend_for scan_results "headers" _get_header_recommendations r2 ;;
  r4 <- extend_for scan_results "cms" _get_cms_recommendations r3 ;;
  r5 <- extend_for scan_results "ddos" _get_ddos_recommendations r4 ;;
  general <- _get_general_recommendations scan_results ;;
  Ok (r5 ++ general).

Definition default_recommendation (translations : list (string * string)) : string :=
  match lookup "default_recommendation" translations with
  | Some s => s
  | None => "Обратитесь к специалисту по информационной безопасности"
  end.

Definition generate_recommendations (scan_results : dict)
  (translations : list (string * string)) : list string :=
  match collect_recommendations scan_results with
  | Ok recommendations => firstn 15 (dict_fromkeys recommendations)
  | Raise _ => [default_recommendation translations]
  end.

End Recommendations.

End Scoring.

(* ================================================================= *)
(** ** scanners/*.py: the score calculators *)

Module Scanners.

(** [_determine_status], the same in the five scanners. *)
Definition _determine_status (score : Z) : string :=
  if 80 <=? score then "good"
  else if 60 <=? score then "warning"
  else "critical".

(** The [score] entry of the dict [scan] returns: the calculator's value
    on the normal path, the [0] written by the handler when the
    calculator raised. *)
Definition reported_score (computed : result Z) : Z :=
  match computed with
  | Ok score => score
  | Raise _ => 0
  end.

(** [SSLScanner.scan] on an [http://] URL: no calculator runs. *)
Definition ssl_http_score (redirect : bool) : Z := if redirect then 20 else 0.

Definition _calculate_ssl_score (ssl_info cert_info protocol_info cipher_info : value)
  : result Z :=
  let score := 0 + 20 in
  cert_err <- get cert_info "error" VNone ;;
  score <-
    (if truthy cert_err then Ok score
     else
       expired <- get cert_info "expired" (VBool false) ;;
       let score := if truthy expired then score else score + 10 in
       self_signed <- get cert_info "self_signed" (VBool false) ;;
       let score := if truthy self_signed then score else score + 10 in
       key_size <- get cert_info "key_size" (VInt 0) ;;
       big <- ge_int key_size 2048 ;;
       let score := if big then score + 5 else score in
       expires_soon <- get cert_info "expires_soon" (VBool false) ;;
       Ok (if truthy expires_soon then score else score + 5)) ;;
  proto_err <- get protocol_info "error" VNone ;;
  score <-
    (if truthy proto_err then Ok score
     else
       modern_protocols <- get protocol_info "modern_protocols" (VList []) ;;
       weak_protocols <- get protocol_info "weak_protocols" (VList []) ;;
       tls13 <- contains_str modern_protocols "TLSv1.3" ;;
       score <-
         (if tls13 then Ok (score + 15)
          else
            tls12 <- contains_str modern_protocols "TLSv1.2" ;;
            Ok (if tls12 then score + 10 else score)) ;;
       if truthy weak_protocols then
         n <- len weak_protocols ;;
         Ok (if n =? 1 then score + 10
             else if n =? 2 then score + 5
             else score)
       else Ok (score + 15)) ;;
  cipher_err <- get cipher_info "error" VNone ;;
  score <-
    (if truthy cipher_err then Ok score
     else
       strong_cipher <- get cipher_info "strong_cipher" (VBool false) ;;
       score <-
         (if truthy strong_cipher then Ok (score + 15)
          else
            bits <- get cipher_info "bits" (VInt 0) ;;
            b128 <- ge_int bits 128 ;;
            if b128 then Ok (score + 10)
            else
              b64 <- ge_int bits 64 ;;
              Ok (if b64 then score + 5 else score)) ;;
       weak_ciphers <- get cipher_info "weak_ciphers" (VList []) ;;
       Ok (if truthy weak_ciphers then score else score + 5)) ;;
  Ok (Z.min score 100).

(** The penalty loop of [_calculate_port_score]. *)
Definition port_penalty (score : Z) (port_info : value) : result Z :=
  risk <- subscript_str port_info "risk" ;;
  Ok (if eq_str risk "critical" then score - 25
      else if eq_str risk "high" then score - 15
      else if eq_str risk "medium" then score - 10
      else score - 5).

Definition _calculate_port_score (analysis : value) : result Z :=
  let score := 100 in
  dangerous_ports <- subscript_str analysis "dangerous_ports" ;;
  open_ports <- subscript_str analysis "open_ports" ;;
  dangerous <- iter_items dangerous_ports ;;
  score <- foldM port_penalty dangerous score ;;
  n <- len open_ports ;;
  let score := if 10 <? n then score - 10
               else if 5 <? n then score - 5
               else score in
  let score := if negb (truthy dangerous_ports) && (n <=? 3) then score + 10
               else score in
  Ok (clamp score).

(** The loop of [_calculate_headers_score] over the headers present. *)
Definition present_points (score : Z) (entry : string * value) : result Z :=
  let info := snd entry in
  header_score <- subscript_str info "score" ;;
  strength <- get info "strength" VNone ;;
  header_score <-
    (if eq_str strength "excellent" then
       x <- mul_float header_score 1.1 ;; int_of_float x
     else if eq_str strength "warning" then
       x <- mul_float header_score 0.7 ;; int_of_float x
     else as_int header_score) ;;
  Ok (score + header_score).

(** The loop of [_calculate_headers_score] over the headers missing. *)
Definition missing_penalty (score : Z) (entry : string * value) : result Z :=
  let info := snd entry in
  required <- subscript_str info "required" ;;
  if truthy required then
    w <- subscript_str info "score_weight" ;;
    w' <- as_int w ;;
    Ok (score - w' / 2)
  else Ok score.

Definition _calculate_headers_score
  (security_analysis dangerous_analysis https_analysis : value) : result Z :=
  let score := 0 in
  present <- subscript_str security_analysis "present" ;;
  present_items <- items present ;;
  score <- foldM present_points present_items score ;;
  missing <- subscript_str security_analysis "missing" ;;
  missing_items <- items missing ;;
  score <- foldM missing_penalty missing_items score ;;
  incorrect <- subscript_str security_analysis "incorrect" ;;
  incorrect_items <- items incorrect ;;
  let score := score - 10 * Z.of_nat (List.length incorrect_items) in
  count <- subscript_str dangerous_analysis "count" ;;
  count' <- as_int count ;;
  let score := score - count' * 5 in
  redirect <- get https_analysis "http_to_https_redirect" VNone ;;
  score <-
    (if truthy redirect then
       permanent <- get https_analysis "permanent" VNone ;;
       Ok (if truthy permanent then score + 5 + 5 else score + 5)
     else Ok score) ;;
  Ok (clamp score).

(** The vulnerability penalty loop of [_calculate_cms_score]. *)
Definition vuln_penalty (score : Z) (vuln : value) : result Z :=
  severity <- subscript_str vuln "severity" ;;
  Ok (if eq_str severity "critical" then score - 30
      else if eq_str severity "high" then score - 20
      else if eq_str severity "medium" then score - 10
      else score - 5).

(** The exposed-file penalty loop of [_calculate_cms_score]. *)
Definition file_penalty (score : Z) (file_info : value) : result Z :=
  risk <- subscript_str file_info "risk" ;;
  Ok (if eq_str risk "high" then score - 15
      else if eq_str risk "medium" then score - 10
      else score - 5).

Definition _calculate_cms_score (cms_info vulns exposed plugins : value)
  : result Z :=
  let score := 100 in
  found <- subscript_str vulns "found" ;;
  found_items <- iter_items found ;;
  score <- foldM vuln_penalty found_items score ;;
  files <- subscript_str exposed "found" ;;
  file_items <- iter_items files ;;
  score <- foldM file_penalty file_items score ;;
  outdated <- get plugins "outdated" (VList []) ;;
  n_outdated <- len outdated ;;
  let score := score - n_outdated * 5 in
  vulnerable <- get plugins "vulnerable" (VList []) ;;
  n_vulnerable <- len vulnerable ;;
  let score := score - n_vulnerable * 15 in
  detected <- get cms_info "detected" VNone ;;
  score <-
    (if truthy detected then
       version <- get cms_info "version" VNone ;;
       Ok (if truthy version then score + 10 else score)
     else Ok score) ;;
  Ok (clamp score).

Definition _calculate_protection_score (dns_info cdn_info rate_limit_info : value)
  : result Z :=
  let score := 0 in
  detected <- subscript_str cdn_info "detected" ;;
  score <-
    (if truthy detected then
       protection_level <- get cdn_info "protection_level" (VStr "medium") ;;
       Ok (if eq_str protection_level "excellent" then score + 50
           else if eq_str protection_level "good" then score + 35
           else score + 20)
     else Ok score) ;;
  single_ip <- get dns_info "single_ip" (VBool true) ;;
  let score := if truthy single_ip then score else score + 25 in
  limited <- subscript_str rate_limit_info "detected" ;;
  let score := if truthy limited then score + 25 else score in
  Ok (clamp score).

End Scanners.

(* ================================================================= *)
(** ** scanners/cms_scanner.py: fingerprint engine and version correlator *)

Module CMS.

(** One entry of [self.cms_signatures]. *)
Record Signature : Type := mkSignature {
  name : string;
  paths : list string;
  headers : list (string * string);
  meta : list string;
  files : list string;
  patterns : list string
}.

Definition dq : string := String (ascii_of_nat 34) EmptyString.

Definition generator_pattern (attr product : string) : string :=
  ("<meta name=" ++ dq ++ attr ++ dq ++ " content=" ++ dq ++ product
     ++ " ([0-9.]+)" ++ dq)%string.

(** [self.cms_signatures], in insertion order. *)
Definition cms_signatures : list (string * Signature) :=
  [("wordpress",
    mkSignature "WordPress"
      ["/wp-admin/"; "/wp-content/"; "/wp-includes/"]
      [("x-powered-by", "wordpress")]
      [generator_pattern "generator" "WordPress"]
      ["/wp-config.php"; "/readme.html"]
      ["/wp-content/themes/"; "/wp-content/plugins/"]);
   ("drupal",
    mkSignature "Drupal"
      ["/user/login"; "/admin/"; "/sites/"]
      [("x-drupal-cache", EmptyString); ("x-generator", "drupal")]
      [generator_pattern "Generator" "Drupal"]
      ["/CHANGELOG.txt"; "/install.php"]
      ["/sites/default/files/"; "/modules/"]);
   ("joomla",
    mkSignature "Joomla"
      ["/administrator/"; "/components/"; "/modules/"]
      []
      [generator_pattern "generator" "Joomla!"]
      ["/configuration.php"; "/htaccess.txt"]
      ["/media/system/"; "/templates/"]);
   ("magento",
    mkSignature "Magento"
      ["/admin/"; "/downloader/"; "/app/"]
      []
      []
      ["/app/etc/config.xml"; "/downloader/"]
      ["/skin/frontend/"; "/media/catalog/"]);
   ("opencart",
    mkSignature "OpenCart"
      ["/admin/"; "/catalog/"; "/system/"]
      []
      []
      ["/config.php"; "/admin/config.php"]
      ["/catalog/view/theme/"])].

(** [self.known_vulnerabilities], in insertion order. *)
Definition known_vulnerabilities : list (string * list (string * list string)) :=
  [("wordpress",
    [("5.0", ["CVE-2019-8942"; "CVE-2019-8943"]);
     ("4.9", ["CVE-2018-6389"; "CVE-2017-17092"]);
     ("4.8", ["CVE-2017-14723"; "CVE-2017-16510"])]);
   ("drupal",
    [("8.5", ["CVE-2018-7600"; "CVE-2018-7602"]);
     ("7.58", ["CVE-2018-7600"; "CVE-2017-6920"]);
     ("7.57", ["CVE-2017-6925"; "CVE-2017-6924"])]);
   ("joomla",
    [("3.8", ["CVE-2018-6376"; "CVE-2018-6377"]);
     ("3.7", ["CVE-2017-8917"; "CVE-2017-7985"])])].

(** What the engine observes of the target: the body and the headers of
    the main page, and for each path the status of the auxiliary GET, or
    [None] when that request raised.  A path that is requested for more
    than one candidate is taken to answer alike each time. *)
Record Surface : Type := mkSurface {
  content : string;
  header : string -> option string;
  path_status : string -> option Z
}.

(** The dict [cms_results]. *)
Record CmsResults : Type := mkCmsResults {
  detected : bool;
  cms_type : option string;
  cms_name : option string;
  version : option string;
  confidence : Z;
  error : bool
}.

(** The dict [best_match]. *)
Record BestMatch : Type := mkBestMatch {
  best_cms : option string;
  best_confidence : Z;
  best_version : option string
}.

Section Engine.

(** [re.search(pattern, text, re.IGNORECASE)]: [None], or the groups of
    the match, a group that took no part being [None]. *)
Variable re_search : string -> string -> option (list (option string)).

Variable surface : Surface.

(** The header loop: a header of the signature counts when the response
    has it and the expected text is empty or occurs in its value. *)
Definition check_header (confidence : Z) (entry : string * string) : Z :=
  let '(h, expected) := entry in
  match header surface h with
  | Some actual =>
      if String.eqb expected EmptyString || is_infix (lower expected) (lower actual)
      then confidence + 20 else confidence
  | None => confidence
  end.

(** The meta loop; the state is [(confidence, version)]. *)
Definition check_meta (st : Z * option string) (pattern : string)
  : Z * option string :=
  let '(confidence, version) := st in
  match re_search pattern (content surface) with
  | Some groups =>
      (confidence + 30,
       match groups with
       | g :: _ => g
       | [] => None
       end)
  | None => st
  end.

(** The content-pattern loop. *)
Definition check_pattern (confidence : Z) (pattern : string) : Z :=
  match re_search pattern (content surface) with
  | Some _ => confidence + 15
  | None => confidence
  end.

(** The path loop; the state is [(confidence, requests issued so far)]. *)
Definition check_path (st : Z * list string) (path : string) : Z * list string :=
  let '(confidence, requests) := st in
  match path_status surface path with
  | Some status_code =>
      (if status_code =? 200 then confidence + 25 else confidence,
       requests ++ [path])
  | None => (confidence, requests ++ [path])
  end.

(** The body of the loop over the signature table, up to the comparison
    with [best_match]: confidence, version, and the requests issued. *)
Definition evaluate (cms_data : Signature) : Z * option string * list string :=
  let confidence := 0 in
  let version := None in
  let confidence := fold_left check_header (headers cms_data) confidence in
  let '(confidence, version) :=
    fold_left check_meta (meta cms_data) (confidence, version) in
  let confidence := fold_left check_pattern (patterns cms_data) confidence in
  let '(confidence, requests) :=
    fold_left check_path (firstn 2 (paths cms_data)) (confidence, []) in
  (confidence, version, requests).

(** One turn of the loop over the signature table; the state is
    [(best_match, requests issued so far)]. *)
Definition consider (st : BestMatch * list string) (entry : string * Signature)
  : BestMatch * list string :=
  let '(best_match, log) := st in
  let '(cms_key, cms_data) := entry in
  let '(confidence, version, requests) := evaluate cms_data in
  (if best_confidence best_match <? confidence
   then mkBestMatch (Some cms_key) confidence version
   else best_match,
   log ++ requests).

Definition best_of (signatures : list (string * Signature)) : BestMatch * list string :=
  fold_left consider signatures (mkBestMatch None 0 None, []).

Definition not_detected : CmsResults :=
  mkCmsResults false None None None 0 false.

(** [_detect_cms] once the main page has been fetched. *)
Definition detect_from (signatures : list (string * Signature))
  : CmsResults * list string :=
  let '(best_match, log) := best_of signatures in
  (if 50 <? best_confidence best_match then
     match best_cms best_match with
     | Some key =>
         match lookup key signatures with
         | Some cms_data =>
             mkCmsResults true (Some key) (Some (name cms_data))
               (best_version best_match) (best_confidence best_match) false
         | None => mkCmsResults false None None None 0 true
         end
     | None => mkCmsResults false None None None 0 true
     end
   else not_detected,
   log).

End Engine.

(** [_detect_cms]: [surface] is [None] when the GET of the main page
    raised, which the handler records in [cms_results['error']]. *)
Definition _detect_cms (re_search : string -> string -> option (list (option string)))
  (signatures : list (string * Signature)) (surface : option Surface)
  : CmsResults * list string :=
  match surface with
  | Some s => detect_from re_search s signatures
  | None => (mkCmsResults false None None None 0 true, [])
  end.

(** *** Version correlation *)

(** The characters [int] strips from both ends of ASCII text: the space
    and the controls from tab to carriage return. *)
Definition is_space (c : ascii) : bool :=
  let n := nat_of_ascii c in
  (n =? 32)%nat || ((9 <=? n)%nat && (n <=? 13)%nat).

Definition is_digit (c : ascii) : bool :=
  let n := nat_of_ascii c in (48 <=? n)%nat && (n <=? 57)%nat.

Definition digit_value (c : ascii) : Z := Z.of_nat (nat_of_ascii c) - 48.

Fixpoint lstrip (s : string) : string :=
  match s with
  | String c r => if is_space c then lstrip r else s
  | EmptyString => EmptyString
  end.

Fixpoint rstrip (s : string) : string :=
  match s with
  | String c r =>
      match rstrip r with
      | EmptyString => if is_space c then EmptyString else String c EmptyString
      | r' => String c r'
      end
  | EmptyString => EmptyString
  end.

(** The digits of an int literal: at least one, a single underscore
    allowed between two digits. *)
Fixpoint digits (s : string) (acc : Z) (after_digit : bool) : option Z :=
  match s with
  | EmptyString => if after_digit then Some acc else None
  | String c r =>
      if is_digit c then digits r (10 * acc + digit_value c) true
      else if Ascii.eqb c "_" && after_digit then digits r acc false
      else None
  end.

(** The code point of one character, given as the string of its UTF-8
    bytes. *)
Definition code_point (ch : string) : Z :=
  match map (fun c => Z.of_nat (nat_of_ascii c)) (list_ascii_of_string ch) with
  | [b0] => b0
  | [b0; b1] => Z.lor (Z.shiftl (Z.land b0 31) 6) (Z.land b1 63)
  | [b0; b1; b2] =>
      Z.lor (Z.shiftl (Z.land b0 15) 12)
        (Z.lor (Z.shiftl (Z.land b1 63) 6) (Z.land b2 63))
  | [b0; b1; b2; b3] =>
      Z.lor (Z.shiftl (Z.land b0 7) 18)
        (Z.lor (Z.shiftl (Z.land b1 63) 12)
           (Z.lor (Z.shiftl (Z.land b2 63) 6) (Z.land b3 63)))
  | _ => -1
  end.

(** [Py_UNICODE_ISSPACE] beyond ASCII. *)
Definition is_unicode_space (cp : Z) : bool :=
  existsb (Z.eqb cp) [133; 160; 5760; 8232; 8233; 8239; 8287; 12288]
  || ((8192 <=? cp) && (cp <=? 8202)).

(** The digit zero of every decimal script beyond ASCII, in the Unicode
    14.0 database of CPython 3.11; the nine code points after each are
    its digits 1 to 9. *)
Definition decimal_zeros : list Z :=
  [1632; 1776; 1984; 2406; 2534; 2662; 2790; 2918; 3046; 3174; 3302; 3430;
   3558; 3664; 3792; 3872; 4160; 4240; 6112; 6160; 6470; 6608; 6784; 6800;
   6992; 7088; 7232; 7248; 42528; 43216; 43264; 43472; 43504; 43600; 44016;
   65296; 66720; 68912; 69734; 69872; 69942; 70096; 70384; 70736; 70864;
   71248; 71360; 71472; 71904; 72016; 72784; 73040; 73120; 92768; 92864;
   93008; 120782; 120792; 120802; 120812; 120822; 123200; 123632; 125264;
   130032].

(** [Py_UNICODE_TODECIMAL] beyond ASCII. *)
Definition unicode_decimal (cp : Z) : option Z :=
  match filter (fun z => (z <=? cp) && (cp <=? z + 9)) decimal_zeros with
  | z :: _ => Some (cp - z)
  | [] => None
  end.

(** [PyUnicode_IS_ASCII] *)
Definition is_ascii (s : string) : bool :=
  forallb (fun c => (nat_of_ascii c <? 128)%nat) (list_ascii_of_string s).

(** The loop of [_PyUnicode_TransformDecimalAndSpaceToASCII] over the
    characters of a string that is not all ASCII: a code point below 127
    stays, whitespace becomes a space, a decimal digit its ASCII digit,
    and anything else a question mark, at which the loop ends. *)
Fixpoint to_ascii (chars : list string) : string :=
  match chars with
  | [] => EmptyString
  | ch :: rest =>
      let cp := code_point ch in
      if cp <? 127 then (ch ++ to_ascii rest)%string
      else if is_unicode_space cp then String " " (to_ascii rest)
      else
        match unicode_decimal cp with
        | Some d => String (ascii_of_nat (48 + Z.to_nat d)) (to_ascii rest)
        | None => "?"
        end
  end.

(** An all-ASCII string goes to the parser as it is. *)
Definition ascii_digits_and_spaces (s : string) : string :=
  if is_ascii s then s else to_ascii (utf8_chars s).

(** The optional sign in front of the digits. *)
Definition split_sign (body : string) : bool * string :=
  match body with
  | String "-" r => (true, r)
  | String "+" r => (false, r)
  | _ => (false, body)
  end.

Fixpoint count_digits (s : string) : Z :=
  match s with
  | EmptyString => 0
  | String c r => (if is_digit c then 1 else 0) + count_digits r
  end.

(** The default of [sys.int_max_str_digits] since CPython 3.11. *)
Definition int_max_str_digits : Z := 4300.

(** [int(s)] for a string, as CPython 3.11 does it: digits and whitespace
    beyond ASCII are brought to ASCII, then the parser skips the
    whitespace of the C locale at both ends (the controls 28 to 31, which
    [str.isspace] accepts, are not whitespace to it), reads an optional
    sign and the decimal digits, and refuses a literal of more than 4300
    digits, the underscores and the sign not counted. *)
Definition int_of_str (s : string) : result Z :=
  let body := rstrip (lstrip (ascii_digits_and_spaces s)) in
  let '(negative, ds) := split_sign body in
  match digits ds 0 false with
  | Some n =>
      if int_max_str_digits <? count_digits ds then Raise ValueError
      else Ok (if negative then - n else n)
  | None => Raise ValueError
  end.

(** [[int(x) for x in version.split('.')]] *)
Definition version_parts (version : string) : result (list Z) :=
  mapM int_of_str (split "." version).

(** [parts.extend([0] * (max_len - len(parts)))] *)
Definition pad (max_len : nat) (parts : list Z) : list Z :=
  parts ++ repeat 0 (max_len - List.length parts).

(** [a <= b] on two lists of ints: the first pair of unequal items
    decides, and a list that runs out first is the smaller. *)
Fixpoint list_le (a b : list Z) : bool :=
  match a, b with
  | [], _ => true
  | _ :: _, [] => false
  | x :: a', y :: b' => if x =? y then list_le a' b' else x <? y
  end.

Definition vulnerable_version_body (current_version vulnerable_version : string)
  : result bool :=
  current_parts <- version_parts current_version ;;
  vulnerable_parts <- version_parts vulnerable_version ;;
  let max_len := Nat.max (List.length current_parts) (List.length vulnerable_parts) in
  Ok (list_le (pad max_len current_parts) (pad max_len vulnerable_parts)).

Definition _is_vulnerable_version (current_version vulnerable_version : string)
  : bool :=
  match vulnerable_version_body current_version vulnerable_version with
  | Ok b => b
  | Raise _ => false
  end.

Definition severity_map : list (string * string) :=
  [("CVE-2019-8942", "high"); ("CVE-2018-7600", "critical");
   ("CVE-2018-6389", "medium"); ("CVE-2017-8917", "high")].

Definition _get_cve_severity (cve : string) : string :=
  match lookup cve severity_map with
  | Some s => s
  | None => "medium"
  end.

(** One entry of [vulnerabilities['found']]. *)
Record Vulnerability : Type := mkVulnerability {
  vuln_id : string;
  vuln_description : string;
  severity : string;
  affected_version : string
}.

(** The dict [vulnerabilities]. *)
Record Vulnerabilities : Type := mkVulnerabilities {
  found : list Vulnerability;
  count : Z;
  risk_level : string
}.

Definition str_of_option (o : option string) : string :=
  match o with
  | Some s => s
  | None => "None"
  end.

(** The entries one bucket adds to [vulnerabilities['found']]. *)
Definition bucket_findings (cms_info : CmsResults) (version : string)
  (bucket : string * list string) : list Vulnerability :=
  let '(vuln_version, cves) := bucket in
  if _is_vulnerable_version version vuln_version then
    map (fun cve =>
           mkVulnerability cve
             ("Уязвимость в " ++ str_of_option (cms_name cms_info) ++ " "
                ++ version)%string
             (_get_cve_severity cve) vuln_version)
        cves
  else [].

Definition overall_risk (found : list Vulnerability) : string :=
  let severities := map severity found in
  if existsb (String.eqb "critical") severities then "critical"
  else if existsb (String.eqb "high") severities then "high"
  else if existsb (String.eqb "medium") severities then "medium"
  else "low".

Definition _check_vulnerabilities
  (table : list (string * list (string * list string))) (cms_info : CmsResults)
  : Vulnerabilities :=
  let nothing := mkVulnerabilities [] 0 "low" in
  match detected cms_info, version cms_info with
  | true, Some version =>
      if String.eqb version EmptyString then nothing
      else
        match cms_type cms_info with
        | Some key =>
            match lookup key table with
            | Some cms_vulns =>
                let found := flat_map (bucket_findings cms_info version) cms_vulns in
                mkVulnerabilities found (Z.of_nat (List.length found))
                  (overall_risk found)
            | None => nothing
            end
        | None => nothing
        end
  | _, _ => nothing
  end.

End CMS.

(* ================================================================= *)
(** ** main.py: the scan endpoint *)

Module Main.

(** What awaiting [scanner.scan(url)] gives: the returned object, or an
    exception, of which the handler reads [str(e)]. *)
Inductive outcome : Type :=
| Returned (v : value)
| Raised (message : string).

(** The module-level scanner instances. *)
Record Scanners : Type := mkScanners {
  ssl_scanner : string -> outcome;
  port_scanner : string -> outcome;
  headers_scanner : string -> outcome;
  cms_scanner : string -> outcome;
  ddos_scanner : string -> outcome
}.

Record ScanRequest : Type := mkScanRequest {
  url : string;
  scan_types : list string;
  language : string
}.

Record ScanResponse : Type := mkScanResponse {
  scan_id : string;
  response_url : string;
  score : Z;
  status : string;
  results : dict;
  recommendations : list string;
  created_at : string
}.

(** Modelled from the spec: the class [ScanResult] of [database/models.py],
    whose declaration is missing from the sources.  The specification
    leaves the persistence of assessments to the caller, so the row is
    taken as a plain record of the six keyword arguments [start_scan]
    gives it, built without effect; [start_scan] does not use it
    afterwards. *)
Record ScanResult : Type := mkScanResult {
  row_id : string;
  row_url : string;
  row_score : Z;
  row_results : dict;
  row_recommendations : list string;
  row_created_at : string
}.

Inductive HTTPException : Type :=
| mkHTTPException (status_code : Z) (detail : string).

(** The reply of the endpoint, with the scanners awaited, in order. *)
Record Reply : Type := mkReply {
  response : HTTPException + ScanResponse;
  awaited : list string
}.

Section Endpoint.

Variable scanners : Scanners.
Variable get_translations : string -> list (string * string).
Variable container_repr : value -> string.
(** [str(uuid.uuid4())], and the two readings of [datetime.utcnow()]:
    the one stored in the row and the [isoformat()] of the later one. *)
Variable uuid4 : string.
Variable utcnow : string.
Variable utcnow_iso : string.

Definition in_list (x : string) (l : list string) : bool :=
  existsb (String.eqb x) l.

(** The list [tasks]: each requested scanner with its pending call. *)
Definition tasks (request_url : string) (requested : list string)
  : list (string * (unit -> outcome)) :=
  (if in_list "ssl" requested
   then [("ssl", fun _ : unit => ssl_scanner scanners request_url)] else [])
  ++ (if in_list "ports" requested
      then [("ports", fun _ : unit => port_scanner scanners request_url)] else [])
  ++ (if in_list "headers" requested
      then [("headers", fun _ : unit => headers_scanner scanners request_url)]
      else [])
  ++ (if in_list "cms" requested
      then [("cms", fun _ : unit => cms_scanner scanners request_url)] else [])
  ++ (if in_list "ddos" requested
      then [("ddos", fun _ : unit => ddos_scanner scanners request_url)] else []).

(** One turn of the loop that awaits the tasks; the state is
    [(scan_results, scanners awaited so far)]. *)
Definition await_task (st : dict * list string)
  (task : string * (unit -> outcome)) : dict * list string :=
  let '(scan_results, log) := st in
  let '(scan_type, pending) := task in
  (dict_set scan_results scan_type
     match pending tt with
     | Returned result => result
     | Raised message => VDict [("error", VStr message)]
     end,
   log ++ [scan_type]).

Definition normalize_url (u : string) : string :=
  if startswith u "http://" || startswith u "https://" then u
  else ("https://" ++ u)%string.

Definition start_scan (request : ScanRequest) : Reply :=
  let request_url := normalize_url (url request) in
  let '(scan_results, log) :=
    fold_left await_task (tasks request_url (scan_types request)) ([], []) in
  let total_score := Scoring.calculate_total_score scan_results in
  let translations := get_translations (language request) in
  let recommendations :=
    Scoring.generate_recommendations container_repr scan_results translations in
  let scan_result :=
    mkScanResult uuid4 request_url total_score scan_results recommendations
      utcnow in
  mkReply
    (inr (mkScanResponse uuid4 request_url total_score "completed" scan_results
            recommendations utcnow_iso))
    log.

End Endpoint.

End Main.

(* ================================================================= *)
(** ** The specification's vocabulary *)

Module Spec.

Import Scoring.

(** A Failure entry of the result mapping: a dict whose [error] entry is
    set, as the scanners return, or the dict the endpoint writes for a
    scanner that raised, whatever the text of the exception. *)
Inductive is_failure : value -> Prop :=
| failure_reported (d : dict) (e : value) :
    lookup "error" d = Some e -> truthy e = true -> is_failure (VDict d)
| failure_raised (message : string) :
    is_failure (VDict [("error", VStr message)]).

(** The level [get_security_summary] gives to the aggregate score of a
    result mapping. *)
Definition aggregate_level (scan_results : dict) : result string :=
  summary <- get_security_summary scan_results (calculate_total_score scan_results) ;;
  Ok (security_level summary).

(** The category weights as exact hundredths. *)
Definition exact_weights : list (string * Z) :=
  [("ssl", 25); ("ports", 20); ("headers", 25); ("cms", 20); ("ddos", 10)].

(** A Success entry with an int score. *)
Definition success_score (r : value) : option Z :=
  match r with
  | VDict d =>
      match lookup "error" d with
      | Some e => if truthy e then None else
                    match lookup "score" d with Some (VInt z) => Some z | _ => None end
      | None => match lookup "score" d with Some (VInt z) => Some z | _ => None end
      end
  | _ => None
  end.

(** Numerator and denominator of the weighted average over the Success
    entries, in exact arithmetic. *)
Fixpoint exact_sums (scan_results : dict) (ws : list (string * Z)) : Z * Z :=
  match ws with
  | [] => (0, 0)
  | (k, w) :: ws' =>
      let '(num, den) := exact_sums scan_results ws' in
      match lookup k scan_results with
      | Some r =>
          match success_score r with
          | Some z => (z * w + num, w + den)
          | None => (num, den)
          end
      | None => (num, den)
      end
  end.

(** [floor(numerator / denominator)] if the denominator is positive, else 0. *)
Definition aggregate_spec (scan_results : dict) : Z :=
  let '(num, den) := exact_sums scan_results exact_weights in
  if 0 <? den then num / den else 0.

(** Removal of duplicates in first-seen order: an element stays where it
    first occurs and its later occurrences go. *)
Fixpoint uniq_first (l : list string) : list string :=
  match l with
  | [] => []
  | x :: l' => x :: filter (fun y => negb (String.eqb x y)) (uniq_first l')
  end.

Fixpoint has_digit (s : string) : bool :=
  match s with
  | EmptyString => false
  | String c r => CMS.is_digit c || has_digit r
  end.


(** *** Versions, in the words of the specification *)

(** The place of a character in a list of characters, counted from [i]. *)
Fixpoint place_of (c : ascii) (l : list ascii) (i : Z) : option Z :=
  match l with
  | [] => None
  | x :: rest => if Ascii.eqb c x then Some i else place_of c rest (i + 1)
  end.

(** The value of a decimal digit: its place among the ten digits. *)
Definition decimal_digit (c : ascii) : option Z :=
  place_of c (list_ascii_of_string "0123456789") 0.

(** The digits of a string that has nothing but decimal digits. *)
Fixpoint digit_values (s : string) : option (list Z) :=
  match s with
  | EmptyString => Some []
  | String c r =>
      match decimal_digit c, digit_values r with
      | Some d, Some ds => Some (d :: ds)
      | _, _ => None
      end
  end.











(** The five probe kinds, in the order the endpoint considers them. *)
Definition probe_kinds : list string := ["ssl"; "ports"; "headers"; "cms"; "ddos"].

Definition scanner_of (scanners : Main.Scanners) (kind : string)
  : string -> Main.outcome :=
  if String.eqb kind "ssl" then Main.ssl_scanner scanners
  else if String.eqb kind "ports" then Main.port_scanner scanners
  else if String.eqb kind "headers" then Main.headers_scanner scanners
  else if String.eqb kind "cms" then Main.cms_scanner scanners
  else Main.ddos_scanner scanners.

(** The entry a probe leaves in the mapping: what it returned, or a
    Failure carrying the text of what it raised. *)
Definition entry_of (o : Main.outcome) : value :=
  match o with
  | Main.Returned v => v
  | Main.Raised message => VDict [("error", VStr message)]
  end.

Section Signals.

Variable re_search : string -> string -> option (list (option string)).
Variable surface : CMS.Surface.

Definition header_matched (entry : string * string) : bool :=
  match CMS.header surface (fst entry) with
  | Some actual =>
      String.eqb (snd entry) EmptyString
      || is_infix (lower (snd entry)) (lower actual)
  | None => false
  end.

Definition pattern_matched (pattern : string) : bool :=
  match re_search pattern (CMS.content surface) with
  | Some _ => true
  | None => false
  end.

Definition path_reachable (path : string) : bool :=
  match CMS.path_status surface path with
  | Some status_code => status_code =? 200
  | None => false
  end.

Definition count {A : Type} (p : A -> bool) (l : list A) : Z :=
  Z.of_nat (List.length (filter p l)).

(** The confidence of a signature as the sum of its matched signals. *)
Definition signal_sum (sig : CMS.Signature) : Z :=
  20 * count header_matched (CMS.headers sig)
  + 30 * count pattern_matched (CMS.meta sig)
  + 15 * count pattern_matched (CMS.patterns sig)
  + 25 * count path_reachable (firstn 2 (CMS.paths sig)).

(** The confidence the engine computes for a signature. *)
Definition confidence_of (sig : CMS.Signature) : Z :=
  fst (fst (CMS.evaluate re_search surface sig)).

End Signals.

End Spec.

(* ================================================================= *)
(** ** Sample inputs *)

Module Samples.

Definition no_repr (v : value) : string := EmptyString.

(** Two probes succeeded, both with score 60. *)
Definition ports_ddos_60 : dict :=
  [("ports", VDict [("score", VInt 60); ("status", VStr "warning")]);
   ("ddos", VDict [("score", VInt 60); ("status", VStr "warning")])].

(** Five probes requested, every one failed. *)
Definition all_failed : dict :=
  [("ssl", VDict [("error", VStr "Невозможно извлечь hostname из URL")]);
   ("ports", VDict [("error", VStr "Ошибка при сканировании портов: timed out");
                    ("score", VInt 0); ("status", VStr "error")]);
   ("headers", VDict [("error", VStr "Не удалось подключиться к серверу")]);
   ("cms", VDict [("error", VStr "Ошибка при сканировании CMS: timed out");
                  ("score", VInt 0); ("status", VStr "error")]);
   ("ddos", VDict [("error", VStr "connection reset")])].

Definition dangerous_port (port : Z) (service : string) : value :=
  VDict [("port", VInt port); ("service", VStr service); ("risk", VStr "high")].

(** Every probe succeeded and every rule of the recommendation
    generator fires. *)
Definition many_findings : dict :=
  [("ssl", VDict [("protocol", VStr "HTTP"); ("score", VInt 0);
                  ("status", VStr "critical")]);
   ("ports", VDict [("dangerous_ports",
                     VList [dangerous_port 21 "FTP"; dangerous_port 23 "Telnet";
                            dangerous_port 3389 "RDP"; dangerous_port 3306 "MySQL"]);
                    ("score", VInt 40); ("status", VStr "critical")]);
   ("headers",
    VDict [("security_headers",
            VDict [("missing",
                    VDict [("strict-transport-security",
                            VDict [("name", VStr "Strict-Transport-Security (HSTS)")]);
                           ("content-security-policy",
                            VDict [("name", VStr "Content-Security-Policy (CSP)")]);
                           ("x-frame-options",
                            VDict [("name", VStr "X-Frame-Options")])])]);
           ("dangerous_headers",
            VDict [("found", VDict [("server", VDict [("value", VStr "nginx")])]);
                   ("count", VInt 1)]);
           ("score", VInt 0); ("status", VStr "critical")]);
   ("cms",
    VDict [("cms", VDict [("detected", VBool true); ("name", VStr "WordPress");
                          ("version", VStr "4.8")]);
           ("vulnerabilities",
            VDict [("found", VList [VDict [("id", VStr "CVE-2018-7600")]]);
                   ("risk_level", VStr "critical")]);
           ("exposed_files", VDict [("found", VList [VDict [("path", VStr "/readme.html")]])]);
           ("plugins", VDict [("outdated", VList [VStr "akismet"])]);
           ("score", VInt 45); ("status", VStr "critical")]);
   ("ddos",
    VDict [("cdn_detection", VDict [("detected", VBool false)]);
           ("rate_limiting", VDict [("detected", VBool false)]);
           ("dns_info", VDict [("single_ip", VBool true)]);
           ("score", VInt 0); ("status", VStr "critical")])].

Definition answering (v : value) : string -> Main.outcome :=
  fun _ => Main.Returned v.

Definition failing (message : string) : string -> Main.outcome :=
  fun _ => Main.Raised message.

(** Scanners of which the port scanner raises and the others answer. *)
Definition sample_scanners : Main.Scanners :=
  Main.mkScanners
    (answering (VDict [("score", VInt 85); ("status", VStr "good")]))
    (failing "timed out")
    (answering (VDict [("score", VInt 90); ("status", VStr "good")]))
    (answering (VDict [("score", VInt 80); ("status", VStr "good")]))
    (answering (VDict [("score", VInt 60); ("status", VStr "warning")])).

Definition no_translations (lang : string) : list (string * string) := [].

Definition empty_request : Main.ScanRequest :=
  Main.mkScanRequest "example.com" [] "ru".

Definition sample_start_scan (request : Main.ScanRequest) : Main.Reply :=
  Main.start_scan sample_scanners no_translations no_repr
    "00000000-0000-4000-8000-000000000000" "2025-09-25 10:00:00"
    "2025-09-25T10:00:00" request.

(** A matcher that finds a pattern when it occurs literally, ignoring
    ASCII case, and captures nothing. *)
Definition literal_search (pattern text : string) : option (list (option string)) :=
  if is_infix (lower pattern) (lower text) then Some [] else None.

(** A page with both WordPress content patterns, the WordPress header,
    and [/wp-admin/] answering 200 while [/wp-content/] times out. *)
Definition wordpress_surface : CMS.Surface :=
  CMS.mkSurface
    "<link href=/wp-content/themes/x.css><script src=/wp-content/plugins/y.js>"
    (fun h => if String.eqb h "x-powered-by" then Some "WordPress" else None)
    (fun p => if String.eqb p "/wp-admin/" then Some 200 else None).

Definition wordpress_signature : CMS.Signature :=
  CMS.mkSignature "WordPress"
    ["/wp-admin/"; "/wp-content/"; "/wp-includes/"]
    [("x-powered-by", "wordpress")]
    [CMS.generator_pattern "generator" "WordPress"]
    ["/wp-config.php"; "/readme.html"]
    ["/wp-content/themes/"; "/wp-content/plugins/"].


(** The port scanner raises, the SSL scanner answers. *)
Definition two_probe_request : Main.ScanRequest :=
  Main.mkScanRequest "https://example.com" ["ports"; "ssl"] "ru".

End Samples.

From Stdlib Require Import Permutation.

(* ================================================================= *)
(** ** utils/scoring.py: class SecurityAnalyzer *)

Module Analyzer.

(** The dict [vuln_info]. *)
Record VulnInfo : Type := mkVulnInfo {
  scan_type : string;
  description : value;
  severity : value
}.

(** The dict [vulnerabilities], one list per key. *)
Record Categories : Type := mkCategories {
  critical : list VulnInfo;
  high : list VulnInfo;
  medium : list VulnInfo;
  low : list VulnInfo
}.

(** The body of the loop over [issues]. *)
Definition file_issue (scan_type : string) (status : value) (acc : Categories)
  (issue : value) : Categories :=
  let vuln_info := mkVulnInfo scan_type issue status in
  if eq_str status "critical" then
    mkCategories (critical acc ++ [vuln_info]) (high acc) (medium acc) (low acc)
  else if eq_str status "warning" then
    mkCategories (critical acc) (high acc) (medium acc ++ [vuln_info]) (low acc)
  else
    mkCategories (critical acc) (high acc) (medium acc) (low acc ++ [vuln_info]).

(** One turn of the loop over [scan_results.items()]. *)
Definition categorize_entry (acc : Categories) (entry : string * value)
  : result Categories :=
  let '(scan_type, result) := entry in
  if is_dict result then
    issues <- get result "issues" (VList []) ;;
    status <- get result "status" (VStr "unknown") ;;
    items <- iter_items issues ;;
    Ok (fold_left (file_issue scan_type status) items acc)
  else Ok acc.

(** [categorize_vulnerabilities]; it has no handler. *)
Definition categorize_vulnerabilities (scan_results : dict) : result Categories :=
  foldM categorize_entry scan_results (mkCategories [] [] [] []).

(** A number as [calculate_risk_score] returns it: the int of a bound
    that was hit, or the float computed. *)
Inductive number : Type :=
| NInt (z : Z)
| NFloat (f : float).

(** [max(0, x)] for a float [x]: the first argument unless the second is
    greater. *)
Definition max_0 (x : float) : number :=
  if (0 <? x)%float then NFloat x else NInt 0.

(** [min(100, y)]: the first argument unless the second is smaller. *)
Definition min_100 (y : number) : number :=
  match y with
  | NInt z => if z <? 100 then NInt z else NInt 100
  | NFloat x => if (x <? 100)%float then NFloat x else NInt 100
  end.

(** [risk += (100 - scan_results[key].get('score', 100)) * factor], from
    [0.0], when [key] is present. *)
Definition risk_of (scan_results : dict) (key : string) (factor : float)
  : result float :=
  match lookup key scan_results with
  | Some r =>
      score <- get r "score" (VInt 100) ;;
      z <- as_int score ;;
      f <- float_of_int (100 - z) ;;
      Ok (0 + f * factor)%float
  | None => Ok 0%float
  end.

Record RiskScores : Type := mkRiskScores {
  confidentiality : number;
  integrity : number;
  availability : number
}.

(** [calculate_risk_score]; it has no handler. *)
Definition calculate_risk_score (scan_results : dict) : result RiskScores :=
  c <- risk_of scan_results "ssl" 0.4 ;;
  i <- risk_of scan_results "cms" 0.3 ;;
  a <- risk_of scan_results "ddos" 0.5 ;;
  Ok (mkRiskScores (min_100 (max_0 c)) (min_100 (max_0 i)) (min_100 (max_0 a))).

End Analyzer.

(* ================================================================= *)
(** ** scanners/port_scanner.py: port analysis *)

Module Ports.

(** [self.dangerous_ports]: service, risk, reason. *)
Definition dangerous_ports : list (Z * (string * string * string)) :=
  [(21, ("FTP", "high", "Незащищенная передача данных"));
   (23, ("Telnet", "critical", "Незащищенный удаленный доступ"));
   (25, ("SMTP", "medium", "Возможны спам-атаки"));
   (110, ("POP3", "medium", "Незащищенная электронная почта"));
   (143, ("IMAP", "medium", "Незащищенная электронная почта"));
   (1433, ("MSSQL", "high", "База данных доступна извне"));
   (3306, ("MySQL", "high", "База данных доступна извне"));
   (3389, ("RDP", "high", "Удаленный рабочий стол доступен извне"));
   (5432, ("PostgreSQL", "high", "База данных доступна извне"));
   (6379, ("Redis", "critical", "База данных Redis без аутентификации"));
   (27017, ("MongoDB", "high", "База данных MongoDB доступна извне"))].

Fixpoint lookup_port {A : Type} (p : Z) (table : list (Z * A)) : option A :=
  match table with
  | [] => None
  | (q, a) :: rest => if p =? q then Some a else lookup_port p rest
  end.

(** One entry of [open_ports], as the two port scans build it. *)
Record OpenPort : Type := mkOpenPort {
  port : Z;
  protocol : string;
  state : string;
  service : string;
  version : string;
  product : string
}.

Definition port_dict (p : OpenPort) : value :=
  VDict [("port", VInt (port p)); ("protocol", VStr (protocol p));
         ("state", VStr (state p)); ("service", VStr (service p));
         ("version", VStr (version p)); ("product", VStr (product p))].

Definition dangerous_entry (p : Z) (service risk reason detected : string) : value :=
  VDict [("port", VInt p); ("service", VStr service); ("risk", VStr risk);
         ("reason", VStr reason); ("detected_service", VStr detected)].

Definition safe_ports : list Z := [80; 443; 22; 53].

(** One turn of the loop of [_analyze_ports]; the state is
    [(dangerous_ports, secure_ports, all_open_ports)]. *)
Definition classify (st : list value * list value * list value) (p : OpenPort)
  : list value * list value * list value :=
  let '(dangerous, secure, all_open) := st in
  let all_open := all_open ++ [port_dict p] in
  match lookup_port (port p) dangerous_ports with
  | Some (svc, risk, reason) =>
      (dangerous ++ [dangerous_entry (port p) svc risk reason (service p)],
       secure, all_open)
  | None =>
      if existsb (Z.eqb (port p)) safe_ports
      then (dangerous, secure ++ [port_dict p], all_open)
      else (dangerous
              ++ [dangerous_entry (port p) (service p) "medium"
                    "Неизвестный открытый порт" (service p)],
            secure, all_open)
  end.

Definition _analyze_ports (open_ports : list OpenPort) : value :=
  let '(dangerous, secure, all_open) := fold_left classify open_ports ([], [], []) in
  VDict [("open_ports", VList all_open); ("dangerous_ports", VList dangerous);
         ("secure_ports", VList secure)].

End Ports.

(* ================================================================= *)
(** ** scanners/ddos_scanner_fixed.py: CDN detection *)

Module DDoS.

Record Provider : Type := mkProvider {
  provider_name : string;
  provider_headers : list string;
  protection_level : string
}.

(** [self.cdn_providers], in insertion order. *)
Definition cdn_providers : list (string * Provider) :=
  [("cloudflare", mkProvider "Cloudflare" ["cf-ray"; "cf-cache-status"] "excellent");
   ("cloudfront", mkProvider "Amazon CloudFront" ["x-amz-cf-id"; "x-cache"] "good");
   ("akamai", mkProvider "Akamai" ["akamai-origin-hop"] "excellent")].

(** The dict [cdn_result]. *)
Definition cdn_result (detected : bool) (provider name level : value) : value :=
  VDict [("detected", VBool detected); ("provider", provider);
         ("provider_name", name); ("protection_level", level)].

(** The inner loop over the headers of one provider: the first header
    found in the response updates [cdn_result] and ends the loop. *)
Fixpoint try_headers (headers : list (string * string)) (cdn_key : string)
  (cdn_info : Provider) (candidates : list string) (acc : value) : value :=
  match candidates with
  | [] => acc
  | h :: rest =>
      if has_key (lower h) headers
      then cdn_result true (VStr cdn_key) (VStr (provider_name cdn_info))
             (VStr (protection_level cdn_info))
      else try_headers headers cdn_key cdn_info rest acc
  end.

(** One turn of the outer loop over the providers. *)
Definition try_provider (headers : list (string * string)) (acc : value)
  (entry : string * Provider) : value :=
  try_headers headers (fst entry) (snd entry) (provider_headers (snd entry)) acc.

(** [_detect_cdn] on the outcome of the GET: the text of the exception,
    or the response headers with their names in lower case. *)
Definition _detect_cdn (providers : list (string * Provider))
  (response : string + list (string * string)) : value :=
  match response with
  | inr headers =>
      fold_left (try_provider headers) providers
        (cdn_result false VNone VNone VNone)
  | inl message =>
      VDict [("detected", VBool false); ("provider", VNone);
             ("provider_name", VNone); ("protection_level", VNone);
             ("error", VStr ("Ошибка при детекции CDN: " ++ message)%string)]
  end.

End DDoS.

(* ================================================================= *)
(** ** utils/i18n.py: lookups *)

Module I18n.

Section Table.

(** The dict [TRANSLATIONS]: language, then key. *)
Variable TRANSLATIONS : list (string * list (string * string)).

Definition get_translations (language : string)
  : result (list (string * string)) :=
  let language := if has_key language TRANSLATIONS then language else "ru" in
  match lookup language TRANSLATIONS with
  | Some translations => Ok translations
  | None => Raise KeyError
  end.

(** [translate(key, language, default)]; [default] is [None] or a string. *)
Definition translate (key language : string) (default : option string)
  : result string :=
  translations <- get_translations language ;;
  Ok match lookup key translations with
     | Some text => text
     | None =>
         match default with
         | Some d => if String.eqb d EmptyString then key else d
         | None => key
         end
     end.

End Table.

End I18n.

(* ================================================================= *)
(** ** Further vocabulary *)

Module Facts.

(** The two shapes of a Failure entry the code writes: the dict of the
    endpoint or of an early return, and the dict of a scanner's handler;
    the text is not empty. *)
Inductive written_failure : value -> Prop :=
| written_bare (message : string) :
    String.eqb message EmptyString = false ->
    written_failure (VDict [("error", VStr message)])
| written_by_handler (message : string) :
    String.eqb message EmptyString = false ->
    written_failure
      (VDict [("error", VStr message); ("score", VInt 0);
              ("status", VStr "error")]).

(** An entry the statistics of the summary count: a dict whose [error]
    is not set. *)
Definition counted (entry : string * value) : bool :=
  match snd entry with
  | VDict d =>
      match lookup "error" d with
      | Some e => negb (truthy e)
      | None => true
      end
  | _ => false
  end.

(** An entry the aggregate score skips when it meets it: a dict whose
    [error] is set. *)
Definition failed (entry : string * value) : bool :=
  match snd entry with
  | VDict d =>
      match lookup "error" d with
      | Some e => truthy e
      | None => false
      end
  | _ => false
  end.

(** The int scores from 0 to 100. *)
Definition scores_0_100 : list Z := map Z.of_nat (seq 0 101).

(** A bounded risk: the int 0 or 100, or a float strictly between. *)
Definition bounded_risk (n : Analyzer.number) : Prop :=
  match n with
  | Analyzer.NInt z => z = 0 \/ z = 100
  | Analyzer.NFloat x => (0 <? x)%float = true /\ (x <? 100)%float = true
  end.

(** [n <= cap] for a risk. *)
Definition risk_at_most (cap : float) (n : Analyzer.number) : bool :=
  match n with
  | Analyzer.NInt z => (PrimFloat.leb (SF2Prim (binary_normalize prec emax z 0 false)) cap)
  | Analyzer.NFloat x => PrimFloat.leb x cap
  end.

(** The entry under [key], if any, is a dict whose [score], if any, is
    an int from 0 to 100. *)
Definition score_in_range (scan_results : dict) (key : string) : Prop :=
  match lookup key scan_results with
  | None => True
  | Some (VDict d) =>
      match lookup "score" d with
      | None => True
      | Some (VInt s) => 0 <= s <= 100
      | Some _ => False
      end
  | Some _ => False
  end.

(** The entry under [key] is missing, or is a dict without [score]. *)
Definition no_score (scan_results : dict) (key : string) : Prop :=
  match lookup key scan_results with
  | None => True
  | Some (VDict d) => lookup "score" d = None
  | Some _ => False
  end.

(** What [categorize_vulnerabilities] keeps true of its four lists. *)
Definition categorized (cats : Analyzer.Categories) (n : nat) : Prop :=
  Analyzer.high cats = []
  /\ (List.length (Analyzer.critical cats) + List.length (Analyzer.medium cats)
      + List.length (Analyzer.low cats) = n)%nat
  /\ Forall (fun v => eq_str (Analyzer.severity v) "critical" = true)
       (Analyzer.critical cats)
  /\ Forall (fun v => eq_str (Analyzer.severity v) "warning" = true)
       (Analyzer.medium cats)
  /\ Forall (fun v => eq_str (Analyzer.severity v) "critical" = false
                      /\ eq_str (Analyzer.severity v) "warning" = false)
       (Analyzer.low cats).

(** The check behind the caps of the risks: every score from 0 to 100
    gives a risk of at most [cap] under [factor], and a score of 100 gives
    the int 0. *)
Definition risk_check (factor cap : float) : bool :=
  forallb
    (fun s =>
       match float_of_int (100 - s) with
       | Ok f =>
           risk_at_most cap (Analyzer.min_100 (Analyzer.max_0 (0 + f * factor)))
       | Raise _ => false
       end) scores_0_100
  && match Analyzer.min_100 (Analyzer.max_0 (0 + 0 * factor)) with
     | Analyzer.NInt 0 => true
     | _ => false
     end.

(** The number of items a [for] loop finds in the [issues] of a dict
    entry; 0 for an entry that is no dict. *)
Definition issue_count (entry : string * value) : nat :=
  match snd entry with
  | VDict d =>
      match iter_items (match lookup "issues" d with
                        | Some v => v
                        | None => VList []
                        end) with
      | Ok items => List.length items
      | Raise _ => 0
      end
  | _ => 0
  end.

(** The points [_calculate_port_score] takes off for a risk. *)
Definition risk_penalty (risk : string) : Z :=
  if String.eqb risk "critical" then 25
  else if String.eqb risk "high" then 15
  else if String.eqb risk "medium" then 10
  else 5.

(** The risk [_analyze_ports] gives an open port, if it is dangerous. *)
Definition port_risk (p : Z) : option string :=
  match Ports.lookup_port p Ports.dangerous_ports with
  | Some (_, risk, _) => Some risk
  | None => if existsb (Z.eqb p) Ports.safe_ports then None else Some "medium"
  end.

Definition port_penalty (p : Ports.OpenPort) : Z :=
  match port_risk (Ports.port p) with
  | Some risk => risk_penalty risk
  | None => 0
  end.

Definition is_dangerous (p : Ports.OpenPort) : bool :=
  match port_risk (Ports.port p) with
  | Some _ => true
  | None => false
  end.

(** A request that differs from [request] in its scan types only. *)
Definition with_scan_types (request : Main.ScanRequest) (types : list string)
  : Main.ScanRequest :=
  Main.mkScanRequest (Main.url request) types (Main.language request).

(** A page that links an OpenCart theme, on a site whose [/admin/] and
    [/catalog/] answer 200. *)
Definition opencart_surface : CMS.Surface :=
  CMS.mkSurface
    "<link href=/catalog/view/theme/default/stylesheet.css>"
    (fun _ => None)
    (fun p => if String.eqb p "/admin/" || String.eqb p "/catalog/"
              then Some 200 else Some 404).

(** The severities [_get_cve_severity] can give. *)
Definition known_severity (s : string) : Prop :=
  s = "critical" \/ s = "high" \/ s = "medium".

(** A sub-report of the SSL scanner that carries a set [error]. *)
Definition has_error (v : value) : bool :=
  match v with
  | VDict d =>
      match lookup "error" d with
      | Some e => truthy e
      | None => false
      end
  | _ => false
  end.

(** The response carries one of the headers of the provider. *)
Definition provider_hit (headers : list (string * string))
  (entry : string * DDoS.Provider) : bool :=
  existsb (fun h => has_key (lower h) headers)
    (DDoS.provider_headers (snd entry)).

(** The GET raised, or the response carries no header of any provider. *)
Definition no_cdn_seen (providers : list (string * DDoS.Provider))
  (response : string + list (string * string)) : bool :=
  match response with
  | inl _ => true
  | inr headers => negb (existsb (provider_hit headers) providers)
  end.

(** The points the open ports cost together. *)
Definition penalties (ports : list Ports.OpenPort) : Z :=
  fold_right Z.add 0 (map port_penalty ports).

(** The port score in terms of the open ports found. *)
Definition expected_port_score (ports : list Ports.OpenPort) : Z :=
  let n := Z.of_nat (List.length ports) in
  let score := 100 - penalties ports in
  let score := if 10 <? n then score - 10
               else if 5 <? n then score - 5
               else score in
  let score := if negb (existsb is_dangerous ports) && (n <=? 3)
               then score + 10 else score in
  clamp score.

Definition is_safe (p : Ports.OpenPort) : bool :=
  existsb (Z.eqb (Ports.port p)) Ports.safe_ports.

Definition tcp_port (p : Z) (service : string) : Ports.OpenPort :=
  Ports.mkOpenPort p "tcp" "open" service EmptyString EmptyString.

(** A table of two languages with one key each. *)
Definition sample_translations : list (string * list (string * string)) :=
  [("ru", [("scan", "Сканирование")]); ("uz", [("scan", "Skanerlash")])].

(** The issues of one entry, each as the finding that is to be filed for
    it: the scan type of the entry, the issue, and the status of the
    entry as its severity; none for an entry that is no dict. *)
Definition reported_issues (entry : string * value) : list Analyzer.VulnInfo :=
  match snd entry with
  | VDict d =>
      let status := match lookup "status" d with
                    | Some s => s
                    | None => VStr "unknown"
                    end in
      match iter_items (match lookup "issues" d with
                        | Some v => v
                        | None => VList []
                        end) with
      | Ok items =>
          map (fun issue => Analyzer.mkVulnInfo (fst entry) issue status) items
      | Raise _ => []
      end
  | _ => []
  end.

Definition is_critical (v : Analyzer.VulnInfo) : bool :=
  eq_str (Analyzer.severity v) "critical".

Definition is_warning (v : Analyzer.VulnInfo) : bool :=
  eq_str (Analyzer.severity v) "warning".

Definition is_other (v : Analyzer.VulnInfo) : bool :=
  negb (is_critical v) && negb (is_warning v).

(** The entry that is to be filed for an open port that is not one of
    the secure ones: by the table of dangerous ports when it has the
    port, as an unknown port of medium risk otherwise. *)
Definition dangerous_report (p : Ports.OpenPort) : value :=
  match Ports.lookup_port (Ports.port p) Ports.dangerous_ports with
  | Some (svc, risk, reason) =>
      VDict [("port", VInt (Ports.port p)); ("service", VStr svc);
             ("risk", VStr risk); ("reason", VStr reason);
             ("detected_service", VStr (Ports.service p))]
  | None =>
      VDict [("port", VInt (Ports.port p)); ("service", VStr (Ports.service p));
             ("risk", VStr "medium"); ("reason", VStr "Неизвестный открытый порт");
             ("detected_service", VStr (Ports.service p))]
  end.

(** A matcher that finds every pattern, and a site that sends every
    header with the value [drupal] and answers 200 on every path. *)
Definition every_pattern (pattern text : string) : option (list (option string)) :=
  Some [].

Definition every_signal_surface : CMS.Surface :=
  CMS.mkSurface EmptyString (fun _ => Some "drupal") (fun _ => Some 200).

End Facts.

(* ================================================================= *)
(** ** Results on the scoring engine *)

Import Scoring Spec.

Lemma lookup_In {A : Type} (k : string) (d : list (string * A)) (v : A) :
  lookup k d = Some v -> In (k, v) d.
Proof.
  induction d as [|[k' v'] d IH]; simpl; [discriminate|].
  destruct (String.eqb k k') eqn:E.
  - apply String.eqb_eq in E. subst k'. intros [= ->]. now left.
  - intros H. right. now apply IH.
Qed.

(** The two things a Failure entry can do to the accumulator of
    [calculate_total_score]: nothing, or count as a score of 0. *)
Lemma accumulate_failure (scan_results : dict) (k : string) (w ts tw : float) :
  (forall k' r, In (k', r) scan_results -> is_failure r) ->
  accumulate scan_results (ts, tw) (k, w) = Ok (ts, tw)
  \/ accumulate scan_results (ts, tw) (k, w) = Ok (ts + 0 * w, tw + w)%float.
Proof.
  intros Hall. unfold accumulate.
  destruct (lookup k scan_results) as [r|] eqn:El; [|now left].
  apply lookup_In in El. apply Hall in El.
  destruct El as [d e Hd He | message].
  - left. simpl. rewrite Hd, He. reflexivity.
  - simpl. destruct (String.eqb message EmptyString); simpl; [right|left];
      reflexivity.
Qed.

Lemma count_checks_failure (scan_results : dict) (acc : Z * Z * Z) :
  (forall k r, In (k, r) scan_results -> is_failure r) ->
  exists acc', foldM count_checks scan_results acc = Ok acc'.
Proof.
  revert acc. induction scan_results as [|[k r] rest IH]; intros acc Hall.
  - now exists acc.
  - assert (Hr : is_failure r) by (apply (Hall k); now left).
    assert (Hrest : forall k' r', In (k', r') rest -> is_failure r')
      by (intros k' r' Hin; apply (Hall k'); now right).
    destruct acc as [[t p] f]. simpl.
    destruct Hr as [d e Hd He | message].
    + simpl. rewrite Hd, He. simpl. now apply IH.
    + simpl. destruct (String.eqb message EmptyString); simpl; now apply IH.
Qed.

Ltac failure_step H sr k w :=
  match goal with
  | |- context [accumulate sr (?ts, ?tw) (k, w)] =>
      destruct (accumulate_failure sr k w ts tw H) as [->| ->];
      cbn [bind]
  end.

Lemma total_score_all_failed (scan_results : dict) :
  (forall k r, In (k, r) scan_results -> is_failure r) ->
  calculate_total_score scan_results = 0.
Proof.
  intros Hall. unfold calculate_total_score, total_score_body, weights.
  cbn [foldM].
  failure_step Hall scan_results "ssl" 0.25%float;
  failure_step Hall scan_results "ports" 0.20%float;
  failure_step Hall scan_results "headers" 0.25%float;
  failure_step Hall scan_results "cms" 0.20%float;
  failure_step Hall scan_results "ddos" 0.10%float;
  vm_compute; reflexivity.
Qed.

Lemma all_failed_is_failure :
  forall k r, In (k, r) Samples.all_failed -> is_failure r.
Proof.
  intros k r Hin. unfold Samples.all_failed in Hin. simpl in Hin.
  repeat (destruct Hin as [[= <- <-]|Hin];
          [eapply failure_reported; [reflexivity|reflexivity]|]).
  contradiction.
Qed.

(** C1, as the code behaves: when every entry of the result mapping is a
    Failure, the aggregate score is 0 and the level the summary derives
    from it is [critical]; the summary has no level of its own for a
    session without any successful probe. *)
Theorem all_failed_score_0_level_critical (scan_results : dict) :
  (forall k r, In (k, r) scan_results -> is_failure r) ->
  calculate_total_score scan_results = 0
  /\ aggregate_level scan_results = Ok "critical".
Proof.
  intros Hall. split; [now apply total_score_all_failed|].
  unfold aggregate_level, get_security_summary.
  rewrite (total_score_all_failed _ Hall).
  destruct (count_checks_failure scan_results (0, 0, 0) Hall) as [[[t p] f] ->].
  reflexivity.
Qed.

Lemma all_failed_score_0_level_critical_witness :
  (forall k r, In (k, r) Samples.all_failed -> is_failure r)
  /\ calculate_total_score Samples.all_failed = 0
  /\ aggregate_level Samples.all_failed = Ok "critical".
Proof.
  split; [exact all_failed_is_failure|].
  apply (all_failed_score_0_level_critical Samples.all_failed).
  exact all_failed_is_failure.
Defined.

(** C1 as stated fails: five probes requested, five Failure entries, and
    the level of the aggregate is [critical], not [error]. *)
Lemma all_failed_level_not_error :
  (forall k r, In (k, r) Samples.all_failed -> is_failure r)
  /\ calculate_total_score Samples.all_failed = 0
  /\ aggregate_level Samples.all_failed = Ok "critical"
  /\ aggregate_level Samples.all_failed <> Ok "error".
Proof.
  split; [exact all_failed_is_failure|].
  split; [vm_compute; reflexivity|].
  split; [vm_compute; reflexivity|].
  vm_compute. discriminate.
Qed.

(** C2 at a failing input: the port and the DDoS probes both succeed
    with score 60 and nothing else was requested.  The weighted average is
    60; the code computes 18.0 / 0.30000000000000004 in binary64, which is
    59.99999999999999, and truncates it to 59. *)
Theorem equal_scores_60_aggregate_59 :
  success_score (VDict [("score", VInt 60); ("status", VStr "warning")]) = Some 60
  /\ aggregate_spec Samples.ports_ddos_60 = 60
  /\ calculate_total_score Samples.ports_ddos_60 = 59.
Proof.
  repeat split; vm_compute; reflexivity.
Qed.

(** The renormalisation example of the specification holds on the code:
    scores 80 and 80 under weights 0.25 and 0.20, the other three probes
    failed, aggregate 80, for each pair of probes with these weights. *)
Lemma renormalised_80_80 :
  let ok := VDict [("score", VInt 80); ("status", VStr "good")] in
  let failed := VDict [("error", VStr "timeout"); ("score", VInt 0);
                       ("status", VStr "error")] in
  calculate_total_score
    [("ssl", ok); ("ports", ok); ("headers", failed); ("cms", failed);
     ("ddos", failed)] = 80
  /\ calculate_total_score
       [("ssl", ok); ("ports", failed); ("headers", failed); ("cms", ok);
        ("ddos", failed)] = 80
  /\ calculate_total_score
       [("ssl", failed); ("ports", ok); ("headers", ok); ("cms", failed);
        ("ddos", failed)] = 80
  /\ calculate_total_score
       [("ssl", failed); ("ports", failed); ("headers", ok); ("cms", ok);
        ("ddos", failed)] = 80.
Proof. repeat split; vm_compute; reflexivity. Qed.

(** The two end-to-end scenarios of the specification. *)
Lemma end_to_end_scores :
  calculate_total_score
    [("ports", VDict [("score", VInt 55); ("status", VStr "critical")]);
     ("headers", VDict [("score", VInt 90); ("status", VStr "good")]);
     ("ssl", VDict [("error", VStr "timeout")]);
     ("cms", VDict [("error", VStr "timeout")]);
     ("ddos", VDict [("error", VStr "timeout")])] = 74
  /\ calculate_total_score
       [("ssl", VDict [("score", VInt 85)]); ("ports", VDict [("score", VInt 70)]);
        ("headers", VDict [("score", VInt 90)]); ("cms", VDict [("score", VInt 80)]);
        ("ddos", VDict [("score", VInt 60)])] = 79.
Proof. split; vm_compute; reflexivity. Qed.

(** An entry whose [error] is set leaves the accumulator as it is. *)
Lemma accumulate_skips_error (scan_results : dict) (k : string) (w : float)
  (acc : float * float) (d : dict) (e : value) :
  lookup k scan_results = Some (VDict d) ->
  lookup "error" d = Some e -> truthy e = true ->
  accumulate scan_results acc (k, w) = Ok acc.
Proof.
  intros Hk Hd He. unfold accumulate. destruct acc as [ts tw].
  rewrite Hk. simpl. rewrite Hd, He. reflexivity.
Qed.

(* ================================================================= *)
(** ** Score ranges *)

Lemma ensures_bind {A B : Type} (Q : A -> Prop) (P : B -> Prop)
  (m : result A) (k : A -> result B) :
  ensures Q m -> (forall a, Q a -> ensures P (k a)) -> ensures P (bind m k).
Proof. destruct m; simpl; auto. Qed.

Lemma ensures_bind_any {A B : Type} (P : B -> Prop) (m : result A)
  (k : A -> result B) :
  (forall a, ensures P (k a)) -> ensures P (bind m k).
Proof. destruct m; simpl; auto. Qed.

Lemma clamp_range (score : Z) : 0 <= clamp score <= 100.
Proof. unfold clamp. lia. Qed.

Lemma reported_score_range (m : result Z) :
  ensures (fun s => 0 <= s <= 100) m ->
  0 <= Scanners.reported_score m <= 100.
Proof. destruct m; simpl; [auto|lia]. Qed.

Ltac ensure_clamped :=
  repeat first
    [ apply ensures_bind_any; intros
    | match goal with
      | |- ensures _ (if ?b then _ else _) => destruct b
      | |- ensures _ (Ok (clamp _)) => apply clamp_range
      end ].

Lemma port_score_range (analysis : value) :
  ensures (fun s => 0 <= s <= 100) (Scanners._calculate_port_score analysis).
Proof. unfold Scanners._calculate_port_score. ensure_clamped. Qed.

Lemma headers_score_range (security_analysis dangerous_analysis https_analysis : value) :
  ensures (fun s => 0 <= s <= 100)
    (Scanners._calculate_headers_score security_analysis dangerous_analysis
       https_analysis).
Proof. unfold Scanners._calculate_headers_score. ensure_clamped. Qed.

Lemma cms_score_range (cms_info vulns exposed plugins : value) :
  ensures (fun s => 0 <= s <= 100)
    (Scanners._calculate_cms_score cms_info vulns exposed plugins).
Proof. unfold Scanners._calculate_cms_score. ensure_clamped. Qed.

Lemma protection_score_range (dns_info cdn_info rate_limit_info : value) :
  ensures (fun s => 0 <= s <= 100)
    (Scanners._calculate_protection_score dns_info cdn_info rate_limit_info).
Proof. unfold Scanners._calculate_protection_score. ensure_clamped. Qed.

Lemma ssl_score_range (ssl_info cert_info protocol_info cipher_info : value) :
  ensures (fun s => 0 <= s <= 100)
    (Scanners._calculate_ssl_score ssl_info cert_info protocol_info cipher_info).
Proof.
  unfold Scanners._calculate_ssl_score.
  apply ensures_bind_any; intros cert_err.
  apply ensures_bind with (Q := fun s => 20 <= s).
  { destruct (truthy cert_err); [simpl; lia|].
    repeat (apply ensures_bind_any; intros).
    repeat match goal with |- context [if ?b then _ else _] => destruct b end;
      simpl; lia. }
  intros s1 H1.
  apply ensures_bind_any; intros proto_err.
  apply ensures_bind with (Q := fun s => 20 <= s).
  { destruct (truthy proto_err); [simpl; lia|].
    apply ensures_bind_any; intros modern.
    apply ensures_bind_any; intros weak.
    apply ensures_bind_any; intros tls13.
    apply ensures_bind with (Q := fun s => 20 <= s).
    { destruct tls13; [simpl; lia|].
      apply ensures_bind_any; intros tls12. destruct tls12; simpl; lia. }
    intros s2 H2. destruct (truthy weak); [|simpl; lia].
    apply ensures_bind_any; intros n.
    repeat match goal with |- context [if ?b then _ else _] => destruct b end;
      simpl; lia. }
  intros s2 H2.
  apply ensures_bind_any; intros cipher_err.
  apply ensures_bind with (Q := fun s => 20 <= s).
  { destruct (truthy cipher_err); [simpl; lia|].
    apply ensures_bind_any; intros strong.
    apply ensures_bind with (Q := fun s => 20 <= s).
    { destruct (truthy strong); [simpl; lia|].
      apply ensures_bind_any; intros bits.
      apply ensures_bind_any; intros b128. destruct b128; [simpl; lia|].
      apply ensures_bind_any; intros b64. destruct b64; simpl; lia. }
    intros s3 H3. apply ensures_bind_any; intros weak_ciphers.
    destruct (truthy weak_ciphers); simpl; lia. }
  intros s3 H3. simpl. lia.
Qed.

Lemma total_score_range (scan_results : dict) :
  0 <= calculate_total_score scan_results <= 100.
Proof.
  unfold calculate_total_score.
  assert (H : ensures (fun s => 0 <= s <= 100) (total_score_body scan_results)).
  { unfold total_score_body. apply ensures_bind_any; intros [ts tw].
    apply ensures_bind_any; intros final. apply clamp_range. }
  destruct (total_score_body scan_results); simpl in H; [exact H|lia].
Qed.

(** C8: the score every scanner reports and the aggregate score lie in
    the closed interval from 0 to 100, whatever the analysis the
    calculators are given and whatever the result mapping. *)
Theorem scores_within_0_100
  (ssl_info cert_info protocol_info cipher_info : value) (redirect : bool)
  (port_analysis : value)
  (security_analysis dangerous_analysis https_analysis : value)
  (cms_info vulns exposed plugins : value)
  (dns_info cdn_info rate_limit_info : value)
  (scan_results : dict) :
  0 <= Scanners.reported_score
         (Scanners._calculate_ssl_score ssl_info cert_info protocol_info
            cipher_info) <= 100
  /\ 0 <= Scanners.ssl_http_score redirect <= 100
  /\ 0 <= Scanners.reported_score (Scanners._calculate_port_score port_analysis)
       <= 100
  /\ 0 <= Scanners.reported_score
            (Scanners._calculate_headers_score security_analysis
               dangerous_analysis https_analysis) <= 100
  /\ 0 <= Scanners.reported_score
            (Scanners._calculate_cms_score cms_info vulns exposed plugins) <= 100
  /\ 0 <= Scanners.reported_score
            (Scanners._calculate_protection_score dns_info cdn_info
               rate_limit_info) <= 100
  /\ 0 <= calculate_total_score scan_results <= 100.
Proof.
  split; [apply reported_score_range, ssl_score_range|].
  split; [destruct redirect; simpl; lia|].
  split; [apply reported_score_range, port_score_range|].
  split; [apply reported_score_range, headers_score_range|].
  split; [apply reported_score_range, cms_score_range|].
  split; [apply reported_score_range, protection_score_range|].
  apply total_score_range.
Qed.

(* ================================================================= *)
(** ** Results on the recommendation list *)

Section FirstSeen.

Lemma filter_twice (p q : string -> bool) (l : list string) :
  filter p (filter q l) = filter (fun y => q y && p y) l.
Proof.
  induction l as [|x l IH]; simpl; [reflexivity|].
  destruct (q x); simpl; [destruct (p x)|]; now rewrite IH.
Qed.

Lemma uniq_first_filter (p : string -> bool) (l : list string) :
  uniq_first (filter p l) = filter p (uniq_first l).
Proof.
  induction l as [|x l IH]; simpl; [reflexivity|].
  destruct (p x) eqn:Px; simpl.
  - rewrite IH. f_equal. rewrite !filter_twice. apply filter_ext.
    intros y. apply andb_comm.
  - rewrite IH, filter_twice. apply filter_ext. intros y.
    destruct (String.eqb x y) eqn:E; simpl; [|reflexivity].
    apply String.eqb_eq in E. subst y. now rewrite Px.
Qed.

Lemma fromkeys_fold (l ks : list string) :
  fold_left
    (fun ks x => if existsb (String.eqb x) ks then ks else ks ++ [x]) l ks
  = ks ++ uniq_first (filter (fun x => negb (existsb (String.eqb x) ks)) l).
Proof.
  revert ks. induction l as [|x l IH]; intros ks; simpl.
  - now rewrite app_nil_r.
  - destruct (existsb (String.eqb x) ks) eqn:E; simpl; [apply IH|].
    rewrite IH, <- app_assoc. simpl. do 2 f_equal.
    rewrite <- uniq_first_filter, filter_twice. f_equal.
    apply filter_ext. intros y. rewrite existsb_app. simpl.
    rewrite orb_false_r, negb_orb, (String.eqb_sym y x). reflexivity.
Qed.

(** [dict.fromkeys] removes duplicates in first-seen order. *)
Lemma dict_fromkeys_first_seen (l : list string) :
  dict_fromkeys l = uniq_first l.
Proof.
  unfold dict_fromkeys. rewrite fromkeys_fold. simpl. f_equal.
  induction l as [|x l IH]; simpl; [reflexivity|now rewrite IH].
Qed.

Lemma uniq_first_In (l : list string) (y : string) :
  In y (uniq_first l) <-> In y l.
Proof.
  induction l as [|x l IH]; simpl; [tauto|].
  rewrite filter_In, IH. split.
  - intros [->|[H _]]; auto.
  - intros [->|H]; [now left|].
    destruct (String.eqb x y) eqn:E.
    + apply String.eqb_eq in E. now left.
    + right. split; [exact H|reflexivity].
Qed.

Lemma uniq_first_NoDup (l : list string) : NoDup (uniq_first l).
Proof.
  induction l as [|x l IH]; simpl; constructor.
  - rewrite filter_In. intros [_ H]. now rewrite String.eqb_refl in H.
  - now apply NoDup_filter.
Qed.

End FirstSeen.

Lemma firstn_incl {A : Type} (n : nat) (l : list A) (x : A) :
  In x (firstn n l) -> In x l.
Proof.
  revert l. induction n as [|n IH]; intros [|a l]; simpl; try tauto.
  intros [->|H]; auto.
Qed.

Lemma firstn_NoDup {A : Type} (n : nat) (l : list A) :
  NoDup l -> NoDup (firstn n l).
Proof.
  revert l. induction n as [|n IH]; intros [|a l] H; simpl; try constructor.
  - inversion H; subst. intros Hin. now apply firstn_incl in Hin.
  - inversion H; subst. now apply IH.
Qed.

Lemma firstn_nth_error {A : Type} (n i : nat) (l : list A) :
  (i < n)%nat -> nth_error (firstn n l) i = nth_error l i.
Proof.
  revert i l. induction n as [|n IH]; intros i l Hi; [lia|].
  destruct l as [|a l]; [reflexivity|]. destruct i as [|i]; [reflexivity|].
  simpl. apply IH. lia.
Qed.

(** C3, as the code behaves: the returned list has no duplicates and at
    most 15 entries.  On a pass without exception it is the first 15 of
    the produced recommendations with duplicates removed in first-seen
    order, so each entry is one of the produced recommendations, the 15th
    entry included: what lies beyond it is dropped and no summary line is
    written.  On an exception it is the single default recommendation. *)
Theorem recommendations_deduplicated_first_15
  (container_repr : value -> string) (scan_results : dict)
  (translations : list (string * string)) :
  let returned :=
    generate_recommendations container_repr scan_results translations in
  NoDup returned
  /\ (List.length returned <= 15)%nat
  /\ match collect_recommendations container_repr scan_results with
     | Ok produced =>
         returned = firstn 15 (uniq_first produced)
         /\ List.length returned = Nat.min 15 (List.length (uniq_first produced))
         /\ nth_error returned 14 = nth_error (uniq_first produced) 14
         /\ incl returned produced
     | Raise _ => returned = [default_recommendation translations]
     end.
Proof.
  unfold generate_recommendations.
  destruct (collect_recommendations container_repr scan_results) as [produced|e];
    cbn zeta.
  - rewrite dict_fromkeys_first_seen.
    split; [apply firstn_NoDup, uniq_first_NoDup|].
    split; [apply firstn_le_length|].
    split; [reflexivity|].
    split; [apply length_firstn|].
    split; [apply firstn_nth_error; lia|].
    intros x Hx. apply firstn_incl in Hx.
    exact (proj1 (uniq_first_In produced x) Hx).
  - split; [constructor; [intros []|constructor]|].
    split; [simpl; lia|reflexivity].
Qed.

(** C3 as stated fails: twenty distinct recommendations are produced, and
    the 15th entry of the returned list is the 15th of them, an ordinary
    recommendation of the DDoS rules that states no count; the five
    recommendations after it are dropped without a summary. *)
Lemma fifteenth_entry_is_no_summary :
  let returned :=
    generate_recommendations Samples.no_repr Samples.many_findings [] in
  (exists produced,
      collect_recommendations Samples.no_repr Samples.many_findings = Ok produced
      /\ NoDup produced /\ List.length produced = 20%nat)
  /\ List.length returned = 15%nat
  /\ nth_error returned 14
     = Some "Настройте CDN (например, Cloudflare) для защиты от DDoS атак"
  /\ _get_ddos_recommendations
       (VDict [("cdn_detection", VDict [("detected", VBool false)]);
               ("rate_limiting", VDict [("detected", VBool true)])])
     = Ok ["Настройте CDN (например, Cloudflare) для защиты от DDoS атак"]
  /\ has_digit "Настройте CDN (например, Cloudflare) для защиты от DDoS атак"
     = false.
Proof.
  cbn zeta. split.
  - eexists. split; [vm_compute; reflexivity|]. split; [|reflexivity].
    repeat (constructor; [simpl; intuition discriminate|]). constructor.
  - repeat split; vm_compute; reflexivity.
Qed.

Lemma general_ends_with_always_applicable (scan_results : dict) :
  ensures (fun general => exists specific, general = specific ++ always_applicable)
    (_get_general_recommendations scan_results).
Proof.
  unfold _get_general_recommendations.
  apply ensures_bind_any. intros [total_issues critical_issues]. simpl.
  eexists. rewrite app_assoc. reflexivity.
Qed.

Lemma collected_ends_with_always_applicable
  (container_repr : value -> string) (scan_results : dict) :
  ensures (fun produced => exists specific, produced = specific ++ always_applicable)
    (collect_recommendations container_repr scan_results).
Proof.
  unfold collect_recommendations.
  do 5 (apply ensures_bind_any; intros ?).
  eapply ensures_bind; [apply general_ends_with_always_applicable|].
  intros general [specific ->]. simpl.
  eexists. rewrite app_assoc. reflexivity.
Qed.

Lemma uniq_first_nonempty (l : list string) : l <> [] -> uniq_first l <> [].
Proof. destruct l; simpl; [congruence|discriminate]. Qed.

(** C10: the recommendation generator never returns an empty list.  On a
    pass without exception the produced list ends with the two
    always-applicable recommendations; on an exception the returned list
    is the single default recommendation. *)
Theorem recommendations_never_empty
  (container_repr : value -> string) (scan_results : dict)
  (translations : list (string * string)) :
  generate_recommendations container_repr scan_results translations <> []
  /\ match collect_recommendations container_repr scan_results with
     | Ok produced =>
         exists specific, produced = specific ++ always_applicable
     | Raise _ =>
         generate_recommendations container_repr scan_results translations
         = [default_recommendation translations]
     end.
Proof.
  pose proof (collected_ends_with_always_applicable container_repr scan_results)
    as H.
  unfold generate_recommendations.
  destruct (collect_recommendations container_repr scan_results) as [produced|e];
    simpl in H.
  - split; [|exact H]. destruct H as [specific ->].
    rewrite dict_fromkeys_first_seen.
    assert (Hne : uniq_first (specific ++ always_applicable) <> []).
    { apply uniq_first_nonempty. destruct specific; discriminate. }
    destruct (uniq_first (specific ++ always_applicable)); [congruence|].
    discriminate.
  - split; [discriminate|reflexivity].
Qed.

(* ================================================================= *)
(** ** Results on the scan endpoint *)

Section EndpointFacts.

Variable scanners : Main.Scanners.
Variable get_translations : string -> list (string * string).
Variable container_repr : value -> string.
Variable uuid4 utcnow utcnow_iso : string.

Local Abbreviation run :=
  (Main.start_scan scanners get_translations container_repr uuid4 utcnow
     utcnow_iso).

(** C4, as the code behaves: a request with no scan type is answered.  No
    scanner is awaited and the call completes with score 0, an empty
    result mapping and the two always-applicable recommendations. *)
Theorem empty_request_completes (request : Main.ScanRequest) :
  Main.scan_types request = [] ->
  run request
  = Main.mkReply
      (inr (Main.mkScanResponse uuid4 (Main.normalize_url (Main.url request)) 0
              "completed" [] always_applicable utcnow_iso))
      [].
Proof.
  intros H. unfold Main.start_scan. rewrite H. reflexivity.
Qed.

Ltac split_requested :=
  repeat match goal with
    | |- context [Main.in_list ?k ?l] =>
        let E := fresh "E" in destruct (Main.in_list k l) eqn:E
    end.

(** C7: the endpoint always answers with a mapping.  Its keys are the
    requested scan types that name a probe, each once; every one of them
    was awaited; and the entry of a probe is what that probe returned, or
    the Failure dict carrying the text of what it raised, whatever the
    other probes did. *)
Theorem every_requested_probe_has_its_entry (request : Main.ScanRequest) :
  exists resp,
    Main.response (run request) = inr resp
    /\ keys (Main.results resp)
       = filter (fun k => Main.in_list k (Main.scan_types request)) probe_kinds
    /\ (forall k, In k (keys (Main.results resp))
                  <-> In k probe_kinds /\ In k (Main.scan_types request))
    /\ NoDup (keys (Main.results resp))
    /\ Main.awaited (run request) = keys (Main.results resp)
    /\ (forall k, In k (keys (Main.results resp)) ->
          lookup k (Main.results resp)
          = Some (entry_of (scanner_of scanners k
                              (Main.normalize_url (Main.url request))))).
Proof.
  assert (Hin : forall k l, Main.in_list k l = true <-> In k l).
  { intros k l. unfold Main.in_list. rewrite existsb_exists. split.
    - intros [x [Hx E]]. apply String.eqb_eq in E. now subst.
    - intros Hk. exists k. split; [exact Hk|apply String.eqb_refl]. }
  assert (Hkeys : exists resp,
    Main.response (run request) = inr resp
    /\ keys (Main.results resp)
       = filter (fun k => Main.in_list k (Main.scan_types request)) probe_kinds
    /\ Main.awaited (run request) = keys (Main.results resp)
    /\ (forall k, In k (keys (Main.results resp)) ->
          lookup k (Main.results resp)
          = Some (entry_of (scanner_of scanners k
                              (Main.normalize_url (Main.url request)))))).
  { unfold Main.start_scan, Main.tasks, probe_kinds.
    cbn [filter].
    split_requested; cbn [app fold_left Main.await_task dict_set String.eqb
                           Ascii.eqb Bool.eqb];
      (eexists; split; [reflexivity|]; split; [reflexivity|];
       split; [reflexivity|]);
      intros k Hk; cbn in Hk;
      repeat (destruct Hk as [<-|Hk];
              [cbn; unfold entry_of;
               repeat match goal with
                 | |- context [match ?o with Main.Returned _ => _
                                           | Main.Raised _ => _ end] =>
                     destruct o
                 end; reflexivity|]);
      contradiction. }
  destruct Hkeys as [resp [Hr [Hk [Ha Hl]]]].
  exists resp. split; [exact Hr|]. split; [exact Hk|].
  split.
  { intros k. rewrite Hk, filter_In, Hin. tauto. }
  split.
  { rewrite Hk. apply NoDup_filter. unfold probe_kinds.
    repeat (constructor; [simpl; intuition discriminate|]). constructor. }
  split; [exact Ha|exact Hl].
Qed.

End EndpointFacts.

Lemma every_requested_probe_has_its_entry_witness :
  exists resp,
    Main.response (Samples.sample_start_scan Samples.two_probe_request) = inr resp
    /\ lookup "ports" (Main.results resp)
       = Some (VDict [("error", VStr "timed out")])
    /\ lookup "ssl" (Main.results resp)
       = Some (VDict [("score", VInt 85); ("status", VStr "good")]).
Proof.
  destruct (every_requested_probe_has_its_entry Samples.sample_scanners
              Samples.no_translations Samples.no_repr
              "00000000-0000-4000-8000-000000000000" "2025-09-25 10:00:00"
              "2025-09-25T10:00:00" Samples.two_probe_request)
    as [resp [Hr [Hk [_ [_ [_ Hl]]]]]].
  exists resp. split; [exact Hr|].
  split; (rewrite Hl; [reflexivity|rewrite Hk; vm_compute; tauto]).
Defined.

Lemma empty_request_completes_witness :
  Main.scan_types Samples.empty_request = []
  /\ Samples.sample_start_scan Samples.empty_request
     = Main.mkReply
         (inr (Main.mkScanResponse "00000000-0000-4000-8000-000000000000"
                 "https://example.com" 0 "completed" [] always_applicable
                 "2025-09-25T10:00:00"))
         [].
Proof.
  split; [reflexivity|].
  apply (empty_request_completes Samples.sample_scanners Samples.no_translations
           Samples.no_repr "00000000-0000-4000-8000-000000000000"
           "2025-09-25 10:00:00" "2025-09-25T10:00:00" Samples.empty_request).
  reflexivity.
Defined.

(** C4 as stated fails: the request names no scan type, and the endpoint
    returns a completed response instead of an error. *)
Lemma empty_request_is_answered :
  Main.scan_types Samples.empty_request = []
  /\ (exists resp,
        Main.response (Samples.sample_start_scan Samples.empty_request) = inr resp
        /\ Main.status resp = "completed"
        /\ Main.results resp = [])
  /\ (forall e,
        Main.response (Samples.sample_start_scan Samples.empty_request) <> inl e).
Proof.
  split; [reflexivity|]. split.
  - eexists. split; [vm_compute; reflexivity|]. split; reflexivity.
  - intros e. vm_compute. discriminate.
Qed.

(* ================================================================= *)
(** ** Results on the fingerprint engine *)

Section FingerprintFacts.

Variable re_search : string -> string -> option (list (option string)).
Variable surface : CMS.Surface.

Local Abbreviation conf := (confidence_of re_search surface).

Lemma count_cons {A : Type} (p : A -> bool) (x : A) (l : list A) :
  count p (x :: l) = (if p x then 1 else 0) + count p l.
Proof.
  unfold count. cbn [filter]. destruct (p x); cbn [List.length]; lia.
Qed.

Lemma header_loop (l : list (string * string)) (c : Z) :
  fold_left (CMS.check_header surface) l c
  = c + 20 * count (header_matched surface) l.
Proof.
  revert c. induction l as [|[h expected] l IH]; intros c.
  - unfold count. simpl. lia.
  - simpl fold_left. rewrite IH, count_cons.
    unfold CMS.check_header, header_matched. simpl fst. simpl snd.
    destruct (CMS.header surface h) as [actual|]; [|lia].
    destruct (String.eqb expected EmptyString
              || is_infix (lower expected) (lower actual)); lia.
Qed.

Lemma meta_loop (l : list string) (c : Z) (v : option string) :
  fst (fold_left (CMS.check_meta re_search surface) l (c, v))
  = c + 30 * count (pattern_matched re_search surface) l.
Proof.
  revert c v. induction l as [|p l IH]; intros c v.
  - unfold count. simpl. lia.
  - simpl fold_left. rewrite count_cons.
    unfold pattern_matched at 1.
    destruct (re_search p (CMS.content surface)); rewrite IH; lia.
Qed.

Lemma pattern_loop (l : list string) (c : Z) :
  fold_left (CMS.check_pattern re_search surface) l c
  = c + 15 * count (pattern_matched re_search surface) l.
Proof.
  revert c. induction l as [|p l IH]; intros c.
  - unfold count. simpl. lia.
  - simpl fold_left. rewrite IH, count_cons.
    unfold CMS.check_pattern, pattern_matched.
    destruct (re_search p (CMS.content surface)); lia.
Qed.

Lemma path_loop (l : list string) (c : Z) (requests : list string) :
  fold_left (CMS.check_path surface) l (c, requests)
  = (c + 25 * count (path_reachable surface) l, requests ++ l).
Proof.
  revert c requests. induction l as [|p l IH]; intros c requests.
  - unfold count. simpl. rewrite app_nil_r. f_equal. lia.
  - simpl fold_left. rewrite count_cons.
    unfold path_reachable at 1.
    destruct (CMS.path_status surface p) as [status_code|];
      rewrite IH, <- app_assoc; cbn [app]; f_equal;
      try destruct (status_code =? 200); lia.
Qed.

Lemma evaluate_sum (sig : CMS.Signature) :
  CMS.evaluate re_search surface sig
  = (signal_sum re_search surface sig,
     snd (fold_left (CMS.check_meta re_search surface) (CMS.meta sig)
            (fold_left (CMS.check_header surface) (CMS.headers sig) 0, None)),
     firstn 2 (CMS.paths sig)).
Proof.
  unfold CMS.evaluate, signal_sum.
  destruct (fold_left (CMS.check_meta re_search surface) (CMS.meta sig)
              (fold_left (CMS.check_header surface) (CMS.headers sig) 0, None))
    as [c v] eqn:Em.
  pose proof (meta_loop (CMS.meta sig)
                (fold_left (CMS.check_header surface) (CMS.headers sig) 0) None)
    as Hm.
  rewrite Em in Hm. cbn [fst] in Hm. rewrite header_loop in Hm.
  rewrite pattern_loop, path_loop. cbn [app snd]. subst c.
  repeat f_equal; lia.
Qed.

(** C9: the confidence of a signature is 20 for each matched header, 30
    for each matched meta pattern, 15 for each matched content pattern
    and 25 for each of its first two paths that answers 200, added up;
    the requests issued are exactly those first two paths, so at most
    two; and a path whose request raised leaves the confidence as it was. *)
Theorem confidence_is_sum_of_signals (sig : CMS.Signature) :
  let '(confidence, _, requests) := CMS.evaluate re_search surface sig in
  confidence
  = 20 * count (header_matched surface) (CMS.headers sig)
    + 30 * count (pattern_matched re_search surface) (CMS.meta sig)
    + 15 * count (pattern_matched re_search surface) (CMS.patterns sig)
    + 25 * count (path_reachable surface) (firstn 2 (CMS.paths sig))
  /\ requests = firstn 2 (CMS.paths sig)
  /\ (List.length requests <= 2)%nat
  /\ (forall c issued path,
        CMS.path_status surface path = None ->
        CMS.check_path surface (c, issued) path = (c, issued ++ [path])).
Proof.
  rewrite evaluate_sum. split; [reflexivity|]. split; [reflexivity|].
  split; [apply firstn_le_length|].
  intros c issued path H. unfold CMS.check_path. now rewrite H.
Qed.

Lemma consider_step (b : CMS.BestMatch) (log : list string) (k : string)
  (sig : CMS.Signature) :
  CMS.consider re_search surface (b, log) (k, sig)
  = (if CMS.best_confidence b <? conf sig
     then CMS.mkBestMatch (Some k) (conf sig)
            (snd (fst (CMS.evaluate re_search surface sig)))
     else b,
     log ++ snd (CMS.evaluate re_search surface sig)).
Proof.
  unfold CMS.consider, confidence_of.
  destruct (CMS.evaluate re_search surface sig) as [[c v] requests].
  reflexivity.
Qed.

(** The loop over the signature table keeps the first candidate of the
    highest confidence, if any exceeds the confidence it started from. *)
Lemma best_of_loop (l : list (string * CMS.Signature)) (b b' : CMS.BestMatch)
  (log log' : list string) :
  fold_left (CMS.consider re_search surface) l (b, log) = (b', log') ->
  (b' = b /\ forall e, In e l -> conf (snd e) <= CMS.best_confidence b)
  \/ exists pre k sig post,
       l = pre ++ (k, sig) :: post
       /\ CMS.best_cms b' = Some k
       /\ CMS.best_confidence b' = conf sig
       /\ CMS.best_confidence b < conf sig
       /\ (forall e, In e pre -> conf (snd e) < conf sig)
       /\ (forall e, In e post -> conf (snd e) <= conf sig).
Proof.
  revert b log. induction l as [|[k sig] l IH]; intros b log Hfold.
  - simpl in Hfold. injection Hfold as <- _. left. split; [reflexivity|].
    intros e [].
  - cbn [fold_left] in Hfold. rewrite consider_step in Hfold.
    apply IH in Hfold.
    destruct (CMS.best_confidence b <? conf sig) eqn:Elt.
    + apply Z.ltb_lt in Elt.
      destruct Hfold as [[-> Hall]|[pre [k' [sig' [post H]]]]].
      * right. exists [], k, sig, l. cbn [CMS.best_confidence] in Hall.
        repeat split; auto. intros e [].
      * destruct H as [-> [H1 [H2 [H3 [H4 H5]]]]].
        cbn [CMS.best_confidence] in H3.
        right. exists ((k, sig) :: pre), k', sig', post.
        repeat split; auto; [lia|].
        intros e [<-|He]; [exact H3|now apply H4].
    + apply Z.ltb_ge in Elt.
      destruct Hfold as [[-> Hall]|[pre [k' [sig' [post H]]]]].
      * left. split; [reflexivity|].
        intros e [<-|He]; [exact Elt|now apply Hall].
      * destruct H as [-> [H1 [H2 [H3 [H4 H5]]]]].
        right. exists ((k, sig) :: pre), k', sig', post.
        repeat split; auto.
        intros e [<-|He]; [cbn [snd]; lia|now apply H4].
Qed.

Lemma lookup_of_In {A : Type} (k : string) (v : A) (d : list (string * A)) :
  In (k, v) d -> exists v', lookup k d = Some v'.
Proof.
  induction d as [|[k' v'] d IH]; simpl; [tauto|].
  intros [[= -> ->]|H].
  - rewrite String.eqb_refl. eauto.
  - destruct (String.eqb k k'); eauto.
Qed.

(** C5: the engine reports a detection exactly when some candidate of
    the table has a confidence above 50; the technology it then reports
    has the highest confidence of the table, every candidate before it in
    the table having strictly less, so that among equals the earliest
    wins; otherwise it reports none. *)
Theorem detection_threshold_and_tie_break
  (signatures : list (string * CMS.Signature)) :
  let r := fst (CMS.detect_from re_search surface signatures) in
  (CMS.detected r = true
   <-> exists k sig, In (k, sig) signatures /\ 50 < conf sig)
  /\ (if CMS.detected r then
        exists pre k sig post,
          signatures = pre ++ (k, sig) :: post
          /\ CMS.cms_type r = Some k
          /\ CMS.confidence r = conf sig
          /\ 50 < conf sig
          /\ (forall e, In e pre -> conf (snd e) < conf sig)
          /\ (forall e, In e post -> conf (snd e) <= conf sig)
      else
        CMS.cms_type r = None
        /\ forall k sig, In (k, sig) signatures -> conf sig <= 50).
Proof.
  cbn zeta. unfold CMS.detect_from, CMS.best_of.
  destruct (fold_left (CMS.consider re_search surface) signatures
              (CMS.mkBestMatch None 0 None, [])) as [b' log] eqn:Efold.
  apply best_of_loop in Efold.
  cbn [fst CMS.best_confidence] in *.
  destruct Efold as [[-> Hall]|[pre [k [sig [post H]]]]].
  - cbn. split.
    + split; [discriminate|]. intros [k [sig [Hin Hgt]]].
      specialize (Hall _ Hin). simpl in Hall. lia.
    + split; [reflexivity|]. intros k sig Hin.
      specialize (Hall _ Hin). simpl in Hall. lia.
  - destruct H as [Hl [H1 [H2 [H3 [H4 H5]]]]].
    assert (Hmax : forall k' sig', In (k', sig') signatures -> conf sig' <= conf sig).
    { intros k' sig' Hin. rewrite Hl in Hin. apply in_app_or in Hin.
      destruct Hin as [Hin|[[= _ ->]|Hin]].
      - specialize (H4 _ Hin). simpl in H4. lia.
      - lia.
      - specialize (H5 _ Hin). simpl in H5. lia. }
    assert (Hk : In (k, sig) signatures)
      by (rewrite Hl; apply in_or_app; right; now left).
    destruct (lookup_of_In k sig signatures Hk) as [sig0 Hlook].
    rewrite H1, H2, Hlook.
    destruct (50 <? conf sig) eqn:E; simpl.
    + apply Z.ltb_lt in E. split.
      * split; [|reflexivity]. intros _. now exists k, sig.
      * exists pre, k, sig, post. repeat split; auto.
    + apply Z.ltb_ge in E. split.
      * split; [discriminate|]. intros [k' [sig' [Hin Hgt]]].
        specialize (Hmax _ _ Hin). lia.
      * split; [reflexivity|]. intros k' sig' Hin.
        specialize (Hmax _ _ Hin). lia.
Qed.

End FingerprintFacts.

Example wordpress_sample_detected :
  CMS._detect_cms Samples.literal_search CMS.cms_signatures
    (Some Samples.wordpress_surface)
  = (CMS.mkCmsResults true (Some "wordpress") (Some "WordPress") None 75 false,
     ["/wp-admin/"; "/wp-content/"; "/user/login"; "/admin/"; "/administrator/";
      "/components/"; "/admin/"; "/downloader/"; "/admin/"; "/catalog/"]).
Proof. vm_compute. reflexivity. Qed.

Lemma confidence_is_sum_of_signals_witness :
  CMS.path_status Samples.wordpress_surface "/wp-content/" = None
  /\ CMS.check_path Samples.wordpress_surface (75, ["/wp-admin/"]) "/wp-content/"
     = (75, ["/wp-admin/"; "/wp-content/"]).
Proof.
  split; [reflexivity|].
  pose proof (confidence_is_sum_of_signals Samples.literal_search
                Samples.wordpress_surface Samples.wordpress_signature) as H.
  destruct (CMS.evaluate Samples.literal_search Samples.wordpress_surface
              Samples.wordpress_signature) as [[confidence version] requests].
  destruct H as [_ [_ [_ H]]].
  exact (H 75 ["/wp-admin/"] "/wp-content/" eq_refl).
Defined.

Lemma detection_threshold_and_tie_break_witness :
  CMS.detected
    (fst (CMS.detect_from Samples.literal_search Samples.wordpress_surface
            CMS.cms_signatures)) = true.
Proof.
  apply (proj1 (detection_threshold_and_tie_break Samples.literal_search
                  Samples.wordpress_surface CMS.cms_signatures)).
  exists "wordpress", Samples.wordpress_signature.
  split; [left; reflexivity|vm_compute; reflexivity].
Defined.

(* ================================================================= *)
(** ** Results on the version correlator *)


Lemma pad_length (n : nat) (parts : list Z) :
  (List.length parts <= n)%nat -> List.length (CMS.pad n parts) = n.
Proof.
  intros H. unfold CMS.pad. rewrite length_app, repeat_length. lia.
Qed.




Lemma digit_values_cons (c : ascii) (r : string) (ds : list Z) :
  digit_values (String c r) = Some ds ->
  exists d ds', ds = d :: ds' /\ decimal_digit c = Some d
                /\ digit_values r = Some ds'.
Proof.
  cbn [digit_values].
  destruct (decimal_digit c) as [d|]; [|discriminate].
  destruct (digit_values r) as [ds'|]; [|discriminate].
  intros [= <-]. eauto.
Qed.

Lemma digit_values_length (s : string) (ds : list Z) :
  digit_values s = Some ds -> List.length ds = String.length s.
Proof.
  revert ds. induction s as [|c r IH]; intros ds H.
  - injection H as <-. reflexivity.
  - destruct (digit_values_cons c r ds H) as [d [ds' [-> [_ Hr]]]].
    cbn [List.length String.length]. now rewrite (IH ds' Hr).
Qed.















(* ================================================================= *)
(** ** Further results on the aggregate score *)

Import Facts.

Lemma lookup_absent {A : Type} (k : string) (d : list (string * A)) :
  ~ In k (keys d) -> lookup k d = None.
Proof.
  induction d as [|[k' v] d IH]; simpl; [reflexivity|].
  intros H. destruct (String.eqb k k') eqn:E.
  - apply String.eqb_eq in E. subst. tauto.
  - apply IH. tauto.
Qed.

Lemma lookup_filter_absent {A : Type} (p : string * A -> bool) (k : string)
  (d : list (string * A)) :
  lookup k d = None -> lookup k (filter p d) = None.
Proof.
  induction d as [|[k' v] d IH]; simpl; [reflexivity|].
  destruct (String.eqb k k') eqn:E; [discriminate|]. intros H.
  destruct (p (k', v)); simpl; [rewrite E|]; now apply IH.
Qed.

Lemma lookup_filter {A : Type} (p : string * A -> bool) (k : string)
  (d : list (string * A)) :
  NoDup (keys d) ->
  lookup k (filter p d)
  = match lookup k d with
    | Some v => if p (k, v) then Some v else None
    | None => None
    end.
Proof.
  induction d as [|[k' v] d IH]; simpl; [reflexivity|].
  intros Hnd. inversion Hnd as [|? ? Hnotin Hrest]; subst.
  destruct (String.eqb k k') eqn:E.
  - apply String.eqb_eq in E. subst k'.
    destruct (p (k, v)); simpl; [now rewrite String.eqb_refl|].
    apply lookup_filter_absent. now apply lookup_absent.
  - destruct (p (k', v)); simpl; [rewrite E|]; now apply IH.
Qed.

Lemma foldM_ext {A B : Type} (f g : A -> B -> result A) (l : list B) (a : A) :
  (forall a b, In b l -> f a b = g a b) -> foldM f l a = foldM g l a.
Proof.
  revert a. induction l as [|b l IH]; intros a H; simpl; [reflexivity|].
  rewrite (H a b (or_introl eq_refl)). destruct (g a b); simpl; [|reflexivity].
  apply IH. intros a' b' Hin. apply H. now right.
Qed.

Lemma total_score_by_lookup (sr sr' : dict) :
  (forall k, In k probe_kinds -> lookup k sr = lookup k sr') ->
  calculate_total_score sr = calculate_total_score sr'.
Proof.
  intros H. unfold calculate_total_score, total_score_body.
  rewrite (foldM_ext (accumulate sr) (accumulate sr') weights); [reflexivity|].
  intros [ts tw] [k w] Hin. unfold accumulate. rewrite H; [reflexivity|].
  unfold weights in Hin. unfold probe_kinds. simpl in *.
  intuition (match goal with H : (_, _) = (_, _) |- _ => inversion H end; auto).
Qed.

(** X1: Failure entries count for nothing in the aggregate score: in a
    mapping with distinct keys, removing every entry whose [error] is set
    leaves the score as it was. *)
Theorem aggregate_ignores_failed_entries (scan_results : dict) :
  NoDup (keys scan_results) ->
  calculate_total_score (filter (fun e => negb (failed e)) scan_results)
  = calculate_total_score scan_results.
Proof.
  intros Hnd. unfold calculate_total_score, total_score_body.
  rewrite (foldM_ext
             (accumulate (filter (fun e => negb (failed e)) scan_results))
             (accumulate scan_results) weights); [reflexivity|].
  intros [ts tw] [k w] _. unfold accumulate.
  rewrite (lookup_filter _ k scan_results Hnd).
  destruct (lookup k scan_results) as [r|]; [|reflexivity].
  unfold failed. cbn [snd].
  destruct r as [| | | | |d]; try reflexivity.
  destruct (lookup "error" d) as [e|] eqn:Ee;
    [destruct (truthy e) eqn:Et|];
    cbn [negb]; unfold get; cbn [bind]; rewrite ?Ee; cbn [bind];
    rewrite ?Et; reflexivity.
Qed.

Lemma aggregate_ignores_failed_entries_witness :
  NoDup (keys Samples.all_failed)
  /\ calculate_total_score
       (filter (fun e => negb (failed e)) Samples.all_failed)
     = calculate_total_score Samples.all_failed.
Proof.
  assert (H : NoDup (keys Samples.all_failed)).
  { repeat (constructor; [simpl; intuition discriminate|]). constructor. }
  split; [exact H|].
  exact (aggregate_ignores_failed_entries Samples.all_failed H).
Defined.

Lemma lookup_iff_In {A : Type} (k : string) (v : A) (d : list (string * A)) :
  NoDup (keys d) -> (lookup k d = Some v <-> In (k, v) d).
Proof.
  intros Hnd. split; [apply lookup_In|].
  induction d as [|[k' v'] d IH]; simpl; [tauto|].
  inversion Hnd as [|? ? Hnotin Hrest]; subst.
  intros [[= -> ->]|Hin].
  - now rewrite String.eqb_refl.
  - destruct (String.eqb k k') eqn:E; [|now apply IH].
    apply String.eqb_eq in E. subst k'. exfalso. apply Hnotin.
    change k with (fst (k, v)). unfold keys. now apply in_map.
Qed.

Lemma lookup_permutation {A : Type} (k : string) (d d' : list (string * A)) :
  NoDup (keys d) -> Permutation d d' -> lookup k d = lookup k d'.
Proof.
  intros Hnd Hp.
  assert (Hnd' : NoDup (keys d')).
  { unfold keys in *. eapply Permutation_NoDup; [|exact Hnd].
    now apply Permutation_map. }
  destruct (lookup k d) as [v|] eqn:E.
  - apply (lookup_iff_In k v d Hnd) in E. symmetry.
    apply (lookup_iff_In k v d' Hnd'). eapply Permutation_in; eauto.
  - destruct (lookup k d') as [v|] eqn:E'; [|reflexivity].
    apply (lookup_iff_In k v d' Hnd') in E'.
    apply Permutation_sym in Hp. apply (Permutation_in _ Hp) in E'.
    apply (lookup_iff_In k v d Hnd) in E'. congruence.
Qed.

(** X2: the aggregate score does not depend on the order of the entries
    of the result mapping, nor on entries under keys other than the five
    scan types. *)
Theorem aggregate_independent_of_order (scan_results scan_results' : dict)
  (k : string) (v : value) :
  NoDup (keys scan_results) ->
  Permutation scan_results scan_results' ->
  ~ In k probe_kinds ->
  calculate_total_score scan_results' = calculate_total_score scan_results
  /\ calculate_total_score ((k, v) :: scan_results)
     = calculate_total_score scan_results.
Proof.
  intros Hnd Hp Hk. split.
  - apply total_score_by_lookup. intros k' _. symmetry.
    now apply lookup_permutation.
  - apply total_score_by_lookup. intros k' Hk'. simpl.
    destruct (String.eqb k' k) eqn:E; [|reflexivity].
    apply String.eqb_eq in E. subst. contradiction.
Qed.

Lemma aggregate_independent_of_order_witness :
  calculate_total_score (rev Samples.ports_ddos_60)
  = calculate_total_score Samples.ports_ddos_60
  /\ calculate_total_score ((("url", VStr "x") :: Samples.ports_ddos_60))
     = calculate_total_score Samples.ports_ddos_60.
Proof.
  apply (aggregate_independent_of_order Samples.ports_ddos_60
           (rev Samples.ports_ddos_60) "url" (VStr "x")).
  - repeat (constructor; [simpl; intuition discriminate|]). constructor.
  - apply Permutation_rev.
  - unfold probe_kinds. simpl. intuition discriminate.
Defined.

Lemma accumulate_success (sr : dict) (k : string) (w ts tw : float) (d : dict)
  (s : Z) :
  lookup k sr = Some (VDict d) ->
  failed (k, VDict d) = false ->
  lookup "score" d = Some (VInt s) ->
  accumulate sr (ts, tw) (k, w)
  = (x <- mul_float (VInt s) w ;; Ok (ts + x, tw + w)%float).
Proof.
  intros Hk Hf Hs. unfold accumulate. rewrite Hk. unfold failed in Hf.
  simpl in *. rewrite Hs.
  destruct (lookup "error" d) as [e|]; [rewrite Hf|]; reflexivity.
Qed.

Lemma accumulate_skipped (sr : dict) (k : string) (w ts tw : float) :
  (lookup k sr = None
   \/ exists d, lookup k sr = Some (VDict d) /\ failed (k, VDict d) = true) ->
  accumulate sr (ts, tw) (k, w) = Ok (ts, tw).
Proof.
  intros [H|[d [H Hf]]]; unfold accumulate; rewrite H; [reflexivity|].
  unfold failed in Hf. simpl in *.
  destruct (lookup "error" d) as [e|]; [now rewrite Hf|discriminate].
Qed.

Lemma in_scores_0_100 (s : Z) : 0 <= s <= 100 -> In s scores_0_100.
Proof.
  intros H. unfold scores_0_100. rewrite <- (Z2Nat.id s) by lia.
  apply in_map. apply in_seq. lia.
Qed.

Lemma float_of_score (s : Z) :
  0 <= s <= 100 -> exists f, float_of_int s = Ok f.
Proof.
  intros Hs. apply in_scores_0_100 in Hs.
  unfold scores_0_100 in Hs. cbn [seq map] in Hs.
  repeat (destruct Hs as [<-|Hs]; [eexists; vm_compute; reflexivity|]).
  contradiction.
Qed.

(** X3: when all five probes succeed with one and the same int score
    between 0 and 100, the aggregate score is that score. *)
Theorem five_equal_scores_aggregate (scan_results : dict) (s : Z) :
  0 <= s <= 100 ->
  (forall k, In k probe_kinds ->
     exists d, lookup k scan_results = Some (VDict d)
               /\ failed (k, VDict d) = false
               /\ lookup "score" d = Some (VInt s)) ->
  calculate_total_score scan_results = s.
Proof.
  intros Hs Hall. unfold calculate_total_score, total_score_body, weights.
  cbn [foldM].
  destruct (Hall "ssl") as [d1 [L1 [F1 S1]]]; [simpl; tauto|].
  destruct (Hall "ports") as [d2 [L2 [F2 S2]]]; [simpl; tauto|].
  destruct (Hall "headers") as [d3 [L3 [F3 S3]]]; [simpl; tauto|].
  destruct (Hall "cms") as [d4 [L4 [F4 S4]]]; [simpl; tauto|].
  destruct (Hall "ddos") as [d5 [L5 [F5 S5]]]; [simpl; tauto|].
  rewrite (accumulate_success _ _ _ _ _ d1 s L1 F1 S1).
  unfold mul_float, as_int. cbn [bind].
  destruct (float_of_int s) as [f|e] eqn:Ef;
    [|apply in_scores_0_100 in Hs; revert Ef; clear - Hs;
      unfold scores_0_100 in Hs; cbn [seq map] in Hs;
      repeat (destruct Hs as [<-|Hs]; [vm_compute; discriminate|]);
      contradiction].
  cbn [bind].
  rewrite (accumulate_success _ _ _ _ _ d2 s L2 F2 S2).
  unfold mul_float, as_int. cbn [bind]. rewrite Ef. cbn [bind].
  rewrite (accumulate_success _ _ _ _ _ d3 s L3 F3 S3).
  unfold mul_float, as_int. cbn [bind]. rewrite Ef. cbn [bind].
  rewrite (accumulate_success _ _ _ _ _ d4 s L4 F4 S4).
  unfold mul_float, as_int. cbn [bind]. rewrite Ef. cbn [bind].
  rewrite (accumulate_success _ _ _ _ _ d5 s L5 F5 S5).
  unfold mul_float, as_int. cbn [bind]. rewrite Ef. cbn [bind].
  assert (Hf : float_of_int s = Ok f) by exact Ef.
  clear - Hs Hf. apply in_scores_0_100 in Hs. revert f Hf.
  unfold scores_0_100 in Hs. cbn [seq map] in Hs.
  repeat (destruct Hs as [<-|Hs];
          [intros f Hf; vm_compute in Hf; injection Hf as <-;
           vm_compute; reflexivity|]).
  contradiction.
Qed.

Ltac skip_probe sr k H :=
  rewrite (accumulate_skipped sr k _ _ _ (H k ltac:(simpl; tauto)
                                              ltac:(discriminate)));
  cbn [bind].

Ltac count_probe L F S Ef :=
  rewrite (accumulate_success _ _ _ _ _ _ _ L F S);
  unfold mul_float, as_int; cbn [bind]; rewrite Ef; cbn [bind].

(** X4: when the SSL probe, or the header probe, is the only one that
    succeeded, with an int score between 0 and 100, the aggregate score is
    that score. *)
Theorem lone_quarter_weight_probe_aggregate (scan_results : dict) (k : string)
  (d : dict) (s : Z) :
  k = "ssl" \/ k = "headers" ->
  0 <= s <= 100 ->
  lookup k scan_results = Some (VDict d) ->
  failed (k, VDict d) = false ->
  lookup "score" d = Some (VInt s) ->
  (forall k', In k' probe_kinds -> k' <> k ->
     lookup k' scan_results = None
     \/ exists d', lookup k' scan_results = Some (VDict d')
                   /\ failed (k', VDict d') = true) ->
  calculate_total_score scan_results = s.
Proof.
  intros Hk Hs L F S Hothers.
  unfold calculate_total_score, total_score_body, weights. cbn [foldM].
  destruct (float_of_score s Hs) as [f Ef].
  destruct Hk as [-> | ->].
  - count_probe L F S Ef.
    skip_probe scan_results "ports" Hothers.
    skip_probe scan_results "headers" Hothers.
    skip_probe scan_results "cms" Hothers.
    skip_probe scan_results "ddos" Hothers.
    clear - Hs Ef. apply in_scores_0_100 in Hs. revert f Ef.
    unfold scores_0_100 in Hs. cbn [seq map] in Hs.
    repeat (destruct Hs as [<-|Hs];
            [intros f Hf; vm_compute in Hf; injection Hf as <-;
             vm_compute; reflexivity|]).
    contradiction.
  - skip_probe scan_results "ssl" Hothers.
    skip_probe scan_results "ports" Hothers.
    count_probe L F S Ef.
    skip_probe scan_results "cms" Hothers.
    skip_probe scan_results "ddos" Hothers.
    clear - Hs Ef. apply in_scores_0_100 in Hs. revert f Ef.
    unfold scores_0_100 in Hs. cbn [seq map] in Hs.
    repeat (destruct Hs as [<-|Hs];
            [intros f Hf; vm_compute in Hf; injection Hf as <-;
             vm_compute; reflexivity|]).
    contradiction.
Qed.

Lemma lone_quarter_weight_probe_aggregate_witness :
  calculate_total_score
    [("headers", VDict [("score", VInt 81); ("status", VStr "good")]);
     ("ports", VDict [("error", VStr "timed out")])] = 81.
Proof.
  apply (lone_quarter_weight_probe_aggregate _ "headers"
           [("score", VInt 81); ("status", VStr "good")] 81).
  - now right.
  - lia.
  - reflexivity.
  - reflexivity.
  - reflexivity.
  - intros k' Hin Hne. simpl in Hin.
    destruct Hin as [<-|[<-|[<-|[<-|[<-|[]]]]]];
      try (left; reflexivity); try congruence.
    right. eexists. split; reflexivity.
Defined.

Lemma five_equal_scores_aggregate_witness :
  calculate_total_score
    [("ssl", VDict [("score", VInt 86)]); ("ports", VDict [("score", VInt 86)]);
     ("headers", VDict [("score", VInt 86)]); ("cms", VDict [("score", VInt 86)]);
     ("ddos", VDict [("score", VInt 86)])] = 86.
Proof.
  apply five_equal_scores_aggregate; [lia|].
  intros k Hin. simpl in Hin.
  destruct Hin as [<-|[<-|[<-|[<-|[<-|[]]]]]];
    eexists; (split; [reflexivity|split; reflexivity]).
Defined.

(* ================================================================= *)
(** ** Further results on the summary *)

Lemma sorted_levels :
  sorted_desc security_levels = security_levels.
Proof. reflexivity. Qed.

(** X5: the summary names the level by the thresholds 90, 80 and 60, a
    score below 60, negative ones included, being [critical], and a
    certificate is due exactly for the levels [excellent] and [good]. *)
Theorem summary_level_thresholds (scan_results : dict) (score : Z)
  (summary : Summary) :
  get_security_summary scan_results score = Ok summary ->
  security_level summary
  = (if 90 <=? score then "excellent"
     else if 80 <=? score then "good"
     else if 60 <=? score then "warning"
     else "critical")
  /\ (certificate_eligible summary = true
      <-> security_level summary = "excellent"
          \/ security_level summary = "good")
  /\ (certificate_eligible summary = true <-> 80 <= score)
  /\ total_score summary = score
  /\ failed_checks (statistics summary)
     = total_checks (statistics summary) - passed_checks (statistics summary).
Proof.
  unfold get_security_summary. rewrite sorted_levels.
  destruct (foldM count_checks scan_results (0, 0, 0)) as [[[t p] f]|e];
    [|discriminate].
  cbn [bind]. unfold security_levels. cbn [first_level].
  assert (Hyes : 80 <= score -> (80 <=? score) = true)
    by (intros; now apply Z.leb_le).
  assert (Hno : score < 80 -> (80 <=? score) = false)
    by (intros; now apply Z.leb_gt).
  destruct (90 <=? score) eqn:E90;
    [apply Z.leb_le in E90
    |apply Z.leb_gt in E90; destruct (80 <=? score) eqn:E80;
     [apply Z.leb_le in E80
     |apply Z.leb_gt in E80; destruct (60 <=? score) eqn:E60;
      [|destruct (0 <=? score)]]];
    cbn; intros [= <-]; cbn;
    rewrite ?Hyes, ?Hno by lia;
    (split; [reflexivity|]);
    (split; [split; [intros H; try discriminate H; auto
                    |intros [H|H]; try discriminate H; reflexivity]|]);
    (split; [split; [intros H; try discriminate H; lia
                    |intros H; try reflexivity; lia]|]);
    split; reflexivity.
Qed.

Lemma summary_level_thresholds_witness :
  get_security_summary Samples.ports_ddos_60 59
  = Ok (mkSummary "critical" "Критические проблемы" 59
          (mkStatistics 0 0 0 0) false)
  /\ (certificate_eligible
        (mkSummary "critical" "Критические проблемы" 59
           (mkStatistics 0 0 0 0) false) = true
      <-> 80 <= 59).
Proof.
  split; [reflexivity|].
  apply (summary_level_thresholds Samples.ports_ddos_60 59). reflexivity.
Defined.

Lemma count_checks_uncounted (acc : Z * Z * Z) (entry : string * value) :
  counted entry = false -> count_checks acc entry = Ok acc.
Proof.
  destruct acc as [[t p] f]. destruct entry as [k r]. unfold counted, count_checks.
  cbn [snd]. destruct r as [| | | | |d]; try reflexivity.
  cbn [is_dict get bind].
  destruct (lookup "error" d) as [e|]; [|discriminate].
  destruct (truthy e); [reflexivity|discriminate].
Qed.

(** X6: the statistics of the summary count only the dict entries whose
    [error] is not set: removing every other entry, Failure entries and
    entries that are no dict, leaves the summary as it was, also when it
    raises. *)
Theorem summary_counts_successes_only (scan_results : dict) (score : Z) :
  get_security_summary (filter counted scan_results) score
  = get_security_summary scan_results score.
Proof.
  unfold get_security_summary. f_equal.
  generalize (0, 0, 0). induction scan_results as [|entry rest IH]; intros acc.
  - reflexivity.
  - cbn [filter]. destruct (counted entry) eqn:E.
    + cbn [foldM]. destruct (count_checks acc entry); [apply IH|reflexivity].
    + cbn [foldM]. rewrite (count_checks_uncounted acc entry E). apply IH.
Qed.

(* ================================================================= *)
(** ** Further results on the recommendations *)

Lemma ensures_weaken {A : Type} (P Q : A -> Prop) (m : result A) :
  (forall a, P a -> Q a) -> ensures P m -> ensures Q m.
Proof. destruct m; simpl; auto. Qed.

Lemma mapM_Forall {A B : Type} (P : B -> Prop) (f : A -> result B) (l : list A) :
  (forall a, ensures P (f a)) ->
  ensures (fun bs => Forall P bs /\ List.length bs = List.length l) (mapM f l).
Proof.
  intros H. induction l as [|a l IH]; simpl; [split; constructor|].
  pose proof (H a) as Ha. destruct (f a) as [b|e]; simpl in *; [|exact I].
  destruct (mapM f l) as [bs|e]; simpl in *; [|exact I].
  destruct IH as [IH1 IH2]. split; [now constructor|now rewrite IH2].
Qed.

Lemma slice_items_length (n : nat) (v : value) :
  ensures (fun items => (List.length items <= n)%nat) (slice_items n v).
Proof.
  destruct v; simpl; trivial.
  - rewrite length_map. apply firstn_le_length.
  - apply firstn_le_length.
Qed.

Section RecommendationBounds.

Variable container_repr : value -> string.

Ltac bound_lengths :=
  repeat first
    [ apply ensures_bind_any; intros
    | match goal with
      | |- ensures _ (if ?b then _ else _) => destruct b
      | |- ensures _ (Ok _) =>
          cbn [ensures];
          repeat match goal with
            | |- context [if ?b then _ else _] => destruct b
            end;
          cbn [List.length app]; lia
      end ].

Lemma ssl_recommendations_length (r : value) :
  ensures (fun recs => (List.length recs <= 2)%nat)
    (_get_ssl_recommendations r).
Proof. unfold _get_ssl_recommendations. bound_lengths. Qed.

Lemma port_recommendations_length (r : value) :
  ensures (fun recs => (List.length recs <= 4)%nat)
    (_get_port_recommendations container_repr r).
Proof.
  unfold _get_port_recommendations.
  apply ensures_bind_any; intros err. destruct (truthy err); [simpl; lia|].
  apply ensures_bind_any; intros dangerous.
  eapply ensures_bind; [apply slice_items_length|]. intros first3 H3.
  eapply ensures_bind;
    [apply (mapM_Forall (fun _ => True)
              (port_recommendation container_repr) first3);
     intros a; destruct (port_recommendation container_repr a); exact I|].
  intros recs [_ Hlen]. apply ensures_bind_any; intros n.
  cbn [ensures]. cbv beta in *. rewrite length_app, Hlen.
  destruct (3 <? n); cbn [List.length]; lia.
Qed.

Lemma header_recommendation_length (missing : value) (header : string) :
  ensures (fun recs => (List.length recs <= 1)%nat)
    (header_recommendation container_repr missing header).
Proof. unfold header_recommendation. bound_lengths. Qed.

Lemma concat_short (ls : list (list string)) :
  Forall (fun l => (List.length l <= 1)%nat) ls ->
  (List.length (List.concat ls) <= List.length ls)%nat.
Proof.
  induction 1 as [|l ls Hl _ IH]; simpl; [lia|]. rewrite length_app. lia.
Qed.

Lemma header_recommendations_length (r : value) :
  ensures (fun recs => (List.length recs <= 4)%nat)
    (_get_header_recommendations container_repr r).
Proof.
  unfold _get_header_recommendations.
  apply ensures_bind_any; intros err. destruct (truthy err); [simpl; lia|].
  do 2 (apply ensures_bind_any; intros ?).
  eapply ensures_bind;
    [apply (mapM_Forall (fun l => (List.length l <= 1)%nat));
     intros h; apply header_recommendation_length|].
  intros recs [Hall Hlen]. do 2 (apply ensures_bind_any; intros ?).
  cbn [ensures]. cbv beta in *. rewrite length_app. apply concat_short in Hall.
  unfold priority_headers in Hlen. cbn [List.length] in Hlen.
  destruct (truthy _); cbn [List.length]; lia.
Qed.

Lemma cms_recommendations_length (r : value) :
  ensures (fun recs => (List.length recs <= 4)%nat)
    (_get_cms_recommendations container_repr r).
Proof.
  unfold _get_cms_recommendations.
  apply ensures_bind_any; intros err. destruct (truthy err); [simpl; lia|].
  do 3 (apply ensures_bind_any; intros ?).
  destruct (truthy _); [|simpl; lia].
  do 2 (apply ensures_bind_any; intros ?).
  apply ensures_bind with (Q := fun recs => (List.length recs <= 2)%nat).
  { destruct (truthy _); [|simpl; lia].
    apply ensures_bind_any; intros risk. cbn [ensures].
    destruct (eq_str risk "critical"); cbn [List.length]; lia. }
  intros vuln_recs Hv. do 4 (apply ensures_bind_any; intros ?).
  cbn [ensures]. cbv beta in *. rewrite !length_app.
  repeat match goal with |- context [if ?b then _ else _] => destruct b end;
    cbn [List.length]; lia.
Qed.

Lemma ddos_recommendations_length (r : value) :
  ensures (fun recs => (List.length recs <= 3)%nat)
    (_get_ddos_recommendations r).
Proof.
  unfold _get_ddos_recommendations.
  apply ensures_bind_any; intros err. destruct (truthy err); [simpl; lia|].
  do 6 (apply ensures_bind_any; intros ?).
  cbn [ensures]. rewrite !length_app.
  repeat match goal with |- context [if ?b then _ else _] => destruct b end;
    cbn [List.length]; lia.
Qed.

Lemma general_recommendations_length (scan_results : dict) :
  ensures (fun recs => (List.length recs <= 5)%nat)
    (_get_general_recommendations scan_results).
Proof.
  unfold _get_general_recommendations.
  apply ensures_bind_any; intros [total critical_count].
  cbn [ensures]. rewrite !length_app. unfold always_applicable.
  repeat match goal with |- context [if ?b then _ else _] => destruct b end;
    cbn [List.length]; lia.
Qed.

Lemma extend_for_length (scan_results : dict) (key : string)
  (f : value -> result (list string)) (n : nat) (recs : list string) :
  (forall r, ensures (fun l => (List.length l <= n)%nat) (f r)) ->
  ensures (fun l => (List.length l <= List.length recs + n)%nat)
    (extend_for scan_results key f recs).
Proof.
  intros H. unfold extend_for. destruct (lookup key scan_results) as [r|].
  - eapply ensures_bind; [apply H|]. intros l Hl. cbn [ensures].
    cbv beta in *. rewrite length_app. lia.
  - cbn [ensures]. lia.
Qed.

Lemma uniq_first_length (l : list string) :
  (List.length (uniq_first l) <= List.length l)%nat.
Proof.
  induction l as [|x l IH]; simpl; [lia|].
  pose proof (filter_length_le (fun y => negb (String.eqb x y)) (uniq_first l)).
  lia.
Qed.

(** X7: a pass of the recommendation generator produces at most 22
    recommendations (2 for SSL, 4 for ports, 4 for headers, 4 for the CMS,
    3 for DDoS, 5 general), so the cut to 15 drops at most 7 of them. *)
Theorem at_most_22_recommendations (scan_results : dict)
  (translations : list (string * string)) :
  ensures
    (fun produced =>
       (List.length produced <= 22)%nat
       /\ (List.length (dict_fromkeys produced)
           <= List.length
                (generate_recommendations container_repr scan_results
                   translations) + 7)%nat)
    (collect_recommendations container_repr scan_results).
Proof.
  assert (H : ensures (fun produced => (List.length produced <= 22)%nat)
                (collect_recommendations container_repr scan_results)).
  { unfold collect_recommendations.
    eapply ensures_bind;
      [apply (extend_for_length scan_results "ssl" _ 2 []),
         ssl_recommendations_length|].
    intros r1 H1.
    eapply ensures_bind;
      [apply (extend_for_length scan_results "ports" _ 4 r1),
         port_recommendations_length|].
    intros r2 H2.
    eapply ensures_bind;
      [apply (extend_for_length scan_results "headers" _ 4 r2),
         header_recommendations_length|].
    intros r3 H3.
    eapply ensures_bind;
      [apply (extend_for_length scan_results "cms" _ 4 r3),
         cms_recommendations_length|].
    intros r4 H4.
    eapply ensures_bind;
      [apply (extend_for_length scan_results "ddos" _ 3 r4),
         ddos_recommendations_length|].
    intros r5 H5.
    eapply ensures_bind; [apply general_recommendations_length|].
    intros general Hg. cbn [ensures List.length] in *. cbv beta in *.
    rewrite length_app. lia. }
  unfold generate_recommendations.
  destruct (collect_recommendations container_repr scan_results) as [produced|e];
    cbn [ensures] in *; [|exact I].
  split; [exact H|]. rewrite length_firstn, dict_fromkeys_first_seen.
  pose proof (uniq_first_length produced). lia.
Qed.

End RecommendationBounds.

Section FailureRecommendations.

Variable container_repr : value -> string.

Lemma count_issues_written_failures (scan_results : dict) (acc : Z * Z) :
  (forall k r, In (k, r) scan_results -> written_failure r) ->
  foldM count_issues scan_results acc = Ok acc.
Proof.
  revert acc. induction scan_results as [|[k r] rest IH]; intros [t c] Hall.
  - reflexivity.
  - assert (Hr : written_failure r) by (apply (Hall k); now left).
    assert (Hrest : forall k' r', In (k', r') rest -> written_failure r')
      by (intros k' r' Hin; apply (Hall k'); now right).
    cbn [foldM].
    destruct Hr as [message Hm|message Hm]; cbn; rewrite Z.add_0_r;
      now apply IH.
Qed.

Lemma specific_recommendations_of_failure (r : value) :
  written_failure r ->
  _get_ssl_recommendations r = Ok ["Исправьте проблемы с SSL конфигурацией"]
  /\ _get_port_recommendations container_repr r = Ok []
  /\ _get_header_recommendations container_repr r = Ok []
  /\ _get_cms_recommendations container_repr r = Ok []
  /\ _get_ddos_recommendations r = Ok [].
Proof.
  intros [message Hm|message Hm];
    unfold _get_ssl_recommendations, _get_port_recommendations,
      _get_header_recommendations, _get_cms_recommendations,
      _get_ddos_recommendations;
    cbn; rewrite Hm; cbn; repeat split; reflexivity.
Qed.

(** X8: when every entry of the result mapping is a Failure dict as the
    endpoint and the scanners write them, the returned recommendations
    are the advice to fix the SSL configuration, if an SSL entry is
    there, followed by the two always-applicable ones; a failed port,
    header, CMS or DDoS probe adds nothing. *)
Theorem recommendations_when_all_failed (scan_results : dict)
  (translations : list (string * string)) :
  (forall k r, In (k, r) scan_results -> written_failure r) ->
  generate_recommendations container_repr scan_results translations
  = (if has_key "ssl" scan_results
     then ["Исправьте проблемы с SSL конфигурацией"] else [])
    ++ always_applicable.
Proof.
  intros Hall.
  assert (Hk : forall k, match lookup k scan_results with
                         | Some r => written_failure r
                         | None => True
                         end).
  { intros k. destruct (lookup k scan_results) as [r|] eqn:E; [|exact I].
    apply lookup_In in E. now apply (Hall k). }
  unfold generate_recommendations, collect_recommendations, extend_for,
    _get_general_recommendations, has_key.
  rewrite (count_issues_written_failures scan_results (0, 0) Hall).
  pose proof (Hk "ssl") as H1. pose proof (Hk "ports") as H2.
  pose proof (Hk "headers") as H3. pose proof (Hk "cms") as H4.
  pose proof (Hk "ddos") as H5.
  destruct (lookup "ssl" scan_results) as [r1|];
    [destruct (specific_recommendations_of_failure r1 H1) as [-> _]|];
  (destruct (lookup "ports" scan_results) as [r2|];
    [destruct (specific_recommendations_of_failure r2 H2) as [_ [-> _]]|]);
  (destruct (lookup "headers" scan_results) as [r3|];
    [destruct (specific_recommendations_of_failure r3 H3) as [_ [_ [-> _]]]|]);
  (destruct (lookup "cms" scan_results) as [r4|];
    [destruct (specific_recommendations_of_failure r4 H4)
       as [_ [_ [_ [-> _]]]]|]);
  (destruct (lookup "ddos" scan_results) as [r5|];
    [destruct (specific_recommendations_of_failure r5 H5)
       as [_ [_ [_ [_ ->]]]]|]);
  reflexivity.
Qed.




End FailureRecommendations.

Lemma recommendations_when_all_failed_witness :
  generate_recommendations Samples.no_repr Samples.all_failed []
  = ["Исправьте проблемы с SSL конфигурацией";
     "Регулярно обновляйте программное обеспечение";
     "Используйте сильные пароли и двухфакторную аутентификацию"].
Proof.
  apply (recommendations_when_all_failed Samples.no_repr Samples.all_failed []).
  intros k r Hin. unfold Samples.all_failed in Hin. simpl in Hin.
  repeat (destruct Hin as [[= <- <-]|Hin];
          [first [apply written_bare; reflexivity
                 |apply written_by_handler; reflexivity]|]).
  contradiction.
Defined.


(* ================================================================= *)
(** ** Results on the security analyzer *)

Lemma Forall_snoc {A : Type} (P : A -> Prop) (l : list A) (x : A) :
  Forall P l -> P x -> Forall P (l ++ [x]).
Proof. intros Hl Hx. apply Forall_app. split; [exact Hl|now constructor]. Qed.

Lemma file_issues_categorized (scan_type : string) (status : value)
  (items : list value) (acc : Analyzer.Categories) (n : nat) :
  categorized acc n ->
  categorized (fold_left (Analyzer.file_issue scan_type status) items acc)
    (n + List.length items).
Proof.
  revert acc n. induction items as [|issue items IH]; intros acc n H.
  - simpl. now rewrite Nat.add_0_r.
  - cbn [fold_left List.length]. rewrite Nat.add_succ_r, <- Nat.add_succ_l.
    apply IH. destruct H as [Hh [Hn [Hc [Hm Hl]]]].
    unfold Analyzer.file_issue, categorized.
    destruct (eq_str status "critical") eqn:Ec;
      [|destruct (eq_str status "warning") eqn:Ew];
      cbn [Analyzer.critical Analyzer.high Analyzer.medium Analyzer.low];
      rewrite ?length_app; cbn [List.length].
    + split; [exact Hh|]. split; [lia|].
      split; [apply Forall_snoc; [exact Hc|exact Ec]|]. now split.
    + split; [exact Hh|]. split; [lia|]. split; [exact Hc|].
      split; [apply Forall_snoc; [exact Hm|exact Ew]|exact Hl].
    + split; [exact Hh|]. split; [lia|]. split; [exact Hc|].
      split; [exact Hm|]. apply Forall_snoc; [exact Hl|]. now split.
Qed.

Lemma list_sum_cons (a : nat) (l : list nat) :
  list_sum (a :: l) = (a + list_sum l)%nat.
Proof. reflexivity. Qed.

Lemma categorize_loop (scan_results : dict) (acc : Analyzer.Categories)
  (n : nat) :
  categorized acc n ->
  ensures
    (fun cats =>
       categorized cats (n + list_sum (map issue_count scan_results)))
    (foldM Analyzer.categorize_entry scan_results acc).
Proof.
  revert acc n. induction scan_results as [|[k r] rest IH]; intros acc n H.
  - simpl. now rewrite Nat.add_0_r.
  - cbn [foldM map]. rewrite list_sum_cons.
    unfold Analyzer.categorize_entry at 1.
    unfold issue_count at 1. cbn [snd].
    destruct r as [| | | | |d]; cbn [is_dict bind];
      try (rewrite Nat.add_0_l; now apply IH).
    cbn [get bind].
    destruct (iter_items match lookup "issues" d with
                         | Some x => x
                         | None => VList []
                         end) as [items|e]; cbn [bind]; [|exact I].
    rewrite Nat.add_assoc. apply IH. now apply file_issues_categorized.
Qed.

Lemma critical_is_no_warning (status : value) :
  eq_str status "critical" = true -> eq_str status "warning" = false.
Proof.
  destruct status as [| | |t| |]; try discriminate. cbn [eq_str].
  intros H. apply String.eqb_eq in H. now subst.
Qed.

(** The loop over the issues of one entry files each of them, in order,
    in the list of the status of the entry. *)
Lemma file_issues_exact (scan_type : string) (status : value)
  (items : list value) (acc : Analyzer.Categories) :
  let filed := map (fun issue => Analyzer.mkVulnInfo scan_type issue status)
                 items in
  fold_left (Analyzer.file_issue scan_type status) items acc
  = Analyzer.mkCategories
      (Analyzer.critical acc ++ filter is_critical filed)
      (Analyzer.high acc)
      (Analyzer.medium acc ++ filter is_warning filed)
      (Analyzer.low acc ++ filter is_other filed).
Proof.
  cbn zeta. revert acc. induction items as [|issue items IH]; intros acc.
  - cbn [map filter fold_left]. rewrite !app_nil_r. now destruct acc.
  - cbn [map filter fold_left]. rewrite IH.
    unfold Analyzer.file_issue, is_other, is_critical, is_warning.
    cbn [Analyzer.severity].
    destruct (eq_str status "critical") eqn:Ec.
    + rewrite (critical_is_no_warning status Ec).
      cbn [negb andb Analyzer.critical Analyzer.high Analyzer.medium
             Analyzer.low].
      now rewrite <- app_assoc.
    + destruct (eq_str status "warning") eqn:Ew;
        cbn [negb andb Analyzer.critical Analyzer.high Analyzer.medium
               Analyzer.low];
        now rewrite <- app_assoc.
Qed.

Lemma categorize_exact (scan_results : dict) (acc : Analyzer.Categories) :
  ensures
    (fun cats =>
       cats
       = Analyzer.mkCategories
           (Analyzer.critical acc
              ++ filter is_critical (flat_map reported_issues scan_results))
           (Analyzer.high acc)
           (Analyzer.medium acc
              ++ filter is_warning (flat_map reported_issues scan_results))
           (Analyzer.low acc
              ++ filter is_other (flat_map reported_issues scan_results)))
    (foldM Analyzer.categorize_entry scan_results acc).
Proof.
  revert acc. induction scan_results as [|[k r] rest IH]; intros acc.
  - cbn [foldM flat_map filter ensures]. rewrite !app_nil_r. now destruct acc.
  - cbn [foldM flat_map]. unfold Analyzer.categorize_entry at 1.
    remember (flat_map reported_issues rest) as others eqn:Ho.
    unfold reported_issues. cbn [fst snd].
    destruct r as [| | | | |d]; cbn [is_dict bind app];
      try (subst others; apply IH).
    cbn [get bind].
    destruct (iter_items match lookup "issues" d with
                         | Some x => x
                         | None => VList []
                         end) as [items|e]; cbn [bind]; [|exact I].
    rewrite file_issues_exact.
    eapply ensures_weaken; [|apply IH].
    intros cats ->. subst others.
    cbn [Analyzer.critical Analyzer.high Analyzer.medium Analyzer.low].
    rewrite !filter_app, <- !app_assoc. reflexivity.
Qed.

Lemma ensures_and {A : Type} (P Q : A -> Prop) (m : result A) :
  ensures P m -> ensures Q m -> ensures (fun a => P a /\ Q a) m.
Proof. destruct m; simpl; auto. Qed.

(** X10: when the categorisation of issues returns, nothing is filed
    under [high], and the three other lists hold, in the order of the
    result mapping, the issues of the dict entries, each once, with the
    scan type and the status of its own entry: under [critical] those of
    the entries whose status is [critical], under [medium] those whose
    status is [warning], and under [low] all the others. *)
Theorem issues_categorized_by_status (scan_results : dict) :
  ensures
    (fun cats =>
       (Analyzer.high cats = []
        /\ Analyzer.critical cats
           = filter is_critical (flat_map reported_issues scan_results)
        /\ Analyzer.medium cats
           = filter is_warning (flat_map reported_issues scan_results)
        /\ Analyzer.low cats
           = filter is_other (flat_map reported_issues scan_results))
       /\ Analyzer.high cats = []
       /\ (List.length (Analyzer.critical cats)
           + List.length (Analyzer.medium cats)
           + List.length (Analyzer.low cats)
           = list_sum (map issue_count scan_results))%nat
       /\ Forall (fun v => eq_str (Analyzer.severity v) "critical" = true)
            (Analyzer.critical cats)
       /\ Forall (fun v => eq_str (Analyzer.severity v) "warning" = true)
            (Analyzer.medium cats)
       /\ Forall (fun v => eq_str (Analyzer.severity v) "critical" = false
                           /\ eq_str (Analyzer.severity v) "warning" = false)
            (Analyzer.low cats))
    (Analyzer.categorize_vulnerabilities scan_results).
Proof.
  unfold Analyzer.categorize_vulnerabilities. apply ensures_and.
  - eapply ensures_weaken;
      [|apply (categorize_exact scan_results (Analyzer.mkCategories [] [] [] []))].
    intros cats ->. cbn. auto.
  - eapply ensures_weaken;
      [|apply (categorize_loop scan_results (Analyzer.mkCategories [] [] [] []) 0)].
    + intros cats H. exact H.
    + unfold categorized. cbn. repeat split; constructor.
Qed.

Lemma clamped_risk_bounded (x : float) :
  bounded_risk (Analyzer.min_100 (Analyzer.max_0 x)).
Proof.
  unfold Analyzer.max_0, Analyzer.min_100.
  destruct (0 <? x)%float eqn:E0.
  - destruct (x <? 100)%float eqn:E1; simpl; auto.
  - simpl. now left.
Qed.

(** X11: when the risk calculation returns, each of the three risks is
    the int 0, the int 100, or a float strictly between 0 and 100,
    whatever the scores in the result mapping. *)
Theorem risks_bounded (scan_results : dict) :
  ensures
    (fun risks =>
       bounded_risk (Analyzer.confidentiality risks)
       /\ bounded_risk (Analyzer.integrity risks)
       /\ bounded_risk (Analyzer.availability risks))
    (Analyzer.calculate_risk_score scan_results).
Proof.
  unfold Analyzer.calculate_risk_score.
  do 3 (apply ensures_bind_any; intros ?). cbn [ensures].
  cbn [Analyzer.confidentiality Analyzer.integrity Analyzer.availability].
  repeat split; apply clamped_risk_bounded.
Qed.

Lemma risk_of_cases (scan_results : dict) (key : string) (factor cap : float) :
  risk_check factor cap = true ->
  score_in_range scan_results key ->
  exists x, Analyzer.risk_of scan_results key factor = Ok x
            /\ risk_at_most cap (Analyzer.min_100 (Analyzer.max_0 x)) = true
            /\ (no_score scan_results key ->
                Analyzer.min_100 (Analyzer.max_0 x) = Analyzer.NInt 0).
Proof.
  unfold risk_check. intros Hcheck Hr. apply andb_prop in Hcheck.
  destruct Hcheck as [Hcap Hzero]. rewrite forallb_forall in Hcap.
  assert (Hz : Analyzer.min_100 (Analyzer.max_0 (0 + 0 * factor))
               = Analyzer.NInt 0).
  { destruct (Analyzer.min_100 (Analyzer.max_0 (0 + 0 * factor)))
      as [[|p|p]|f]; try discriminate. reflexivity. }
  assert (Hcap0 : risk_at_most cap
                    (Analyzer.min_100 (Analyzer.max_0 (0 + 0 * factor))) = true).
  { exact (Hcap 100 (in_scores_0_100 100 ltac:(lia))). }
  unfold score_in_range, no_score in *. unfold Analyzer.risk_of.
  destruct (lookup key scan_results) as [r|].
  - destruct r as [| | | | |d]; try contradiction. cbn [get bind].
    destruct (lookup "score" d) as [v|] eqn:Es.
    + destruct v as [| |s| | |]; try contradiction. cbn [as_int bind].
      specialize (Hcap s (in_scores_0_100 s Hr)).
      destruct (float_of_int (100 - s)) as [f|e]; [|discriminate].
      cbn [bind]. eexists. split; [reflexivity|].
      split; [exact Hcap|discriminate].
    + cbn [as_int bind]. change (float_of_int (100 - 100)) with (@Ok float 0%float).
      cbn [bind]. eexists. split; [reflexivity|]. split; [exact Hcap0|].
      intros _. exact Hz.
  - exists 0%float. split; [reflexivity|].
    assert (E : Analyzer.min_100 (Analyzer.max_0 0) = Analyzer.NInt 0)
      by reflexivity.
    rewrite E. split; [|reflexivity].
    clear - Hcap0 Hz. rewrite Hz in Hcap0. exact Hcap0.
Qed.

(** X12: when the SSL, CMS and DDoS entries are missing or carry an int
    score from 0 to 100, the risk calculation returns, the
    confidentiality risk is at most 40, the integrity risk at most 30 and
    the availability risk at most 50; a risk whose entry is missing, or is
    a dict without score such as a bare Failure entry, is the int 0. *)
Theorem risks_capped (scan_results : dict) :
  score_in_range scan_results "ssl" ->
  score_in_range scan_results "cms" ->
  score_in_range scan_results "ddos" ->
  exists risks,
    Analyzer.calculate_risk_score scan_results = Ok risks
    /\ risk_at_most 40 (Analyzer.confidentiality risks) = true
    /\ risk_at_most 30 (Analyzer.integrity risks) = true
    /\ risk_at_most 50 (Analyzer.availability risks) = true
    /\ (no_score scan_results "ssl" ->
        Analyzer.confidentiality risks = Analyzer.NInt 0)
    /\ (no_score scan_results "cms" ->
        Analyzer.integrity risks = Analyzer.NInt 0)
    /\ (no_score scan_results "ddos" ->
        Analyzer.availability risks = Analyzer.NInt 0).
Proof.
  intros H1 H2 H3. unfold Analyzer.calculate_risk_score.
  destruct (risk_of_cases scan_results "ssl" 0.4 40 ltac:(vm_compute; reflexivity) H1)
    as [c [Ec [Cc Zc]]].
  destruct (risk_of_cases scan_results "cms" 0.3 30 ltac:(vm_compute; reflexivity) H2)
    as [i [Ei [Ci Zi]]].
  destruct (risk_of_cases scan_results "ddos" 0.5 50 ltac:(vm_compute; reflexivity) H3)
    as [a [Ea [Ca Za]]].
  rewrite Ec, Ei, Ea. cbn [bind]. eexists. split; [reflexivity|].
  cbn [Analyzer.confidentiality Analyzer.integrity Analyzer.availability].
  repeat split; assumption.
Qed.

Lemma risks_capped_witness :
  exists risks,
    Analyzer.calculate_risk_score
      [("ssl", VDict [("error", VStr "timed out")]);
       ("cms", VDict [("error", VStr "timed out"); ("score", VInt 0);
                      ("status", VStr "error")])] = Ok risks
    /\ Analyzer.confidentiality risks = Analyzer.NInt 0
    /\ risk_at_most 30 (Analyzer.integrity risks) = true.
Proof.
  destruct (risks_capped
              [("ssl", VDict [("error", VStr "timed out")]);
               ("cms", VDict [("error", VStr "timed out"); ("score", VInt 0);
                              ("status", VStr "error")])])
    as [risks [E [_ [Hi [_ [Hz _]]]]]].
  - exact I.
  - unfold score_in_range. cbn. lia.
  - exact I.
  - exists risks. split; [exact E|]. split; [apply Hz; reflexivity|exact Hi].
Defined.

(* ================================================================= *)
(** ** Further results on the scan endpoint *)

Lemma in_list_iff (k : string) (l : list string) :
  Main.in_list k l = true <-> In k l.
Proof.
  unfold Main.in_list. rewrite existsb_exists. split.
  - intros [x [Hx E]]. apply String.eqb_eq in E. now subst.
  - intros Hk. exists k. split; [exact Hk|apply String.eqb_refl].
Qed.

Lemma in_list_same (k : string) (l l' : list string) :
  (forall x, In x l <-> In x l') -> Main.in_list k l = Main.in_list k l'.
Proof.
  intros H. destruct (Main.in_list k l') eqn:E.
  - apply in_list_iff. apply H. now apply in_list_iff.
  - destruct (Main.in_list k l) eqn:E'; [|reflexivity].
    apply in_list_iff in E'. apply H in E'. apply in_list_iff in E'. congruence.
Qed.

(** X13: the reply of the scan endpoint depends on the requested scan
    types as a set only: their order and their repetitions change
    neither the scanners awaited, nor the order of awaiting, nor the
    response. *)
Theorem reply_depends_on_set_of_scan_types
  (scanners : Main.Scanners) (get_translations : string -> list (string * string))
  (container_repr : value -> string) (uuid4 utcnow utcnow_iso : string)
  (request : Main.ScanRequest) (types : list string) :
  (forall k, In k types <-> In k (Main.scan_types request)) ->
  Main.start_scan scanners get_translations container_repr uuid4 utcnow
    utcnow_iso (with_scan_types request types)
  = Main.start_scan scanners get_translations container_repr uuid4 utcnow
      utcnow_iso request.
Proof.
  intros H. unfold Main.start_scan, with_scan_types, Main.tasks.
  cbn [Main.url Main.scan_types Main.language].
  rewrite (in_list_same "ssl" _ _ H), (in_list_same "ports" _ _ H),
    (in_list_same "headers" _ _ H), (in_list_same "cms" _ _ H),
    (in_list_same "ddos" _ _ H).
  reflexivity.
Qed.

Lemma reply_depends_on_set_of_scan_types_witness :
  Samples.sample_start_scan
    (Main.mkScanRequest "https://example.com" ["ssl"; "ports"; "ssl"] "ru")
  = Samples.sample_start_scan Samples.two_probe_request.
Proof.
  apply (reply_depends_on_set_of_scan_types Samples.sample_scanners
           Samples.no_translations Samples.no_repr
           "00000000-0000-4000-8000-000000000000" "2025-09-25 10:00:00"
           "2025-09-25T10:00:00" Samples.two_probe_request
           ["ssl"; "ports"; "ssl"]).
  intros k. simpl. tauto.
Defined.

Lemma https_prefix (u : string) :
  startswith ("https://" ++ u)%string "https://" = true.
Proof.
  unfold startswith. cbn [String.append String.prefix].
  repeat match goal with
    | |- context [ascii_dec ?a ?b] => destruct (ascii_dec a b); [|congruence]
    end.
  destruct u; reflexivity.
Qed.

(** X14: the URL the endpoint scans always starts with [http://] or
    [https://]; a URL that has one of the two schemes is scanned as it
    is, any other gets [https://] in front, and normalising twice changes
    nothing more. *)
Theorem normalized_url_has_scheme (u : string) :
  (startswith (Main.normalize_url u) "http://"
   || startswith (Main.normalize_url u) "https://") = true
  /\ Main.normalize_url (Main.normalize_url u) = Main.normalize_url u
  /\ ((startswith u "http://" || startswith u "https://") = true ->
      Main.normalize_url u = u)
  /\ ((startswith u "http://" || startswith u "https://") = false ->
      Main.normalize_url u = ("https://" ++ u)%string).
Proof.
  assert (H : (startswith (Main.normalize_url u) "http://"
               || startswith (Main.normalize_url u) "https://") = true).
  { unfold Main.normalize_url.
    destruct (startswith u "http://" || startswith u "https://") eqn:E;
      [exact E|]. rewrite https_prefix. apply orb_true_r. }
  split; [exact H|]. split.
  - unfold Main.normalize_url at 1. now rewrite H.
  - unfold Main.normalize_url. split; intros ->; reflexivity.
Qed.

Lemma normalized_url_has_scheme_witness :
  Main.normalize_url "example.com" = "https://example.com"
  /\ Main.normalize_url "http://example.com" = "http://example.com".
Proof.
  destruct (normalized_url_has_scheme "example.com") as [_ [_ [_ H1]]].
  destruct (normalized_url_has_scheme "http://example.com") as [_ [_ [H2 _]]].
  split; [apply H1; reflexivity|apply H2; reflexivity].
Defined.

(* ================================================================= *)
(** ** Further results on the version correlator *)

Lemma list_le_refl (a : list Z) : CMS.list_le a a = true.
Proof. induction a as [|x a IH]; simpl; [reflexivity|]. now rewrite Z.eqb_refl. Qed.

Lemma list_le_trans (a b c : list Z) :
  CMS.list_le a b = true -> CMS.list_le b c = true -> CMS.list_le a c = true.
Proof.
  revert b c. induction a as [|x a IH]; intros b c Hab Hbc; [reflexivity|].
  destruct b as [|y b]; [discriminate|]. destruct c as [|z c]; [discriminate|].
  simpl in *.
  destruct (x =? y) eqn:Exy; destruct (y =? z) eqn:Eyz;
    rewrite ?Z.eqb_eq, ?Z.eqb_neq, ?Z.ltb_lt in *.
  - subst. rewrite Z.eqb_refl. now apply IH with b.
  - subst. assert (E : (y =? z) = false) by now apply Z.eqb_neq.
    rewrite E. now apply Z.ltb_lt.
  - subst. assert (E : (x =? z) = false) by now apply Z.eqb_neq.
    rewrite E. now apply Z.ltb_lt.
  - assert (E : (x =? z) = false) by (apply Z.eqb_neq; lia).
    rewrite E. apply Z.ltb_lt. lia.
Qed.

Lemma list_le_total (a b : list Z) :
  CMS.list_le a b = true \/ CMS.list_le b a = true.
Proof.
  revert b. induction a as [|x a IH]; intros b; [now left|].
  destruct b as [|y b]; [now right|]. simpl.
  destruct (x =? y) eqn:Exy.
  - apply Z.eqb_eq in Exy. subst. rewrite Z.eqb_refl. apply IH.
  - apply Z.eqb_neq in Exy.
    assert (E : (y =? x) = false) by (apply Z.eqb_neq; lia). rewrite E.
    rewrite !Z.ltb_lt. lia.
Qed.

Lemma list_le_app_same (a b c : list Z) :
  List.length a = List.length b ->
  CMS.list_le (a ++ c) (b ++ c) = CMS.list_le a b.
Proof.
  revert b. induction a as [|x a IH]; intros [|y b] H; try discriminate.
  - simpl. apply list_le_refl.
  - simpl. destruct (x =? y); [|reflexivity]. apply IH. simpl in H. lia.
Qed.

Lemma pad_more (n m : nat) (a : list Z) :
  (List.length a <= n)%nat -> (n <= m)%nat ->
  CMS.pad m a = CMS.pad n a ++ repeat 0 (m - n).
Proof.
  intros H1 H2. unfold CMS.pad. rewrite <- app_assoc, <- repeat_app.
  do 2 f_equal. lia.
Qed.

(** The comparison does not depend on how far both lists are padded. *)
Lemma compare_padded (n m : nat) (a b : list Z) :
  (List.length a <= n)%nat -> (List.length b <= n)%nat -> (n <= m)%nat ->
  CMS.list_le (CMS.pad m a) (CMS.pad m b)
  = CMS.list_le (CMS.pad n a) (CMS.pad n b).
Proof.
  intros Ha Hb Hm. rewrite (pad_more n m a), (pad_more n m b) by lia.
  apply list_le_app_same. now rewrite !pad_length.
Qed.

Lemma vulnerable_by_parts (a b : string) (n : nat) (cs bs : list Z) :
  CMS.version_parts a = Ok cs -> CMS.version_parts b = Ok bs ->
  (List.length cs <= n)%nat -> (List.length bs <= n)%nat ->
  CMS._is_vulnerable_version a b = CMS.list_le (CMS.pad n cs) (CMS.pad n bs).
Proof.
  intros Ha Hb Hc Hd. unfold CMS._is_vulnerable_version, CMS.vulnerable_version_body.
  rewrite Ha, Hb. cbn [bind]. symmetry. apply compare_padded; lia.
Qed.

Lemma vulnerable_parses (a b : string) :
  CMS._is_vulnerable_version a b = true ->
  exists cs bs, CMS.version_parts a = Ok cs /\ CMS.version_parts b = Ok bs.
Proof.
  unfold CMS._is_vulnerable_version, CMS.vulnerable_version_body.
  destruct (CMS.version_parts a) as [cs|]; [|discriminate].
  destruct (CMS.version_parts b) as [bs|]; [|discriminate]. eauto.
Qed.

(** X15: the order the correlator puts on versions is transitive: a
    version covered by a bucket is covered by every bucket that the first
    bucket is itself at or below. *)
Theorem version_order_transitive (a b c : string) :
  CMS._is_vulnerable_version a b = true ->
  CMS._is_vulnerable_version b c = true ->
  CMS._is_vulnerable_version a c = true.
Proof.
  intros Hab Hbc.
  destruct (vulnerable_parses a b Hab) as [cs [bs [Ha Hb]]].
  destruct (vulnerable_parses b c Hbc) as [bs' [ds [Hb' Hc]]].
  rewrite Hb in Hb'. injection Hb' as <-.
  set (n := Nat.max (List.length cs) (Nat.max (List.length bs) (List.length ds))).
  rewrite (vulnerable_by_parts a b n cs bs) in Hab by (subst n; auto; lia).
  rewrite (vulnerable_by_parts b c n bs ds) in Hbc by (subst n; auto; lia).
  rewrite (vulnerable_by_parts a c n cs ds) by (subst n; auto; lia).
  now apply list_le_trans with (CMS.pad n bs).
Qed.

Lemma version_order_transitive_witness :
  CMS._is_vulnerable_version "4.7.2" "4.8" = true
  /\ CMS._is_vulnerable_version "4.8" "5.0" = true
  /\ CMS._is_vulnerable_version "4.7.2" "5.0" = true.
Proof.
  split; [reflexivity|]. split; [reflexivity|].
  apply (version_order_transitive "4.7.2" "4.8" "5.0"); reflexivity.
Defined.

(** X16: two versions that both parse are always comparable, and a
    version that parses is covered by a bucket of the same version. *)
Theorem version_order_total (a b : string) (cs bs : list Z) :
  CMS.version_parts a = Ok cs ->
  CMS.version_parts b = Ok bs ->
  (CMS._is_vulnerable_version a b = true
   \/ CMS._is_vulnerable_version b a = true)
  /\ CMS._is_vulnerable_version a a = true.
Proof.
  intros Ha Hb.
  set (n := Nat.max (List.length cs) (List.length bs)).
  rewrite (vulnerable_by_parts a b n cs bs), (vulnerable_by_parts b a n bs cs),
    (vulnerable_by_parts a a n cs cs) by (subst n; auto; lia).
  split; [apply list_le_total|apply list_le_refl].
Qed.

Lemma version_order_total_witness :
  (CMS._is_vulnerable_version "4.10" "4.9" = true
   \/ CMS._is_vulnerable_version "4.9" "4.10" = true)
  /\ CMS._is_vulnerable_version "4.10" "4.10" = true.
Proof.
  apply (version_order_total "4.10" "4.9" [4; 10] [4; 9]); reflexivity.
Defined.

Lemma split_nonempty (sep : ascii) (s : string) : split sep s <> [].
Proof.
  destruct s as [|c r]; simpl; [discriminate|].
  destruct (Ascii.eqb c sep); [discriminate|].
  destruct (split sep r); discriminate.
Qed.

Lemma split_app (sep : ascii) (s t : string) :
  split sep (s ++ String sep t)%string = split sep s ++ split sep t.
Proof.
  induction s as [|c r IH]; simpl.
  - now rewrite Ascii.eqb_refl.
  - destruct (Ascii.eqb c sep); [now rewrite IH|].
    rewrite IH. pose proof (split_nonempty sep r) as H.
    destruct (split sep r) as [|h tl]; [congruence|reflexivity].
Qed.

Lemma mapM_app {A B : Type} (f : A -> result B) (l1 l2 : list A) :
  mapM f (l1 ++ l2)
  = (a <- mapM f l1 ;; b <- mapM f l2 ;; Ok (a ++ b)).
Proof.
  induction l1 as [|x l1 IH]; simpl.
  - destruct (mapM f l2); reflexivity.
  - destruct (f x); simpl; [|reflexivity]. rewrite IH.
    destruct (mapM f l1); simpl; [|reflexivity].
    destruct (mapM f l2); reflexivity.
Qed.

Lemma parts_with_trailing_zero (v : string) :
  CMS.version_parts (v ++ ".0")%string
  = (cs <- CMS.version_parts v ;; Ok (cs ++ [0])).
Proof.
  unfold CMS.version_parts.
  change (v ++ ".0")%string with (v ++ String "." "0")%string.
  rewrite split_app, mapM_app.
  destruct (mapM CMS.int_of_str (split "." v)); reflexivity.
Qed.

Lemma pad_trailing_zero (n : nat) (cs : list Z) :
  (List.length cs < n)%nat -> CMS.pad n (cs ++ [0]) = CMS.pad n cs.
Proof.
  intros H. unfold CMS.pad. rewrite length_app, <- app_assoc. f_equal.
  cbn [List.length app].
  replace (n - List.length cs)%nat with (S (n - (List.length cs + 1)))%nat by lia.
  reflexivity.
Qed.

(** X17: a trailing [.0] changes nothing for the correlator: with it or
    without it a version is covered by the same buckets, and a bucket
    covers the same versions. *)
Theorem trailing_zero_component_ignored (v other : string) :
  CMS._is_vulnerable_version (v ++ ".0")%string other
  = CMS._is_vulnerable_version v other
  /\ CMS._is_vulnerable_version other (v ++ ".0")%string
     = CMS._is_vulnerable_version other v.
Proof.
  unfold CMS._is_vulnerable_version, CMS.vulnerable_version_body.
  rewrite parts_with_trailing_zero.
  destruct (CMS.version_parts v) as [cs|e]; cbn [bind];
    [|split; [reflexivity|destruct (CMS.version_parts other); reflexivity]].
  destruct (CMS.version_parts other) as [os|e]; cbn [bind];
    [|split; reflexivity].
  set (n := S (Nat.max (List.length cs) (List.length os))).
  assert (Hcs : List.length (cs ++ [0]) = (List.length cs + 1)%nat)
    by (rewrite length_app; reflexivity).
  split.
  - rewrite <- (compare_padded _ n (cs ++ [0]) os) by (subst n; lia).
    rewrite <- (compare_padded _ n cs os) by (subst n; lia).
    rewrite pad_trailing_zero by (subst n; lia). reflexivity.
  - rewrite <- (compare_padded _ n os (cs ++ [0])) by (subst n; lia).
    rewrite <- (compare_padded _ n os cs) by (subst n; lia).
    rewrite pad_trailing_zero by (subst n; lia). reflexivity.
Qed.

Lemma bucket_findings_In (info : CMS.CmsResults) (v : string)
  (buckets : list (string * list string)) (f : CMS.Vulnerability) :
  In f (flat_map (CMS.bucket_findings info v) buckets)
  <-> exists bucket cves cve,
        In (bucket, cves) buckets /\ In cve cves
        /\ CMS._is_vulnerable_version v bucket = true
        /\ f = CMS.mkVulnerability cve
                 ("Уязвимость в " ++ CMS.str_of_option (CMS.cms_name info) ++ " "
                    ++ v)%string
                 (CMS._get_cve_severity cve) bucket.
Proof.
  rewrite in_flat_map. split.
  - intros [[bucket cves] [Hin Hf]]. unfold CMS.bucket_findings in Hf.
    destruct (CMS._is_vulnerable_version v bucket) eqn:E; [|destruct Hf].
    apply in_map_iff in Hf. destruct Hf as [cve [<- Hcve]].
    exists bucket, cves, cve. auto.
  - intros [bucket [cves [cve [Hin [Hcve [E ->]]]]]].
    exists (bucket, cves). split; [exact Hin|].
    unfold CMS.bucket_findings. rewrite E. apply in_map_iff. eauto.
Qed.

(** X18: when a technology with a version was detected and the table
    knows it, the findings are exactly the identifiers of the buckets at
    or above that version, each with its bucket, its severity and the
    description naming the technology and the version: none is missing
    and none is added. *)
Theorem findings_are_exactly_the_covering_buckets
  (table : list (string * list (string * list string)))
  (info : CMS.CmsResults) (v key : string)
  (buckets : list (string * list string)) :
  CMS.detected info = true ->
  CMS.version info = Some v ->
  String.eqb v EmptyString = false ->
  CMS.cms_type info = Some key ->
  lookup key table = Some buckets ->
  forall f,
    In f (CMS.found (CMS._check_vulnerabilities table info))
    <-> exists bucket cves cve,
          In (bucket, cves) buckets /\ In cve cves
          /\ CMS._is_vulnerable_version v bucket = true
          /\ f = CMS.mkVulnerability cve
                   ("Уязвимость в " ++ CMS.str_of_option (CMS.cms_name info)
                      ++ " " ++ v)%string
                   (CMS._get_cve_severity cve) bucket.
Proof.
  intros Hd Hv Hne Hk Hl f. unfold CMS._check_vulnerabilities.
  rewrite Hd, Hv, Hne, Hk, Hl. cbn [CMS.found]. apply bucket_findings_In.
Qed.

Lemma findings_are_exactly_the_covering_buckets_witness :
  In (CMS.mkVulnerability "CVE-2018-6389" "Уязвимость в WordPress 4.8.3"
        "medium" "4.9")
     (CMS.found (CMS._check_vulnerabilities CMS.known_vulnerabilities
                   (CMS.mkCmsResults true (Some "wordpress") (Some "WordPress")
                      (Some "4.8.3") 75 false))).
Proof.
  apply (proj2 (findings_are_exactly_the_covering_buckets
                  CMS.known_vulnerabilities
                  (CMS.mkCmsResults true (Some "wordpress") (Some "WordPress")
                     (Some "4.8.3") 75 false)
                  "4.8.3" "wordpress"
                  [("5.0", ["CVE-2019-8942"; "CVE-2019-8943"]);
                   ("4.9", ["CVE-2018-6389"; "CVE-2017-17092"]);
                   ("4.8", ["CVE-2017-14723"; "CVE-2017-16510"])]
                  eq_refl eq_refl eq_refl eq_refl eq_refl _)).
  exists "4.9", ["CVE-2018-6389"; "CVE-2017-17092"], "CVE-2018-6389".
  split; [right; left; reflexivity|]. split; [left; reflexivity|].
  split; reflexivity.
Defined.

Lemma cve_severity_known (cve : string) :
  known_severity (CMS._get_cve_severity cve).
Proof.
  unfold CMS._get_cve_severity, CMS.severity_map, known_severity. cbn [lookup].
  repeat match goal with
         | |- context [String.eqb ?a ?b] => destruct (String.eqb a b); [auto|]
         end.
  auto.
Qed.

Lemma overall_risk_low (l : list CMS.Vulnerability) :
  Forall (fun f => known_severity (CMS.severity f)) l ->
  (CMS.overall_risk l = "low" <-> l = []).
Proof.
  intros Hall. split; [|intros ->; reflexivity].
  destruct l as [|f l]; [reflexivity|]. intros H. exfalso.
  apply Forall_inv in Hall.
  assert (Hex : existsb (String.eqb "critical") (map CMS.severity (f :: l)) = true
                \/ existsb (String.eqb "high") (map CMS.severity (f :: l)) = true
                \/ existsb (String.eqb "medium") (map CMS.severity (f :: l)) = true).
  { destruct Hall as [E|[E|E]]; [left|right; left|right; right];
      cbn [map existsb]; rewrite E; reflexivity. }
  unfold CMS.overall_risk in H.
  destruct (existsb (String.eqb "critical") (map CMS.severity (f :: l)));
    [discriminate|].
  destruct (existsb (String.eqb "high") (map CMS.severity (f :: l)));
    [discriminate|].
  destruct (existsb (String.eqb "medium") (map CMS.severity (f :: l)));
    [discriminate|].
  destruct Hex as [?|[?|?]]; discriminate.
Qed.

Lemma overall_risk_critical (l : list CMS.Vulnerability) :
  CMS.overall_risk l = "critical"
  <-> exists f, In f l /\ CMS.severity f = "critical".
Proof.
  unfold CMS.overall_risk.
  destruct (existsb (String.eqb "critical") (map CMS.severity l)) eqn:E.
  - split; [intros _|reflexivity].
    apply existsb_exists in E. destruct E as [s [Hs Es]].
    apply String.eqb_eq in Es. subst s.
    apply in_map_iff in Hs. destruct Hs as [f [Hf Hin]]. eauto.
  - split.
    + destruct (existsb (String.eqb "high") (map CMS.severity l));
        [discriminate|].
      destruct (existsb (String.eqb "medium") (map CMS.severity l)); discriminate.
    + intros [f [Hin Hf]].
      assert (Ex : existsb (String.eqb "critical") (map CMS.severity l) = true).
      { apply existsb_exists. exists "critical". split; [|reflexivity].
        apply in_map_iff. eauto. }
      congruence.
Qed.

(** X19: in every report of the correlator the count is the number of
    findings, every finding is critical, high or medium, the risk level
    is low exactly when nothing was found, and critical exactly when some
    finding is critical. *)
Theorem risk_level_summarises_findings
  (table : list (string * list (string * list string)))
  (info : CMS.CmsResults) :
  let r := CMS._check_vulnerabilities table info in
  CMS.count r = Z.of_nat (List.length (CMS.found r))
  /\ Forall (fun f => known_severity (CMS.severity f)) (CMS.found r)
  /\ (CMS.risk_level r = "low" <-> CMS.found r = [])
  /\ (CMS.risk_level r = "critical"
      <-> exists f, In f (CMS.found r) /\ CMS.severity f = "critical").
Proof.
  assert (Hnothing :
    let r := CMS.mkVulnerabilities [] 0 "low" in
    CMS.count r = Z.of_nat (List.length (CMS.found r))
    /\ Forall (fun f => known_severity (CMS.severity f)) (CMS.found r)
    /\ (CMS.risk_level r = "low" <-> CMS.found r = [])
    /\ (CMS.risk_level r = "critical"
        <-> exists f, In f (CMS.found r) /\ CMS.severity f = "critical")).
  { cbn. split; [reflexivity|]. split; [constructor|]. split; [tauto|].
    split; [discriminate|]. intros [f [[] _]]. }
  cbn zeta. unfold CMS._check_vulnerabilities.
  destruct (CMS.detected info); [|exact Hnothing].
  destruct (CMS.version info) as [v|]; [|exact Hnothing].
  destruct (String.eqb v EmptyString); [exact Hnothing|].
  destruct (CMS.cms_type info) as [key|]; [|exact Hnothing].
  destruct (lookup key table) as [buckets|]; [|exact Hnothing].
  cbn [CMS.count CMS.found CMS.risk_level].
  assert (Hall : Forall (fun f => known_severity (CMS.severity f))
                   (flat_map (CMS.bucket_findings info v) buckets)).
  { apply Forall_forall. intros f Hf. apply bucket_findings_In in Hf.
    destruct Hf as [bucket [cves [cve [_ [_ [_ ->]]]]]].
    apply cve_severity_known. }
  split; [reflexivity|]. split; [exact Hall|].
  split; [now apply overall_risk_low|apply overall_risk_critical].
Qed.

(* ================================================================= *)
(** ** Further results on the fingerprint engine *)

Section EngineFacts.

Variable re_search : string -> string -> option (list (option string)).
Variable surface : CMS.Surface.

Local Abbreviation conf := (confidence_of re_search surface).

Lemma request_log_loop (l : list (string * CMS.Signature)) (b : CMS.BestMatch)
  (log : list string) :
  snd (fold_left (CMS.consider re_search surface) l (b, log))
  = log ++ flat_map (fun e => firstn 2 (CMS.paths (snd e))) l.
Proof.
  revert b log. induction l as [|[k sig] l IH]; intros b log.
  - simpl. now rewrite app_nil_r.
  - cbn [fold_left flat_map]. rewrite consider_step, IH, evaluate_sum.
    cbn [snd]. now rewrite app_assoc.
Qed.

(** X20: the auxiliary requests of a detection are the first two paths
    of every candidate of the table, in table order, whatever the page
    and the answers were: a match does not end the loop.  With the table
    of the program that is the same ten requests for every target. *)
Theorem detection_requests_fixed_by_table
  (signatures : list (string * CMS.Signature)) :
  snd (CMS._detect_cms re_search signatures (Some surface))
  = flat_map (fun e => firstn 2 (CMS.paths (snd e))) signatures
  /\ snd (CMS._detect_cms re_search CMS.cms_signatures (Some surface))
     = ["/wp-admin/"; "/wp-content/"; "/user/login"; "/admin/";
        "/administrator/"; "/components/"; "/admin/"; "/downloader/";
        "/admin/"; "/catalog/"].
Proof.
  assert (H : forall sigs,
            snd (CMS._detect_cms re_search sigs (Some surface))
            = flat_map (fun e => firstn 2 (CMS.paths (snd e))) sigs).
  { intros sigs. unfold CMS._detect_cms, CMS.detect_from, CMS.best_of.
    pose proof (request_log_loop sigs (CMS.mkBestMatch None 0 None) []) as Hlog.
    destruct (fold_left (CMS.consider re_search surface) sigs
                (CMS.mkBestMatch None 0 None, [])) as [b log].
    cbn [snd] in *. exact Hlog. }
  split; [apply H|]. rewrite H. reflexivity.
Qed.

Lemma count_le_length {A : Type} (p : A -> bool) (l : list A) :
  0 <= count p l <= Z.of_nat (List.length l).
Proof.
  unfold count. pose proof (filter_length_le p l). lia.
Qed.

Lemma confidence_bounds (sig : CMS.Signature) :
  0 <= conf sig
  <= 20 * Z.of_nat (List.length (CMS.headers sig))
     + 30 * Z.of_nat (List.length (CMS.meta sig))
     + 15 * Z.of_nat (List.length (CMS.patterns sig))
     + 50.
Proof.
  unfold confidence_of. rewrite evaluate_sum. cbn [fst]. unfold signal_sum.
  pose proof (count_le_length (header_matched surface) (CMS.headers sig)).
  pose proof (count_le_length (pattern_matched re_search surface) (CMS.meta sig)).
  pose proof (count_le_length (pattern_matched re_search surface)
                (CMS.patterns sig)).
  pose proof (count_le_length (path_reachable surface)
                (firstn 2 (CMS.paths sig))).
  pose proof (firstn_le_length 2 (CMS.paths sig)).
  lia.
Qed.

(** What a detection reports: nothing, or a candidate of the table
    whose confidence is above 50. *)
Lemma detect_cases (signatures : list (string * CMS.Signature)) :
  let r := fst (CMS.detect_from re_search surface signatures) in
  (CMS.detected r = false /\ CMS.cms_type r = None /\ CMS.confidence r = 0)
  \/ exists k sig,
       In (k, sig) signatures /\ CMS.detected r = true
       /\ CMS.cms_type r = Some k /\ CMS.confidence r = conf sig
       /\ 50 < conf sig.
Proof.
  cbn zeta. unfold CMS.detect_from, CMS.best_of.
  destruct (fold_left (CMS.consider re_search surface) signatures
              (CMS.mkBestMatch None 0 None, [])) as [b' log] eqn:Efold.
  apply best_of_loop in Efold. cbn [fst CMS.best_confidence] in *.
  destruct Efold as [[-> _]|[pre [k [sig [post H]]]]].
  - left. cbn. auto.
  - destruct H as [Hl [H1 [H2 _]]].
    assert (Hk : In (k, sig) signatures)
      by (rewrite Hl; apply in_or_app; right; now left).
    destruct (lookup_of_In re_search k sig signatures Hk) as [sig0 Hlook].
    rewrite H1, H2, Hlook.
    destruct (50 <? conf sig) eqn:E; cbn.
    + apply Z.ltb_lt in E. right. exists k, sig. auto.
    + left. auto.
Qed.

(** X21: a confidence is never negative and never more than 20 per
    header, 30 per meta pattern and 15 per content pattern of the
    signature plus 50 for its paths; with the table of the program a
    detection therefore reports a confidence of 0, when it found nothing,
    or one from 51 to 150. *)
Theorem confidence_bounded_by_signature :
  (forall sig,
     0 <= conf sig
     <= 20 * Z.of_nat (List.length (CMS.headers sig))
        + 30 * Z.of_nat (List.length (CMS.meta sig))
        + 15 * Z.of_nat (List.length (CMS.patterns sig))
        + 50)
  /\ let r := fst (CMS.detect_from re_search surface CMS.cms_signatures) in
     (CMS.detected r = false /\ CMS.confidence r = 0)
     \/ (CMS.detected r = true /\ 50 < CMS.confidence r <= 150).
Proof.
  split; [apply confidence_bounds|].
  destruct (detect_cases CMS.cms_signatures)
    as [[H1 [_ H2]]|[k [sig [Hin [H1 [_ [H2 H3]]]]]]]; [now left|].
  right. split; [exact H1|]. rewrite H2. split; [exact H3|].
  pose proof (confidence_bounds sig) as Hb.
  unfold CMS.cms_signatures in Hin. cbn [In] in Hin.
  repeat (destruct Hin as [Hin|Hin];
          [injection Hin as _ <-;
           cbn [CMS.headers CMS.meta CMS.patterns List.length] in Hb; lia|]).
  destruct Hin.
Qed.

Lemma reachable_status (path : string) :
  path_reachable surface path = true -> CMS.path_status surface path = Some 200.
Proof.
  unfold path_reachable. destruct (CMS.path_status surface path) as [c|];
    [|discriminate].
  intros H. apply Z.eqb_eq in H. now subst.
Qed.

(** X22: with the table of the program, paths alone never detect
    Magento or OpenCart, two answering paths giving 50 and the threshold
    asking for more: OpenCart is reported only when its content pattern
    is on the page and [/admin/] and [/catalog/] both answer 200, Magento
    only when one of its content patterns is on the page and [/admin/] or
    [/downloader/] answers 200. *)
Theorem opencart_and_magento_need_page_and_paths :
  let r := fst (CMS.detect_from re_search surface CMS.cms_signatures) in
  (CMS.cms_type r = Some "opencart" ->
   pattern_matched re_search surface "/catalog/view/theme/" = true
   /\ CMS.path_status surface "/admin/" = Some 200
   /\ CMS.path_status surface "/catalog/" = Some 200)
  /\ (CMS.cms_type r = Some "magento" ->
      (pattern_matched re_search surface "/skin/frontend/" = true
       \/ pattern_matched re_search surface "/media/catalog/" = true)
      /\ (CMS.path_status surface "/admin/" = Some 200
          \/ CMS.path_status surface "/downloader/" = Some 200)).
Proof.
  cbn zeta.
  destruct (detect_cases CMS.cms_signatures)
    as [[_ [H _]]|[k [sig [Hin [_ [Hk [_ Hgt]]]]]]].
  - rewrite H. split; discriminate.
  - rewrite Hk. unfold confidence_of in Hgt. rewrite evaluate_sum in Hgt.
    cbn [fst] in Hgt. unfold signal_sum in Hgt.
    unfold CMS.cms_signatures in Hin. cbn [In] in Hin.
    split; intros [= ->];
      repeat (destruct Hin as [Hin|Hin];
              [try discriminate Hin; injection Hin as <-|]);
      try destruct Hin;
      cbn [CMS.headers CMS.meta CMS.patterns CMS.paths firstn] in Hgt;
      rewrite ?count_cons in Hgt; unfold count in Hgt;
      cbn [filter List.length] in Hgt.
    + destruct (pattern_matched re_search surface "/catalog/view/theme/");
        destruct (path_reachable surface "/admin/") eqn:Ea;
        destruct (path_reachable surface "/catalog/") eqn:Ec;
        try (exfalso; lia).
      auto using reachable_status.
    + destruct (pattern_matched re_search surface "/skin/frontend/");
        destruct (pattern_matched re_search surface "/media/catalog/");
        destruct (path_reachable surface "/admin/") eqn:Ea;
        destruct (path_reachable surface "/downloader/") eqn:Ec;
        try (exfalso; lia);
        auto using reachable_status.
Qed.

End EngineFacts.

(** With the table of the program the confidence reported does reach
    150: a site that shows every signal is reported as Drupal, whose
    signature has two headers. *)
Example drupal_confidence_150 :
  fst (CMS.detect_from every_pattern every_signal_surface CMS.cms_signatures)
  = CMS.mkCmsResults true (Some "drupal") (Some "Drupal") None 150 false.
Proof. vm_compute. reflexivity. Qed.

Lemma opencart_and_magento_need_page_and_paths_witness :
  CMS.cms_type (fst (CMS.detect_from Samples.literal_search opencart_surface
                       CMS.cms_signatures)) = Some "opencart"
  /\ pattern_matched Samples.literal_search opencart_surface
       "/catalog/view/theme/" = true
  /\ CMS.path_status opencart_surface "/admin/" = Some 200
  /\ CMS.path_status opencart_surface "/catalog/" = Some 200.
Proof.
  split; [vm_compute; reflexivity|].
  apply (proj1 (opencart_and_magento_need_page_and_paths
                  Samples.literal_search opencart_surface)).
  vm_compute. reflexivity.
Defined.

(* ================================================================= *)
(** ** Further results on the scanners' calculators *)

Lemma get_error_set (v : value) :
  has_error v = true ->
  exists e, get v "error" VNone = Ok e /\ truthy e = true.
Proof.
  unfold has_error, get. destruct v as [| | | | |d]; try discriminate.
  destruct (lookup "error" d) as [e|]; [|discriminate]. eauto.
Qed.

(** X23: the SSL calculator never gives less than 20, the points of the
    connection itself, nor more than 100; and it gives exactly 20 when
    the certificate, protocol and cipher reports all carry an error. *)
Theorem ssl_score_at_least_20
  (ssl_info cert_info protocol_info cipher_info : value) :
  ensures (fun s => 20 <= s <= 100)
    (Scanners._calculate_ssl_score ssl_info cert_info protocol_info cipher_info)
  /\ (has_error cert_info = true -> has_error protocol_info = true ->
      has_error cipher_info = true ->
      Scanners._calculate_ssl_score ssl_info cert_info protocol_info cipher_info
      = Ok 20).
Proof.
  split.
  - unfold Scanners._calculate_ssl_score.
    apply ensures_bind_any; intros cert_err.
    apply ensures_bind with (Q := fun s => 20 <= s).
    { destruct (truthy cert_err); [simpl; lia|].
      repeat (apply ensures_bind_any; intros).
      repeat match goal with |- context [if ?b then _ else _] => destruct b end;
        simpl; lia. }
    intros s1 H1.
    apply ensures_bind_any; intros proto_err.
    apply ensures_bind with (Q := fun s => 20 <= s).
    { destruct (truthy proto_err); [simpl; lia|].
      apply ensures_bind_any; intros modern.
      apply ensures_bind_any; intros weak.
      apply ensures_bind_any; intros tls13.
      apply ensures_bind with (Q := fun s => 20 <= s).
      { destruct tls13; [simpl; lia|].
        apply ensures_bind_any; intros tls12. destruct tls12; simpl; lia. }
      intros s2 H2. destruct (truthy weak); [|simpl; lia].
      apply ensures_bind_any; intros n.
      repeat match goal with |- context [if ?b then _ else _] => destruct b end;
        simpl; lia. }
    intros s2 H2.
    apply ensures_bind_any; intros cipher_err.
    apply ensures_bind with (Q := fun s => 20 <= s).
    { destruct (truthy cipher_err); [simpl; lia|].
      apply ensures_bind_any; intros strong.
      apply ensures_bind with (Q := fun s => 20 <= s).
      { destruct (truthy strong); [simpl; lia|].
        apply ensures_bind_any; intros bits.
        apply ensures_bind_any; intros b128. destruct b128; [simpl; lia|].
        apply ensures_bind_any; intros b64. destruct b64; simpl; lia. }
      intros s3 H3. apply ensures_bind_any; intros weak_ciphers.
      destruct (truthy weak_ciphers); simpl; lia. }
    intros s3 H3. simpl. lia.
  - intros Hc Hp Hx.
    destruct (get_error_set _ Hc) as [e1 [G1 T1]].
    destruct (get_error_set _ Hp) as [e2 [G2 T2]].
    destruct (get_error_set _ Hx) as [e3 [G3 T3]].
    unfold Scanners._calculate_ssl_score.
    rewrite G1. cbn [bind]. rewrite T1. cbn [bind].
    rewrite G2. cbn [bind]. rewrite T2. cbn [bind].
    rewrite G3. cbn [bind]. rewrite T3. cbn [bind].
    reflexivity.
Qed.

Lemma ssl_score_at_least_20_witness :
  Scanners._calculate_ssl_score (VDict [])
    (VDict [("error", VStr "timed out")])
    (VDict [("error", VStr "timed out")])
    (VDict [("error", VStr "timed out")]) = Ok 20.
Proof.
  apply (proj2 (ssl_score_at_least_20 (VDict [])
                  (VDict [("error", VStr "timed out")])
                  (VDict [("error", VStr "timed out")])
                  (VDict [("error", VStr "timed out")]))); reflexivity.
Defined.

Lemma try_headers_hit (headers : list (string * string)) (k : string)
  (p : DDoS.Provider) (candidates : list string) (acc : value) :
  DDoS.try_headers headers k p candidates acc
  = if existsb (fun h => has_key (lower h) headers) candidates
    then DDoS.cdn_result true (VStr k) (VStr (DDoS.provider_name p))
           (VStr (DDoS.protection_level p))
    else acc.
Proof.
  induction candidates as [|h rest IH]; [reflexivity|].
  cbn [DDoS.try_headers existsb].
  destruct (has_key (lower h) headers); [reflexivity|exact IH].
Qed.

Lemma detect_cdn_loop (headers : list (string * string))
  (providers : list (string * DDoS.Provider)) (acc : value) :
  fold_left (DDoS.try_provider headers) providers acc
  = match rev (filter (provider_hit headers) providers) with
    | [] => acc
    | (k, p) :: _ =>
        DDoS.cdn_result true (VStr k) (VStr (DDoS.provider_name p))
          (VStr (DDoS.protection_level p))
    end.
Proof.
  revert acc. induction providers as [|[k p] l IH]; intros acc; [reflexivity|].
  cbn [fold_left filter]. rewrite IH.
  unfold DDoS.try_provider at 1. rewrite try_headers_hit. cbn [fst snd].
  unfold provider_hit at 2. cbn [snd].
  destruct (existsb (fun h => has_key (lower h) headers)
              (DDoS.provider_headers p)).
  - cbn [rev].
    destruct (rev (filter (provider_hit headers) l)) as [|[k' p'] tl];
      reflexivity.
  - reflexivity.
Qed.

(** X24: the CDN detection reports the last provider of the table, in
    table order, of which the response carries a header, and reports no
    detection exactly when there is none: a later provider overwrites an
    earlier one. *)
Theorem cdn_detection_last_provider_wins
  (providers : list (string * DDoS.Provider))
  (headers : list (string * string)) :
  DDoS._detect_cdn providers (inr headers)
  = match rev (filter (provider_hit headers) providers) with
    | [] => DDoS.cdn_result false VNone VNone VNone
    | (k, p) :: _ =>
        DDoS.cdn_result true (VStr k) (VStr (DDoS.provider_name p))
          (VStr (DDoS.protection_level p))
    end.
Proof. unfold DDoS._detect_cdn. apply detect_cdn_loop. Qed.

Lemma no_hit_filter {A : Type} (f : A -> bool) (l : list A) :
  existsb f l = false -> filter f l = [].
Proof.
  induction l as [|x l IH]; [reflexivity|]. cbn [existsb filter].
  destruct (f x); [discriminate|exact IH].
Qed.

(** X25: when the CDN request raised or the response carries no header
    of any provider, the protection calculator returns at most 50 and
    the status is critical, whatever the DNS and rate-limit reports say. *)
Theorem no_cdn_scores_critical
  (providers : list (string * DDoS.Provider))
  (response : string + list (string * string))
  (dns rate : dict) (limited : value) :
  no_cdn_seen providers response = true ->
  lookup "detected" rate = Some limited ->
  exists s,
    Scanners._calculate_protection_score (VDict dns)
      (DDoS._detect_cdn providers response) (VDict rate) = Ok s
    /\ 0 <= s <= 50
    /\ Scanners._determine_status s = "critical".
Proof.
  intros Hno Hrate.
  assert (Hd : subscript_str (DDoS._detect_cdn providers response) "detected"
               = Ok (VBool false)).
  { destruct response as [message|headers].
    - reflexivity.
    - unfold no_cdn_seen in Hno. apply Bool.negb_true_iff in Hno.
      unfold DDoS._detect_cdn. rewrite detect_cdn_loop.
      rewrite (no_hit_filter _ _ Hno). reflexivity. }
  unfold Scanners._calculate_protection_score. rewrite Hd.
  cbn [bind truthy get subscript_str]. rewrite Hrate. cbn [bind].
  destruct (truthy match lookup "single_ip" dns with
                   | Some x => x
                   | None => VBool true
                   end);
    destruct (truthy limited); eexists; (split; [reflexivity|]);
    (vm_compute; split; [split; discriminate|reflexivity]).
Qed.

Lemma no_cdn_scores_critical_witness :
  exists s,
    Scanners._calculate_protection_score
      (VDict [("single_ip", VBool false)])
      (DDoS._detect_cdn DDoS.cdn_providers (inr [("server", "nginx")]))
      (VDict [("detected", VBool true)]) = Ok s
    /\ 0 <= s <= 50
    /\ Scanners._determine_status s = "critical".
Proof.
  apply (no_cdn_scores_critical DDoS.cdn_providers (inr [("server", "nginx")])
           [("single_ip", VBool false)] [("detected", VBool true)] (VBool true));
    reflexivity.
Defined.

(* ================================================================= *)
(** ** The port analysis and its score *)

Lemma penalty_of_entry (sc p : Z) (svc risk reason det : string) :
  Scanners.port_penalty sc (Ports.dangerous_entry p svc risk reason det)
  = Ok (sc - risk_penalty risk).
Proof.
  unfold Scanners.port_penalty, Ports.dangerous_entry.
  change (subscript_str
            (VDict [("port", VInt p); ("service", VStr svc); ("risk", VStr risk);
                    ("reason", VStr reason); ("detected_service", VStr det)])
            "risk") with (Ok (VStr risk)).
  cbn [bind eq_str]. unfold risk_penalty.
  destruct (String.eqb risk "critical"); [reflexivity|].
  destruct (String.eqb risk "high"); [reflexivity|].
  destruct (String.eqb risk "medium"); reflexivity.
Qed.

Lemma penalty_of_report (sc : Z) (p : Ports.OpenPort) :
  is_dangerous p = true ->
  Scanners.port_penalty sc (dangerous_report p) = Ok (sc - port_penalty p).
Proof.
  unfold is_dangerous, port_penalty, port_risk, dangerous_report.
  destruct (Ports.lookup_port (Ports.port p) Ports.dangerous_ports)
    as [[[svc risk] reason]|].
  - intros _. apply penalty_of_entry.
  - destruct (existsb (Z.eqb (Ports.port p)) Ports.safe_ports);
      [discriminate|].
    intros _. apply penalty_of_entry.
Qed.

Lemma classify_cases (d s a : list value) (p : Ports.OpenPort) :
  Ports.classify (d, s, a) p
  = if is_dangerous p
    then (d ++ [dangerous_report p], s, a ++ [Ports.port_dict p])
    else (d, s ++ [Ports.port_dict p], a ++ [Ports.port_dict p]).
Proof.
  unfold Ports.classify, is_dangerous, port_risk, dangerous_report.
  destruct (Ports.lookup_port (Ports.port p) Ports.dangerous_ports)
    as [[[svc risk] reason]|]; [reflexivity|].
  destruct (existsb (Z.eqb (Ports.port p)) Ports.safe_ports); reflexivity.
Qed.

Lemma safe_port_costs_nothing (p : Ports.OpenPort) :
  is_dangerous p = false -> port_penalty p = 0.
Proof.
  unfold is_dangerous, port_penalty.
  destruct (port_risk (Ports.port p)); [discriminate|reflexivity].
Qed.

Lemma foldM_app {A B : Type} (f : A -> B -> result A) (l1 l2 : list B) (a : A) :
  foldM f (l1 ++ l2) a = (a' <- foldM f l1 a ;; foldM f l2 a').
Proof.
  revert a. induction l1 as [|x l1 IH]; intros a; [reflexivity|].
  cbn [app foldM]. destruct (f a x); cbn [bind]; [apply IH|reflexivity].
Qed.

Lemma classify_fold (l : list Ports.OpenPort) (d s a : list value) :
  fold_left Ports.classify l (d, s, a)
  = (d ++ map dangerous_report (filter is_dangerous l),
     s ++ map Ports.port_dict (filter (fun p => negb (is_dangerous p)) l),
     a ++ map Ports.port_dict l).
Proof.
  revert d s a. induction l as [|p l IH]; intros d s a.
  - cbn [fold_left filter map]. now rewrite !app_nil_r.
  - cbn [fold_left filter map]. rewrite classify_cases.
    destruct (is_dangerous p); cbn [negb map]; rewrite IH, <- !app_assoc;
      reflexivity.
Qed.

Lemma penalties_of_reports (l : list Ports.OpenPort) (sc : Z) :
  foldM Scanners.port_penalty (map dangerous_report (filter is_dangerous l)) sc
  = Ok (sc - penalties l).
Proof.
  unfold penalties. revert sc. induction l as [|p l IH]; intros sc.
  - cbn. f_equal. lia.
  - cbn [filter map fold_right]. destruct (is_dangerous p) eqn:E.
    + cbn [map foldM]. rewrite (penalty_of_report sc p E). cbn [bind].
      rewrite IH. f_equal. lia.
    + rewrite IH, (safe_port_costs_nothing p E). f_equal.
Qed.

Lemma filter_nil_existsb {A : Type} (f : A -> bool) (l : list A) :
  match filter f l with [] => true | _ => false end = negb (existsb f l).
Proof.
  induction l as [|x l IH]; [reflexivity|]. cbn [filter existsb].
  destruct (f x); [reflexivity|exact IH].
Qed.

(** The score of a scan in terms of the open ports it found: the
    calculator always returns on the analysis of those ports. *)
Lemma port_score_formula (ports : list Ports.OpenPort) :
  Scanners._calculate_port_score (Ports._analyze_ports ports)
  = Ok (expected_port_score ports).
Proof.
  unfold Ports._analyze_ports. rewrite classify_fold. cbn [app].
  unfold Scanners._calculate_port_score.
  change (subscript_str
            (VDict [("open_ports", VList (map Ports.port_dict ports));
                    ("dangerous_ports",
                     VList (map dangerous_report (filter is_dangerous ports)));
                    ("secure_ports",
                     VList (map Ports.port_dict
                              (filter (fun p => negb (is_dangerous p)) ports)))])
            "dangerous_ports")
    with (Ok (VList (map dangerous_report (filter is_dangerous ports)))).
  change (subscript_str
            (VDict [("open_ports", VList (map Ports.port_dict ports));
                    ("dangerous_ports",
                     VList (map dangerous_report (filter is_dangerous ports)));
                    ("secure_ports",
                     VList (map Ports.port_dict
                              (filter (fun p => negb (is_dangerous p)) ports)))])
            "open_ports") with (Ok (VList (map Ports.port_dict ports))).
  cbn [bind iter_items]. rewrite penalties_of_reports.
  cbn [bind len]. rewrite length_map.
  assert (Ht : truthy (VList (map dangerous_report (filter is_dangerous ports)))
               = existsb is_dangerous ports).
  { pose proof (filter_nil_existsb is_dangerous ports) as Hn.
    cbn [truthy]. destruct (filter is_dangerous ports) as [|y tl];
      cbn [map]; now destruct (existsb is_dangerous ports). }
  rewrite Ht. unfold expected_port_score. cbn zeta.
  destruct (10 <? Z.of_nat (List.length ports));
    [reflexivity|].
  destruct (5 <? Z.of_nat (List.length ports)); reflexivity.
Qed.

Lemma dangerous_iff_not_safe (p : Ports.OpenPort) :
  is_dangerous p = negb (is_safe p).
Proof.
  unfold is_dangerous, is_safe, port_risk.
  destruct (Ports.lookup_port (Ports.port p) Ports.dangerous_ports)
    as [[[svc risk] reason]|] eqn:E.
  - unfold Ports.dangerous_ports in E. cbn [Ports.lookup_port] in E.
    repeat match type of E with
           | (if ?x =? ?y then _ else _) = _ =>
               let H := fresh in
               destruct (x =? y) eqn:H;
                 [apply Z.eqb_eq in H; rewrite H; reflexivity|]
           end.
    discriminate.
  - destruct (existsb (Z.eqb (Ports.port p)) Ports.safe_ports); reflexivity.
Qed.

(** X26: the analysis keeps every open port, in order, files as secure
    exactly the open ports 80, 443, 22 and 53 and as dangerous every
    other one, with its own port number and detected service and with
    the service, risk and reason of the table of dangerous ports, or as
    an unknown port of medium risk when the table does not have it; so
    the two lists together are as long as the list of open ports. *)
Theorem port_analysis_partitions_open_ports (ports : list Ports.OpenPort) :
  exists dangerous,
    Ports._analyze_ports ports
    = VDict [("open_ports", VList (map Ports.port_dict ports));
             ("dangerous_ports", VList dangerous);
             ("secure_ports",
              VList (map Ports.port_dict (filter is_safe ports)))]
    /\ List.length dangerous
       = List.length (filter (fun p => negb (is_safe p)) ports)
    /\ (List.length dangerous + List.length (filter is_safe ports)
        = List.length ports)%nat
    /\ dangerous
       = map dangerous_report (filter (fun p => negb (is_safe p)) ports).
Proof.
  unfold Ports._analyze_ports. rewrite classify_fold. cbn [app].
  assert (Hsafe : filter (fun p => negb (is_dangerous p)) ports
                  = filter is_safe ports).
  { apply filter_ext. intros p. rewrite dangerous_iff_not_safe.
    apply Bool.negb_involutive. }
  assert (Hdang : filter is_dangerous ports
                  = filter (fun p => negb (is_safe p)) ports).
  { apply filter_ext. intros p. apply dangerous_iff_not_safe. }
  rewrite Hsafe, Hdang. eexists. split; [reflexivity|].
  rewrite length_map. split; [reflexivity|]. split; [|reflexivity].
  clear. induction ports as [|p l IH]; [reflexivity|].
  cbn [filter]. destruct (is_safe p); cbn [negb List.length]; lia.
Qed.

Lemma port_penalty_nonneg (p : Ports.OpenPort) : 0 <= port_penalty p.
Proof.
  unfold port_penalty, risk_penalty.
  destruct (port_risk (Ports.port p)) as [risk|]; [|lia].
  repeat match goal with
         | |- context [if ?b then _ else _] => destruct b
         end; lia.
Qed.

Lemma penalties_at_least (ports : list Ports.OpenPort) (p : Ports.OpenPort) :
  In p ports -> port_penalty p <= penalties ports.
Proof.
  unfold penalties. induction ports as [|q l IH]; [intros []|].
  cbn [map fold_right]. intros [->|H].
  - assert (0 <= fold_right Z.add 0 (map port_penalty l)).
    { clear. induction l as [|x l IH]; cbn [map fold_right]; [lia|].
      pose proof (port_penalty_nonneg x). lia. }
    lia.
  - specialize (IH H). pose proof (port_penalty_nonneg q). lia.
Qed.

Lemma existsb_In {A : Type} (f : A -> bool) (l : list A) (x : A) :
  In x l -> f x = true -> existsb f l = true.
Proof. intros Hin Hf. apply existsb_exists. eauto. Qed.

(** X27: when Telnet (23) or Redis (6379) is among the open ports, the
    port score of the scan is at most 75 and the status is not good. *)
Theorem critical_port_caps_score (ports : list Ports.OpenPort)
  (p : Ports.OpenPort) :
  In p ports ->
  Ports.port p = 23 \/ Ports.port p = 6379 ->
  exists s,
    Scanners._calculate_port_score (Ports._analyze_ports ports) = Ok s
    /\ 0 <= s <= 75
    /\ Scanners._determine_status s <> "good".
Proof.
  intros Hin Hp. rewrite port_score_formula. eexists. split; [reflexivity|].
  assert (Hpen : port_penalty p = 25)
    by (unfold port_penalty; destruct Hp as [-> | ->]; reflexivity).
  assert (Hdan : is_dangerous p = true)
    by (unfold is_dangerous; destruct Hp as [-> | ->]; reflexivity).
  pose proof (penalties_at_least ports p Hin) as Hsum.
  assert (Hs : 0 <= expected_port_score ports <= 75).
  { unfold expected_port_score, clamp. cbn zeta.
    rewrite (existsb_In is_dangerous ports p Hin Hdan). cbn [negb andb].
    destruct (10 <? Z.of_nat (List.length ports));
      [|destruct (5 <? Z.of_nat (List.length ports))]; lia. }
  split; [exact Hs|]. unfold Scanners._determine_status.
  destruct (80 <=? expected_port_score ports) eqn:E;
    [apply Z.leb_le in E; lia|].
  destruct (60 <=? expected_port_score ports); discriminate.
Qed.

Lemma critical_port_caps_score_witness :
  exists s,
    Scanners._calculate_port_score
      (Ports._analyze_ports [tcp_port 80 "http"; tcp_port 23 "telnet"]) = Ok s
    /\ 0 <= s <= 75
    /\ Scanners._determine_status s <> "good".
Proof.
  apply (critical_port_caps_score [tcp_port 80 "http"; tcp_port 23 "telnet"]
           (tcp_port 23 "telnet")).
  - right. left. reflexivity.
  - left. reflexivity.
Defined.

Lemma safe_penalties (ports : list Ports.OpenPort) :
  Forall (fun p => is_safe p = true) ports ->
  penalties ports = 0 /\ existsb is_dangerous ports = false.
Proof.
  unfold penalties. induction 1 as [|p l Hp _ [IH1 IH2]]; [split; reflexivity|].
  cbn [map fold_right existsb]. rewrite IH1, IH2.
  assert (Hd : is_dangerous p = false)
    by (rewrite dangerous_iff_not_safe, Hp; reflexivity).
  rewrite Hd. split; [|reflexivity].
  unfold port_penalty. unfold is_dangerous in Hd.
  destruct (port_risk (Ports.port p)); [discriminate|reflexivity].
Qed.

(** X28: when every open port is one of 80, 443, 22 and 53, the port
    score of the scan is at least 90 and the status is good; with at most
    five such ports the score is 100. *)
Theorem only_safe_ports_score_good (ports : list Ports.OpenPort) :
  Forall (fun p => is_safe p = true) ports ->
  exists s,
    Scanners._calculate_port_score (Ports._analyze_ports ports) = Ok s
    /\ 90 <= s <= 100
    /\ Scanners._determine_status s = "good"
    /\ ((List.length ports <= 5)%nat -> s = 100).
Proof.
  intros Hsafe. rewrite port_score_formula. eexists. split; [reflexivity|].
  destruct (safe_penalties ports Hsafe) as [Hp Hd].
  assert (Hs : 90 <= expected_port_score ports <= 100
               /\ ((List.length ports <= 5)%nat
                   -> expected_port_score ports = 100)).
  { unfold expected_port_score, clamp. cbn zeta. rewrite Hp, Hd. cbn [negb andb].
    destruct (10 <? Z.of_nat (List.length ports)) eqn:E10;
      [|destruct (5 <? Z.of_nat (List.length ports)) eqn:E5];
      destruct (Z.of_nat (List.length ports) <=? 3) eqn:E3;
      rewrite ?Z.ltb_lt, ?Z.ltb_ge, ?Z.leb_le, ?Z.leb_gt in *; lia. }
  destruct Hs as [Hr H100]. split; [exact Hr|]. split; [|exact H100].
  unfold Scanners._determine_status.
  destruct (80 <=? expected_port_score ports) eqn:E; [reflexivity|].
  apply Z.leb_gt in E. lia.
Qed.

Lemma only_safe_ports_score_good_witness :
  exists s,
    Scanners._calculate_port_score
      (Ports._analyze_ports [tcp_port 80 "http"; tcp_port 443 "https"]) = Ok s
    /\ 90 <= s <= 100
    /\ Scanners._determine_status s = "good"
    /\ ((List.length [tcp_port 80 "http"; tcp_port 443 "https"] <= 5)%nat
        -> s = 100).
Proof.
  apply (only_safe_ports_score_good [tcp_port 80 "http"; tcp_port 443 "https"]).
  repeat constructor.
Defined.

(* ================================================================= *)
(** ** The translation lookups *)

Section Translations.

Variable TRANSLATIONS : list (string * list (string * string)).

(** X29: as long as the table has Russian, a lookup never raises,
    whatever the language asked for; a language that the table does not
    have is answered as Russian; and a key that the language does not
    have is answered by the key itself when no default is given. *)
Theorem translate_falls_back_to_russian (key language : string)
  (default : option string) :
  has_key "ru" TRANSLATIONS = true ->
  (exists text, I18n.translate TRANSLATIONS key language default = Ok text)
  /\ (has_key language TRANSLATIONS = false ->
      I18n.translate TRANSLATIONS key language default
      = I18n.translate TRANSLATIONS key "ru" default)
  /\ (forall translations,
        I18n.get_translations TRANSLATIONS language = Ok translations ->
        lookup key translations = None ->
        I18n.translate TRANSLATIONS key language None = Ok key).
Proof.
  intros Hru. unfold I18n.translate, I18n.get_translations. rewrite Hru.
  split; [|split].
  - destruct (has_key language TRANSLATIONS) eqn:E.
    + unfold has_key in E.
      destruct (lookup language TRANSLATIONS); [|discriminate].
      cbn [bind]. eauto.
    + unfold has_key in Hru.
      destruct (lookup "ru" TRANSLATIONS); [|discriminate].
      cbn [bind]. eauto.
  - intros E. rewrite E. reflexivity.
  - intros translations Ht Hk. rewrite Ht. cbn [bind]. now rewrite Hk.
Qed.

End Translations.

Lemma translate_falls_back_to_russian_witness :
  I18n.translate sample_translations "scan" "en" None
  = I18n.translate sample_translations "scan" "ru" None.
Proof.
  apply (proj1 (proj2 (translate_falls_back_to_russian sample_translations
                         "scan" "en" None eq_refl))).
  reflexivity.
Defined.
